(** * A model of aurelia-style-binding-command-plugin (src/dist/es2015/index.js)

    The plugin keeps one CSS property of an element in sync with a binding
    expression.  Its two classes are [InlineStyleObserver] (one per element
    and hyphenated property, cached on the element) and [StyleBinding] (one
    per binding attribute).  The model below follows the ES2015 build line
    by line; the external collaborators (the expression, the subscriber
    collection of aurelia-binding, the DOM style declaration and the
    mutation observer) are modelled as the platform and the library
    document them. *)

From Stdlib Require Import String Ascii.
From stdpp Require Import base gmap strings list.

Open Scope string_scope.

(** ** JavaScript values *)

(** The values that flow through bindings.  Numbers are modelled as
    naturals plus [NaN], the one value with [x !== x]. *)
Inductive Val :=
| VUndef
| VNull
| VBool (b : bool)
| VNum (n : nat)
| VNaN
| VStr (s : string)
| VObj (ref : nat).

(** [===] *)
Definition strict_eqb (a b : Val) : bool :=
  match a, b with
  | VUndef, VUndef => true
  | VNull, VNull => true
  | VBool x, VBool y => Bool.eqb x y
  | VNum x, VNum y => Nat.eqb x y
  | VStr x, VStr y => String.eqb x y
  | VObj x, VObj y => Nat.eqb x y
  | _, _ => false
  end.

Fixpoint string_of_uint (d : Decimal.uint) : string :=
  match d with
  | Decimal.Nil => ""
  | Decimal.D0 r => "0" ++ string_of_uint r
  | Decimal.D1 r => "1" ++ string_of_uint r
  | Decimal.D2 r => "2" ++ string_of_uint r
  | Decimal.D3 r => "3" ++ string_of_uint r
  | Decimal.D4 r => "4" ++ string_of_uint r
  | Decimal.D5 r => "5" ++ string_of_uint r
  | Decimal.D6 r => "6" ++ string_of_uint r
  | Decimal.D7 r => "7" ++ string_of_uint r
  | Decimal.D8 r => "8" ++ string_of_uint r
  | Decimal.D9 r => "9" ++ string_of_uint r
  end.

(** The DOMString conversion that [CSSStyleDeclaration.setProperty]
    applies to its value argument ([LegacyNullToEmptyString]: null becomes
    the empty string, everything else goes through ToString). *)
Definition to_dom_string (v : Val) : string :=
  match v with
  | VUndef => "undefined"
  | VNull => ""
  | VBool true => "true"
  | VBool false => "false"
  | VNum n => string_of_uint (Nat.to_uint n)
  | VNaN => "NaN"
  | VStr s => s
  | VObj _ => "[object Object]"
  end.

(** ** hyphenate (lines 6-16) *)

Definition is_upper (c : ascii) : bool :=
  (Nat.leb 65 (nat_of_ascii c) && Nat.leb (nat_of_ascii c) 90)%bool.

(** [String.prototype.toLowerCase] on one ASCII character; JavaScript
    also lower-cases non-ASCII letters (['É'] becomes ['é']), which this
    function leaves unchanged. *)
Definition to_lower (c : ascii) : ascii :=
  if is_upper c then ascii_of_nat (nat_of_ascii c + 32) else c.

(** [s.replace(/([A-Z])/g, addHyphenAndLower)] *)
Fixpoint replace_capitals (s : string) : string :=
  match s with
  | EmptyString => EmptyString
  | String c r =>
      if is_upper c then "-" ++ String (to_lower c) (replace_capitals r)
      else String c (replace_capitals r)
  end.

(** [(name.charAt(0).toLowerCase() + name.slice(1)).replace(...)]: the
    value the function computes when the name is not yet cached. *)
Definition hyphenate_uncached (name : string) : string :=
  match name with
  | EmptyString => replace_capitals EmptyString
  | String c r => replace_capitals (String (to_lower c) r)
  end.

(** [hyphenate] with its process-wide memo table [hyphenateCache]. *)
Definition hyphenate (cache : gmap string string) (name : string)
  : string * gmap string string :=
  match cache !! name with
  | Some h => (h, cache)
  | None => let h := hyphenate_uncached name in (h, <[name := h]> cache)
  end.

(** ** The inline style of an element (CSSStyleDeclaration)

    The declarations in order: [style[i]] is the name of the i-th one. *)
Definition Style := list (string * string).

(** [style.getPropertyValue(prop)]: the empty string when absent. *)
Definition get_property_value (style : Style) (prop : string) : string :=
  match list_find (fun d => d.1 = prop) style with
  | Some (_, (_, v)) => v
  | None => ""
  end.

Fixpoint remove_property (style : Style) (prop : string) : Style :=
  match style with
  | [] => []
  | (p, v) :: r => if String.eqb p prop then r else (p, v) :: remove_property r prop
  end.

Fixpoint replace_or_append (style : Style) (prop val : string) : Style :=
  match style with
  | [] => [(prop, val)]
  | (p, v) :: r =>
      if String.eqb p prop then (p, val) :: r
      else (p, v) :: replace_or_append r prop val
  end.

(** [style.setProperty(prop, value)]: the value is converted to a
    DOMString; the empty string removes the declaration, any other string
    replaces it in place or appends it.  The CSSOM's parsing and
    serialisation are not modelled: the string is stored as given, where a
    browser normalises it (['RED'] reads back ['red']), drops invalid
    values and unknown names, and expands shorthands.  The statements
    below do not rely on a written string reading back unchanged. *)
Definition set_property (style : Style) (prop : string) (v : Val) : Style :=
  let s := to_dom_string v in
  if String.eqb s "" then remove_property style prop
  else replace_or_append style prop s.

(** [findRuleValue(style, prop)] (lines 211-218): scan the indices
    [0 .. style.length - 1] for [style[i] === prop]; on a hit return
    [style.getPropertyValue(prop)], otherwise [null] (here [None]). *)
Fixpoint find_rule_value_from (style : Style) (names : list (string * string))
  (prop : string) : option string :=
  match names with
  | [] => None
  | (p, _) :: r =>
      if String.eqb p prop then Some (get_property_value style prop)
      else find_rule_value_from style r prop
  end.

Definition findRuleValue (style : Style) (prop : string) : option string :=
  find_rule_value_from style style prop.

(** ** Data model *)

(** [bindingMode] of aurelia-binding. *)
Inductive Mode := OneTime | ToView | FromView | TwoWay.

Definition mode_eqb (m1 m2 : Mode) : bool :=
  match m1, m2 with
  | OneTime, OneTime | ToView, ToView | FromView, FromView | TwoWay, TwoWay => true
  | _, _ => false
  end.

(** The heap of the view model: object reference and property name. *)
Abbreviation Heap := (gmap (nat * string) Val).

(** The source expression: an opaque capability of aurelia-binding.
    [ex_has_bind]/[ex_has_unbind] say whether the optional hooks exist. *)
Record Expression := mkExpression {
  ex_evaluate : nat -> Heap -> Val;
  ex_assign : nat -> Val -> Heap -> Heap;
  ex_has_bind : bool;
  ex_has_unbind : bool
}.

(** An element: whether it has a [style] attribute, its inline style, and
    the ad hoc [__style_observer__] property (absent until the first bind). *)
Record Element := mkElement {
  el_hasStyleAttr : bool;
  el_style : Style;
  el_styleObservers : option (gmap string nat)
}.

(** [InlineStyleObserver] (lines 18-75).  [o_mo] is the mutation observer
    handle [this.mo] (the element it watches); [o_subs] is the subscriber
    collection mixed in by [subscriberCollection()]: (context, callable)
    pairs, the callable being a binding. *)
Record Observer := mkObserver {
  o_element : nat;
  o_cssRule : string;
  o_hyphenatedCssRule : string;
  o_value : Val;
  o_prevValue : Val;
  o_mo : option nat;
  o_subs : list (string * nat)
}.

(** [StyleBinding] (lines 91-219); [b_version] is [_version] of
    [connectable()]. *)
Record Binding := mkBinding {
  b_target : nat;
  b_targetProperty : string;
  b_mode : Mode;
  b_sourceExpression : Expression;
  b_isBound : bool;
  b_source : option nat;
  b_styleObserver : option nat;
  b_version : nat
}.

(** Observable effects, in the order they happen. *)
Inductive Event :=
| ESetProperty (el : nat) (prop : string) (v : Val)
| EObserve (el : nat)
| EDisconnect (el : nat)
| ECall (bid : nat) (ctx : string) (nv ov : Val)
| EEvaluate (bid src : nat)
| EAssign (bid src : nat) (v : Val)
| EExprBind (bid src : nat)
| EExprUnbind (bid : nat)
| EConnect (bid : nat)
| EUnobserve (bid : nat) (all : bool)
| EEnqueueConnect (bid : nat).

Record State := mkState {
  st_elements : gmap nat Element;
  st_observers : gmap nat Observer;
  st_next_observer : nat;
  st_bindings : gmap nat Binding;
  st_heap : Heap;
  st_hyphenateCache : gmap string string;
  st_trace : list Event
}.

(** Record updates. *)
Definition with_value (o : Observer) (prev v : Val) : Observer :=
  mkObserver (o_element o) (o_cssRule o) (o_hyphenatedCssRule o) v prev (o_mo o) (o_subs o).
Definition with_mo (o : Observer) (mo : option nat) : Observer :=
  mkObserver (o_element o) (o_cssRule o) (o_hyphenatedCssRule o) (o_value o) (o_prevValue o) mo (o_subs o).
Definition with_subs (o : Observer) (subs : list (string * nat)) : Observer :=
  mkObserver (o_element o) (o_cssRule o) (o_hyphenatedCssRule o) (o_value o) (o_prevValue o) (o_mo o) subs.

Definition with_bound (b : Binding) (isBound : bool) (source : option nat) : Binding :=
  mkBinding (b_target b) (b_targetProperty b) (b_mode b) (b_sourceExpression b)
    isBound source (b_styleObserver b) (b_version b).
Definition with_styleObserver (b : Binding) (so : option nat) : Binding :=
  mkBinding (b_target b) (b_targetProperty b) (b_mode b) (b_sourceExpression b)
    (b_isBound b) (b_source b) so (b_version b).
Definition with_version (b : Binding) (n : nat) : Binding :=
  mkBinding (b_target b) (b_targetProperty b) (b_mode b) (b_sourceExpression b)
    (b_isBound b) (b_source b) (b_styleObserver b) n.

Definition set_elements (es : gmap nat Element) (st : State) : State :=
  mkState es (st_observers st) (st_next_observer st) (st_bindings st) (st_heap st)
    (st_hyphenateCache st) (st_trace st).
Definition set_observers (os : gmap nat Observer) (next : nat) (st : State) : State :=
  mkState (st_elements st) os next (st_bindings st) (st_heap st)
    (st_hyphenateCache st) (st_trace st).
Definition set_bindings (bs : gmap nat Binding) (st : State) : State :=
  mkState (st_elements st) (st_observers st) (st_next_observer st) bs (st_heap st)
    (st_hyphenateCache st) (st_trace st).
Definition set_heap (h : Heap) (st : State) : State :=
  mkState (st_elements st) (st_observers st) (st_next_observer st) (st_bindings st) h
    (st_hyphenateCache st) (st_trace st).
Definition set_cache (c : gmap string string) (st : State) : State :=
  mkState (st_elements st) (st_observers st) (st_next_observer st) (st_bindings st)
    (st_heap st) c (st_trace st).
Definition add_event (e : Event) (st : State) : State :=
  mkState (st_elements st) (st_observers st) (st_next_observer st) (st_bindings st)
    (st_heap st) (st_hyphenateCache st) (st_trace st ++ [e]).

(** ** A state and exception monad

    [RThrow] is a JavaScript exception; [RFuel] marks a run cut short by
    the fuel bound of the model (the program itself always terminates). *)
Inductive Res (A : Type) :=
| ROk (a : A) (st : State)
| RThrow (msg : string)
| RFuel.
Arguments ROk {A}. Arguments RThrow {A}. Arguments RFuel {A}.

Definition M (A : Type) := State -> Res A.

Definition ret {A} (a : A) : M A := fun st => ROk a st.
Definition bindM {A B} (m : M A) (k : A -> M B) : M B :=
  fun st => match m st with
            | ROk a st' => k a st'
            | RThrow e => RThrow e
            | RFuel => RFuel
            end.
Definition throw {A} (msg : string) : M A := fun _ => RThrow msg.
Definition out_of_fuel {A} : M A := fun _ => RFuel.
Definition modify (f : State -> State) : M unit := fun st => ROk tt (f st).
Definition gets {A} (f : State -> A) : M A := fun st => ROk (f st) st.

Notation "'let!' x ':=' m 'in' k" := (bindM m (fun x => k))
  (at level 200, x name, m at level 100, k at level 200).
Notation "m >>> k" := (bindM m (fun _ : unit => k)) (at level 100, right associativity).

Definition emit (e : Event) : M unit := modify (add_event e).

(** Property access on [undefined] raises a TypeError. *)
Definition type_error {A} : M A := throw "TypeError".

Definition get_binding (bid : nat) : M Binding :=
  fun st => match st_bindings st !! bid with Some b => ROk b st | None => RThrow "TypeError" end.
Definition put_binding (bid : nat) (b : Binding) : M unit :=
  modify (fun st => set_bindings (<[bid := b]> (st_bindings st)) st).
Definition get_observer (oid : nat) : M Observer :=
  fun st => match st_observers st !! oid with Some o => ROk o st | None => RThrow "TypeError" end.
Definition put_observer (oid : nat) (o : Observer) : M unit :=
  modify (fun st => set_observers (<[oid := o]> (st_observers st)) (st_next_observer st) st).
Definition get_element (e : nat) : M Element :=
  fun st => match st_elements st !! e with Some el => ROk el st | None => RThrow "TypeError" end.
Definition put_element (e : nat) (el : Element) : M unit :=
  modify (fun st => set_elements (<[e := el]> (st_elements st)) st).

(** [hyphenate(name)] against the memo table of the state. *)
Definition hyphenateM (name : string) : M string :=
  fun st => let '(h, c) := hyphenate (st_hyphenateCache st) name in ROk h (set_cache c st).

(** ** The subscriber collection and the mutation watch of the observer *)

Definition sub_eqb (x y : string * nat) : bool :=
  (String.eqb x.1 y.1 && Nat.eqb x.2 y.2)%bool.

(** [removeSubscriber] takes out the first matching pair. *)
Fixpoint remove_first (p : string * nat) (l : list (string * nat))
  : option (list (string * nat)) :=
  match l with
  | [] => None
  | q :: r =>
      if sub_eqb q p then Some r
      else match remove_first p r with Some r' => Some (q :: r') | None => None end
  end.

(** [hasSubscribers()] *)
Definition hasSubscribers (o : Observer) : bool :=
  match o_subs o with [] => false | _ => true end.

(** [addSubscriber(context, callable)]: returns false on a duplicate.
    A new pair goes to the end of the list; aurelia's collection refills
    its freed slots first, so only the set of subscribers, not their
    order, matches it, and no statement below depends on the order. *)
Definition addSubscriber (o : Observer) (context : string) (callable : nat) : Observer * bool :=
  if existsb (sub_eqb (context, callable)) (o_subs o) then (o, false)
  else (with_subs o (o_subs o ++ [(context, callable)]), true).

(** [removeSubscriber(context, callable)]: returns whether a pair went. *)
Definition removeSubscriber (o : Observer) (context : string) (callable : nat) : Observer * bool :=
  match remove_first (context, callable) (o_subs o) with
  | Some r => (with_subs o r, true)
  | None => (o, false)
  end.

(** [observeMutation()] (lines 49-57). *)
Definition observeMutation (o : Observer) : Observer * list Event :=
  match o_mo o with
  | Some _ => (o, [])
  | None => (with_mo o (Some (o_element o)), [EObserve (o_element o)])
  end.

(** [unobserveMutation()] (lines 58-63). *)
Definition unobserveMutation (o : Observer) : Observer * list Event :=
  match o_mo o with
  | Some e => (with_mo o None, [EDisconnect e])
  | None => (o, [])
  end.

(** [subscribe(context, callable)] (lines 64-69). *)
Definition subscribe (o : Observer) (context : string) (callable : nat) : Observer * list Event :=
  let '(o1, evs) := if hasSubscribers o then (o, []) else observeMutation o in
  ((addSubscriber o1 context callable).1, evs).

(** [unsubscribe(context, callable)] (lines 70-74). *)
Definition unsubscribe (o : Observer) (context : string) (callable : nat) : Observer * list Event :=
  let '(o1, removed) := removeSubscriber o context callable in
  if (removed && negb (hasSubscribers o1))%bool then unobserveMutation o1 else (o1, []).

Fixpoint emit_all (evs : list Event) : M unit :=
  match evs with [] => ret tt | e :: r => emit e >>> emit_all r end.

Definition subscribeM (oid : nat) (context : string) (callable : nat) : M unit :=
  let! o := get_observer oid in
  let '(o', evs) := subscribe o context callable in
  put_observer oid o' >>> emit_all evs.

Definition unsubscribeM (oid : nat) (context : string) (callable : nat) : M unit :=
  let! o := get_observer oid in
  let '(o', evs) := unsubscribe o context callable in
  put_observer oid o' >>> emit_all evs.

(** ** The value protocol of the observer

    The subscribers are called through [callf], the [call] method of the
    subscribed binding: [callf callable context newValue oldValue]. *)

Section ObserverValue.
Variable callf : nat -> string -> Val -> Val -> M unit.

(** [callSubscribers(newValue, oldValue)] of the subscriber collection:
    every subscriber of the snapshot, in order. *)
Fixpoint callSubscribers (subs : list (string * nat)) (nv ov : Val) : M unit :=
  match subs with
  | [] => ret tt
  | (context, callable) :: r => callf callable context nv ov >>> callSubscribers r nv ov
  end.

(** [getValue()] (lines 24-26). *)
Definition getValue (oid : nat) : M Val :=
  let! o := get_observer oid in
  let! el := get_element (o_element o) in
  ret (VStr (get_property_value (el_style el) (o_hyphenatedCssRule o))).

(** [this.element.style.setProperty(this.hyphenatedCssRule, this.value)];
    setting a declaration creates the [style] attribute (a browser leaves
    the attribute absent when the call changes nothing). *)
Definition style_setProperty (e : nat) (prop : string) (v : Val) : M unit :=
  let! el := get_element e in
  put_element e (mkElement true (set_property (el_style el) prop v) (el_styleObservers el)) >>>
  emit (ESetProperty e prop v).

(** [notify()] (lines 35-39). *)
Definition notify (oid : nat) : M unit :=
  let! o := get_observer oid in
  callSubscribers (o_subs o) (o_value o) (o_prevValue o).

(** [setValue(newValue)] (lines 27-34). *)
Definition setValue (oid : nat) (newValue : Val) : M unit :=
  let! o := get_observer oid in
  if negb (strict_eqb newValue (o_value o)) then
    put_observer oid (with_value o (o_value o) newValue) >>>
    style_setProperty (o_element o) (o_hyphenatedCssRule o) newValue >>>
    notify oid
  else ret tt.

(** [syncValue()] (lines 40-48). *)
Definition syncValue (oid : nat) : M unit :=
  let! o := get_observer oid in
  let prev := o_value o in
  let! value := getValue oid in
  if negb (strict_eqb value prev) then
    let! o1 := get_observer oid in
    put_observer oid (with_value o1 prev value) >>>
    notify oid
  else ret tt.

End ObserverValue.

(** ** StyleBinding *)

(** [styleObserverContext] (line 5) and [sourceContext] of aurelia-binding. *)
Definition styleObserverContext : string := "StyleObserver:context".
Definition sourceContext : string := "Binding:source".

Definition dquote : string := String (ascii_of_nat 34) EmptyString.

(** The message of the error thrown at line 129. *)
Definition unexpected_context_message (context : string) : string :=
  "Unexpected context for style binding: " ++ dquote ++ context ++ dquote.

(** [this.styleObserver] and [this.source], read as the code reads them. *)
Definition observer_of (b : Binding) : M nat :=
  match b_styleObserver b with Some oid => ret oid | None => type_error end.
Definition source_of (b : Binding) : M nat :=
  match b_source b with Some s => ret s | None => type_error end.

(** [this.sourceExpression.evaluate(source, this.lookupFunctions)] *)
Definition evaluate (bid src : nat) : M Val :=
  let! b := get_binding bid in
  emit (EEvaluate bid src) >>>
  gets (fun st => ex_evaluate (b_sourceExpression b) src (st_heap st)).

(** [updateSource(value)] (lines 103-105). *)
Definition updateSource (bid : nat) (value : Val) : M unit :=
  let! b := get_binding bid in
  let! src := source_of b in
  emit (EAssign bid src value) >>>
  modify (fun st => set_heap (ex_assign (b_sourceExpression b) src value (st_heap st)) st).

(** [updateTarget(value)] (lines 100-102). *)
Definition updateTarget (callf : nat -> string -> Val -> Val -> M unit) (bid : nat) (value : Val)
  : M unit :=
  let! b := get_binding bid in
  let! oid := observer_of b in
  setValue callf oid value.

(** [this._version++] *)
Definition bump_version (bid : nat) : M unit :=
  let! b := get_binding bid in
  put_binding bid (with_version b (S (b_version b))).

(** [call(context, newValue, oldValue)] (lines 106-130).  The fuel bounds
    the depth of the synchronous re-entrance setValue -> call. *)
Fixpoint call (fuel : nat) (bid : nat) (context : string) (newValue oldValue : Val) : M unit :=
  match fuel with
  | O => out_of_fuel
  | S f =>
      emit (ECall bid context newValue oldValue) >>>
      let! b := get_binding bid in
      if negb (b_isBound b) then ret tt
      else if String.eqb context sourceContext then
        let! oid := observer_of b in
        let! old := getValue oid in
        let! src := source_of b in
        let! nv := evaluate bid src in
        (if negb (strict_eqb nv old) then updateTarget (call f) bid nv else ret tt) >>>
        (if negb (mode_eqb (b_mode b) OneTime) then
           bump_version bid >>> emit (EConnect bid) >>> emit (EUnobserve bid false)
         else ret tt)
      else if String.eqb context styleObserverContext then
        (if negb (strict_eqb newValue oldValue) then updateSource bid newValue else ret tt)
      else throw (unexpected_context_message context)
  end.

(** [target.__style_observer__ || (target.__style_observer__ = {})] *)
Definition styleObserversLookup (e : nat) : M (gmap string nat) :=
  let! el := get_element e in
  match el_styleObservers el with
  | Some m => ret m
  | None => put_element e (mkElement (el_hasStyleAttr el) (el_style el) (Some ∅)) >>> ret ∅
  end.

(** [styleObserversLookup[targetCssRule] = observer] *)
Definition register_observer (e : nat) (key : string) (oid : nat) : M unit :=
  let! el := get_element e in
  let m := match el_styleObservers el with Some m => m | None => ∅ end in
  put_element e (mkElement (el_hasStyleAttr el) (el_style el) (Some (<[key := oid]> m))).

(** [new InlineStyleObserver(element, cssRule)] (lines 19-23): a fresh
    object, [value], [prevValue] and [mo] undefined, no subscribers. *)
Definition new_observer (e : nat) (cssRule : string) : M nat :=
  let! h := hyphenateM cssRule in
  let! oid := gets st_next_observer in
  modify (fun st => set_observers (<[oid := mkObserver e cssRule h VUndef VUndef None []]>
                                      (st_observers st)) (S oid) st) >>>
  ret oid.

Definition set_binding_observer (bid : nat) (so : option nat) : M unit :=
  let! b := get_binding bid in put_binding bid (with_styleObserver b so).

(** [unbind()] (lines 184-196). *)
Definition unbind (bid : nat) : M unit :=
  let! b := get_binding bid in
  if negb (b_isBound b) then ret tt
  else
    put_binding bid (with_bound b false (b_source b)) >>>
    (if ex_has_unbind (b_sourceExpression b) then emit (EExprUnbind bid) else ret tt) >>>
    (let! b1 := get_binding bid in put_binding bid (with_bound b1 false None)) >>>
    let! oid := observer_of b in
    unsubscribeM oid styleObserverContext bid >>>
    set_binding_observer bid None >>>
    emit (EUnobserve bid true).

(** Lines 146-152 of [bind(source)]: reuse the observer cached under
    [targetCssRule] or create and cache a new one. *)
Definition resolve_observer (bid target : nat) (targetProperty : string)
  (lookup : gmap string nat) (targetCssRule : string) : M nat :=
  match lookup !! targetCssRule with
  | Some oid => set_binding_observer bid (Some oid) >>> ret oid
  | None =>
      let! oid := new_observer target targetProperty in
      register_observer target targetCssRule oid >>>
      set_binding_observer bid (Some oid) >>> ret oid
  end.

(** Lines 153-169: the initial synchronisation. *)
Definition initial_sync (fuel bid source : nat) (b : Binding) (targetCssRule : string) : M unit :=
  if mode_eqb (b_mode b) FromView then
    let! el := get_element (b_target b) in
    if el_hasStyleAttr el then
      match findRuleValue (el_style el) targetCssRule with
      | Some ruleValue => updateSource bid (VStr ruleValue)
      | None => ret tt
      end
    else ret tt
  else
    let! value := evaluate bid source in
    updateTarget (call fuel) bid value.

(** Lines 170-182: the observation set up for the mode. *)
Definition observe_by_mode (bid : nat) (b : Binding) (oid : nat) : M unit :=
  match b_mode b with
  | OneTime => ret tt
  | ToView => emit (EEnqueueConnect bid)
  | TwoWay => emit (EConnect bid) >>> subscribeM oid styleObserverContext bid
  | FromView => subscribeM oid styleObserverContext bid
  end.

(** Lines 138-183 of [bind(source)], after the early exit. *)
Definition bind_body (fuel : nat) (bid source : nat) : M unit :=
  let! b := get_binding bid in
  put_binding bid (with_bound b true (Some source)) >>>
  (if ex_has_bind (b_sourceExpression b) then emit (EExprBind bid source) else ret tt) >>>
  let! lookup := styleObserversLookup (b_target b) in
  let! targetCssRule := hyphenateM (b_targetProperty b) in
  let! oid := resolve_observer bid (b_target b) (b_targetProperty b) lookup targetCssRule in
  initial_sync fuel bid source b targetCssRule >>>
  observe_by_mode bid b oid.

(** [bind(source)] (lines 131-183). *)
Definition bind (fuel : nat) (bid source : nat) : M unit :=
  let! b := get_binding bid in
  if (b_isBound b && match b_source b with Some s => Nat.eqb s source | None => false end)%bool
  then ret tt
  else (if b_isBound b then unbind bid else ret tt) >>> bind_body fuel bid source.

(** [connect(evaluate)] (lines 197-206). *)
Definition connect (fuel : nat) (bid : nat) (evaluate_first : bool) : M unit :=
  let! b := get_binding bid in
  if negb (b_isBound b) then ret tt
  else
    let! src := source_of b in
    (if evaluate_first then
       let! value := evaluate bid src in updateTarget (call fuel) bid value
     else ret tt) >>>
    emit (EConnect bid).

(** The mutation observer callback [() => this.syncValue()]: delivered
    only while the watch is connected. *)
Definition mutation_callback (fuel : nat) (oid : nat) : M unit :=
  let! o := get_observer oid in
  match o_mo o with
  | Some _ => syncValue (call fuel) oid
  | None => ret tt
  end.

(** A write to the inline style from outside the plugin. *)
Definition external_set_style (e : nat) (prop : string) (v : Val) : M unit :=
  let! el := get_element e in
  put_element e (mkElement true (set_property (el_style el) prop v) (el_styleObservers el)).

(** ** StyleExpression and the binding commands (lines 78-89, 222-234) *)

(** [StyleExpression]: what a binding command produces.  The
    [observerLocator] and [lookupFunctions] it passes through are not
    modelled (the model has no lookup functions). *)
Record StyleExpression := mkStyleExpression {
  se_sourceExpression : Expression;
  se_targetProperty : string;
  se_mode : Mode
}.

(** [createBinding(target)] (lines 86-88) with the [StyleBinding]
    constructor (lines 91-98): the constructor sets only the target, the
    property, the expression and the mode; [isBound], [source] and
    [styleObserver] stay undefined (modelled as [false] and [None]).
    [_version] stays undefined until [connectable] observes a first
    property; it is modelled as 0, and no statement below depends on its
    value after an increment. *)
Definition createBinding (se : StyleExpression) (target : nat) : Binding :=
  mkBinding target (se_targetProperty se) (se_mode se) (se_sourceExpression se) false None None 0.

(** The binding mode each command of [SyntaxInterpreter.prototype]
    (lines 222-234) passes to [StyleExpression]; [None] for a command the
    plugin does not define. *)
Definition command_mode (command : string) : option Mode :=
  if (String.eqb command "style" || String.eqb command "style-to-view" ||
      String.eqb command "style-one-way")%bool then Some ToView
  else if String.eqb command "style-one-time" then Some OneTime
  else if String.eqb command "style-two-way" then Some TwoWay
  else if String.eqb command "style-from-view" then Some FromView
  else None.

(** A command with the parser [parse] applied to [info.attrValue] and
    the attribute name [info.attrName]. *)
Definition interpret_command (command : string) (parse : string -> Expression)
  (attrName attrValue : string) : option StyleExpression :=
  match command_mode command with
  | Some m => Some (mkStyleExpression (parse attrValue) attrName m)
  | None => None
  end.

(** ** Platform: the CSSOM name of a property's camel-cased attribute *)

(** "CSS property to IDL attribute" of CSSOM: a dash is dropped and the
    next character upper-cased.  [-webkit-transition] has the camel-cased
    attribute [WebkitTransition]. *)
Definition to_upper (c : ascii) : ascii :=
  if (Nat.leb 97 (nat_of_ascii c) && Nat.leb (nat_of_ascii c) 122)%bool
  then ascii_of_nat (nat_of_ascii c - 32) else c.

Fixpoint css_property_to_idl_attribute_from (uppercase_next : bool) (s : string) : string :=
  match s with
  | EmptyString => EmptyString
  | String c r =>
      if Ascii.eqb c "-"%char then css_property_to_idl_attribute_from true r
      else String (if uppercase_next then to_upper c else c)
                  (css_property_to_idl_attribute_from false r)
  end.

Definition css_property_to_idl_attribute (property : string) : string :=
  css_property_to_idl_attribute_from false property.

(** ** Auxiliary definitions for the statements *)

(** The state right after lines 29-31 of [setValue]: the cache shifted and
    the value written to the inline style. *)
Definition written_state (oid : nat) (o : Observer) (el : Element) (v : Val) (st : State) : State :=
  add_event (ESetProperty (o_element o) (o_hyphenatedCssRule o) v)
    (set_elements
       (<[o_element o := mkElement true (set_property (el_style el) (o_hyphenatedCssRule o) v)
                                    (el_styleObservers el)]> (st_elements st))
       (set_observers (<[oid := with_value o (o_value o) v]> (st_observers st))
          (st_next_observer st) st)).

(** The live value [getValue()] reads for an observer. *)
Definition live_value (o : Observer) (el : Element) : Val :=
  VStr (get_property_value (el_style el) (o_hyphenatedCssRule o)).

(** The state right after lines 44-45 of [syncValue]. *)
Definition synced_state (oid : nat) (o : Observer) (v : Val) (st : State) : State :=
  set_observers (<[oid := with_value o (o_value o) v]> (st_observers st)) (st_next_observer st) st.

(** The external-mutation watch handle is present iff there is a subscriber. *)
Definition watch_inv (o : Observer) : Prop := is_Some (o_mo o) <-> o_subs o <> [].

(** Observable parts of a result. *)
Definition result_trace {A} (r : Res A) : option (list Event) :=
  match r with ROk _ st => Some (st_trace st) | _ => None end.

(** An element whose inline style says [color: blue] while the observer of
    [color] still caches ["red"] (an external edit not yet delivered). *)
Definition sync_example_state : State :=
  mkState {[0 := mkElement true [("color", "blue")] (Some {[ "color" := 0 ]})]}
    {[0 := mkObserver 0 "color" "color" (VStr "red") VUndef None []]} 1 ∅ ∅ ∅ [].

(** What a notification cascade may change: values and styles, binding
    versions, the heap and the trace (by appending); everything else, in
    particular the observer caches on elements, the observers' identities
    and subscribers, and the bound state of bindings, is kept. *)
Definition strip_observer (o : Observer) : Observer := with_value o VUndef VUndef.
Definition strip_element (el : Element) : option (gmap string nat) := el_styleObservers el.
Definition strip_binding (b : Binding) : Binding := with_version b 0.

Definition frame (st st' : State) : Prop :=
  strip_element <$> st_elements st' = strip_element <$> st_elements st /\
  strip_observer <$> st_observers st' = strip_observer <$> st_observers st /\
  st_next_observer st' = st_next_observer st /\
  strip_binding <$> st_bindings st' = strip_binding <$> st_bindings st /\
  st_hyphenateCache st' = st_hyphenateCache st /\
  exists d, st_trace st' = (st_trace st ++ d)%list.

(** The conditions under which the code never dereferences a missing
    object: a bound binding has a source and a live observer on a live
    element, and the subscribers of an observer are existing bindings that
    subscribed with [styleObserverContext] (the only context this code
    subscribes with). *)
Definition calls_safe (st : State) : Prop :=
  (forall bid b, st_bindings st !! bid = Some b -> b_isBound b = true ->
     is_Some (b_source b) /\
     exists oid o, b_styleObserver b = Some oid /\ st_observers st !! oid = Some o /\
                   is_Some (st_elements st !! o_element o)) /\
  (forall oid o, st_observers st !! oid = Some o ->
     is_Some (st_elements st !! o_element o) /\
     forall ctx c, In (ctx, c) (o_subs o) ->
                   ctx = styleObserverContext /\ is_Some (st_bindings st !! c)).

(** [bid] is bound to the source object [src]. *)
Definition bound_to (bid src : nat) (st : State) : Prop :=
  exists b, st_bindings st !! bid = Some b /\ b_isBound b = true /\ b_source b = Some src.

(** The parts of a binding fixed at construction. *)
Definition binding_statics (b : Binding) : nat * string * Mode * Expression :=
  (b_target b, b_targetProperty b, b_mode b, b_sourceExpression b).

(** No binding disappears or changes its bound flag, its source or its
    construction parameters. *)
Definition flags_kept (st st' : State) : Prop :=
  forall bid b, st_bindings st !! bid = Some b ->
    exists b', st_bindings st' !! bid = Some b' /\ b_isBound b' = b_isBound b /\
               b_source b' = b_source b /\ binding_statics b' = binding_statics b.

(** Bindings untouched. *)
Definition same_bindings (st st' : State) : Prop := st_bindings st' = st_bindings st.

(** Elements untouched. *)
Definition same_elements (st st' : State) : Prop := st_elements st' = st_elements st.

(** Writes to an inline style. *)
Definition writes_style (e : Event) : bool :=
  match e with ESetProperty _ _ _ => true | _ => false end.

(** Every successful run of [m] relates its initial and final states by [R]. *)
Definition preserves {A} (R : State -> State -> Prop) (m : M A) : Prop :=
  forall st a st', m st = ROk a st' -> R st st'.

(** The events that read or write data: the source expression's evaluate
    and assign, and writes to an inline style. *)
Definition touches (e : Event) : bool :=
  match e with ESetProperty _ _ _ | EEvaluate _ _ | EAssign _ _ _ => true | _ => false end.

(** What [hasAttribute('style')] and the inline style show of an element. *)
Definition style_view (el : Element) : bool * Style := (el_hasStyleAttr el, el_style el).

(** Every entry of the memo table of [hyphenate] is the hyphenated name. *)
Definition cache_ok (st : State) : Prop :=
  forall n h, st_hyphenateCache st !! n = Some h -> h = hyphenate_uncached n.

(** Observer ids from [st_next_observer] on are unused. *)
Definition observers_fresh (st : State) : Prop :=
  forall oid, st_next_observer st <= oid -> st_observers st !! oid = None.

(** A step that touches no data: heap, inline styles and the values of
    the existing observers are kept, and no [touches] event is emitted. *)
Definition quiet (st st' : State) : Prop :=
  st_heap st' = st_heap st /\
  style_view <$> st_elements st' = style_view <$> st_elements st /\
  st_next_observer st <= st_next_observer st' /\
  (forall oid o, oid < st_next_observer st -> st_observers st !! oid = Some o ->
     exists o', st_observers st' !! oid = Some o' /\ o_value o' = o_value o /\
                o_prevValue o' = o_prevValue o) /\
  (cache_ok st -> cache_ok st') /\
  exists d, st_trace st' = (st_trace st ++ d)%list /\ List.filter touches d = [].

(** The registry of shared observers is kept from [st] to [st']: the
    entries of the per-element observer maps, the observer and the
    construction-time fields of the bindings satisfying [keep], the
    existing observers and a valid memo table of [hyphenate]. *)
Definition registry_kept (keep : nat -> Prop) (st st' : State) : Prop :=
  (forall e el m k oid, st_elements st !! e = Some el -> el_styleObservers el = Some m ->
     m !! k = Some oid ->
     exists el' m', st_elements st' !! e = Some el' /\ el_styleObservers el' = Some m' /\
                    m' !! k = Some oid) /\
  (forall x b, keep x -> st_bindings st !! x = Some b ->
     exists b', st_bindings st' !! x = Some b' /\ b_styleObserver b' = b_styleObserver b /\
                binding_statics b' = binding_statics b) /\
  (forall oid, is_Some (st_observers st !! oid) -> is_Some (st_observers st' !! oid)) /\
  (cache_ok st -> cache_ok st').

(** A string without capital ASCII letters. *)
Definition no_capitals (s : string) : bool :=
  forallb (fun c => negb (is_upper c)) (list_ascii_of_string s).

(** A string of 7-bit ASCII characters: on these JavaScript's
    [toLowerCase] changes only the letters [A-Z], as [to_lower] does. *)
Definition ascii_only (s : string) : bool :=
  forallb (fun c => Nat.ltb (nat_of_ascii c) 128) (list_ascii_of_string s).

(** No observer has binding [bid] among its subscribers. *)
Definition not_subscribed (bid : nat) (st : State) : Prop :=
  forall oid o, st_observers st !! oid = Some o -> ~ In (styleObserverContext, bid) (o_subs o).

(** A step that keeps [not_subscribed bid]. *)
Definition unsubscribed_kept (bid : nat) (st st' : State) : Prop :=
  not_subscribed bid st -> not_subscribed bid st'.

(** A step that keeps the [_version] of every binding and records no
    [connect] of a source expression. *)
Definition versions_kept (st st' : State) : Prop :=
  (forall x b, st_bindings st !! x = Some b ->
     exists b', st_bindings st' !! x = Some b' /\ b_version b' = b_version b) /\
  exists d, st_trace st' = (st_trace st ++ d)%list /\ forall x, ~ In (EConnect x) d.

(** ** Concrete inputs *)

(** A property-access source expression [p] (as aurelia-binding's
    [AccessScope]): reads and writes property [p] of the source object. *)
Definition prop_expr (p : string) : Expression :=
  mkExpression (fun src h => default VUndef (h !! (src, p)))
               (fun src v h => <[(src, p) := v]> h) false false.

Definition example_element : Element :=
  mkElement true [("color", "blue")] (Some {[ "color" := 0 ]}).
Definition example_observer : Observer :=
  mkObserver 0 "color" "color" (VStr "red") VUndef (Some 0) [(styleObserverContext, 0)].
Definition example_binding : Binding :=
  mkBinding 0 "color" TwoWay (prop_expr "color") true (Some 7) (Some 0) 0.

(** Element 0 with [color: blue] inline, its [color] observer caching
    ["red"], and a two-way binding on it bound to object 7. *)
Definition example_state : State :=
  mkState {[0 := example_element]} {[0 := example_observer]} 1 {[0 := example_binding]}
    {[(7, "color") := VStr "red"]} ∅ [].

(** A fresh (unbound) binding of [color] on element 0 in mode [m]. *)
Definition fresh_binding (m : Mode) : Binding :=
  mkBinding 0 "color" m (prop_expr "color") false None None 0.

(** Element 0 with [color: blue] inline and no observer yet; the source
    object 7 has [color = "red"]. *)
Definition bind_example_state (m : Mode) : State :=
  mkState {[0 := mkElement true [("color", "blue")] None]} ∅ 0 {[0 := fresh_binding m]}
    {[(7, "color") := VStr "red"]} ∅ [].

(** The final state of a run (or [dflt] when it does not complete). *)
Definition run_state {A} (r : Res A) (dflt : State) : State :=
  match r with ROk _ st => st | _ => dflt end.

Definition bind_example_result : State :=
  run_state (bind 3 0 7 (bind_example_state TwoWay)) (bind_example_state TwoWay).

(** A from-view binding bound to object 7 while the inline style says
    [color: blue] and the source has meanwhile become ["red"]. *)
Definition from_view_bound_state : State :=
  mkState {[0 := example_element]}
    {[0 := mkObserver 0 "color" "color" (VStr "blue") VUndef (Some 0) [(styleObserverContext, 0)]]} 1
    {[0 := mkBinding 0 "color" FromView (prop_expr "color") true (Some 7) (Some 0) 0]}
    {[(7, "color") := VStr "red"]} ∅ [].

Definition from_view_bind_result : State :=
  run_state (bind 3 0 7 (bind_example_state FromView)) (bind_example_state FromView).

(** A to-view binding bound to object 8, which has no [color]: the source
    expression evaluates to [undefined]. *)
Definition undefined_bind_result : State :=
  run_state (bind 3 0 8 (bind_example_state ToView)) (bind_example_state ToView).

(** Two-way bindings 0 and 1 on element 0 with target properties [p1] and
    [p2], both reading [bg] of the source object 7. *)
Definition spelled_binding (p : string) : Binding :=
  mkBinding 0 p TwoWay (prop_expr "bg") false None None 0.
Definition spelled_state (p1 p2 : string) : State :=
  mkState {[0 := mkElement true [] None]} ∅ 0
    (<[1 := spelled_binding p2]> {[0 := spelled_binding p1]})
    {[(7, "bg") := VStr "red"]} ∅ [].
Definition spelled_bound1 (p1 p2 : string) : State :=
  run_state (bind 3 0 7 (spelled_state p1 p2)) (spelled_state p1 p2).
Definition spelled_bound2 (p1 p2 : string) : State :=
  run_state (bind 3 1 7 (spelled_bound1 p1 p2)) (spelled_bound1 p1 p2).
Definition spelled_unbound (p1 p2 : string) : State :=
  run_state (unbind 0 (spelled_bound2 p1 p2)) (spelled_bound2 p1 p2).

(** A two-way binding of [opacity] on element 0 to the number 1 held by
    the source object 7; then the inline style is set to the string ["1"]
    from outside and the mutation watch fires. *)
Definition numeric_state : State :=
  mkState {[0 := mkElement true [] None]} ∅ 0
    {[0 := mkBinding 0 "opacity" TwoWay (prop_expr "opacity") false None None 0]}
    {[(7, "opacity") := VNum 1]} ∅ [].
Definition numeric_bound : State := run_state (bind 3 0 7 numeric_state) numeric_state.
Definition numeric_restyled : State :=
  run_state (external_set_style 0 "opacity" (VStr "1") numeric_bound) numeric_bound.
Definition numeric_synced : State :=
  run_state (mutation_callback 3 0 numeric_restyled) numeric_restyled.

(** Binding 0 of [example_state] is notified that its observer went from
    ["blue"] to ["red"], then receives the source-context call. *)
Definition round_trip_assigned : State :=
  run_state (call 3 0 styleObserverContext (VStr "red") (VStr "blue") example_state) example_state.
Definition round_trip_settled : State :=
  run_state (call 3 0 sourceContext (VStr "red") (VStr "blue") round_trip_assigned)
    round_trip_assigned.

(** The inline [color] of element 0 is set from outside to ["red"], the
    value its observer caches, and the mutation watch fires. *)
Definition restyled_example : State :=
  run_state (external_set_style 0 "color" (VStr "red") example_state) example_state.
Definition restyled_synced : State :=
  run_state (mutation_callback 3 0 restyled_example) restyled_example.

(** A fresh observer of the [color] of element 0, with no subscriber. *)
Definition unwatched_observer : Observer := mkObserver 0 "color" "color" VUndef VUndef None [].

(** A bound one-time binding of [color] to property [color] of source 7. *)
Definition one_time_binding : Binding :=
  mkBinding 0 "color" OneTime (prop_expr "color") true (Some 7) (Some 0) 0.
Definition one_time_state : State :=
  mkState {[0 := example_element]} {[0 := unwatched_observer]} 1 {[0 := one_time_binding]}
    {[(7, "color") := VStr "green"]} ∅ [].


(** Two bindings, of [backgroundColor] and [background-color], sharing
    one observer. *)
Definition shared_state : State := spelled_bound2 "backgroundColor" "background-color".

(** [example_state] where the source property has become ["green"]. *)
Definition recolored_state : State := set_heap {[(7, "color") := VStr "green"]} example_state.

(** A parser of property-access expressions. *)
Definition color_command_parse (attrValue : string) : Expression := prop_expr attrValue.

Definition unbound_example : State := run_state (unbind 0 example_state) example_state.
Definition shared_unbound : State := run_state (unbind 0 shared_state) shared_state.
Definition shared_binding1 : Binding := default example_binding (st_bindings shared_state !! 1).
Definition shared_observer : Observer := default example_observer (st_observers shared_state !! 0).
Definition unsubscribed_example : State :=
  run_state (unsubscribeM 0 styleObserverContext 0 example_state) example_state.
Definition color_style_expression (m : Mode) : StyleExpression :=
  mkStyleExpression (prop_expr "color") "color" m.
Definition one_time_called : State :=
  run_state (call 3 0 sourceContext VUndef VUndef one_time_state) one_time_state.
Definition recolored_connected : State := run_state (connect 3 0 true recolored_state) recolored_state.

(** ** Generic lemmas on the monad *)

Lemma bindM_ok {A B} (m : M A) (k : A -> M B) st b st' :
  bindM m k st = ROk b st' -> exists a st1, m st = ROk a st1 /\ k a st1 = ROk b st'.
Proof.
  unfold bindM. destruct (m st) as [a st1| |] eqn:E; intros H; try discriminate.
  eauto.
Qed.

Lemma bindM_of_ok {A B} (m : M A) (k : A -> M B) st a st1 :
  m st = ROk a st1 -> bindM m k st = k a st1.
Proof. unfold bindM. intros ->. reflexivity. Qed.

(** A result that is not an exception. *)
Definition no_throw {A} (r : Res A) : Prop := forall msg, r <> RThrow msg.

Lemma bindM_no_throw {A B} (m : M A) (k : A -> M B) st :
  no_throw (m st) -> (forall a st1, m st = ROk a st1 -> no_throw (k a st1)) ->
  no_throw (bindM m k st).
Proof.
  unfold bindM, no_throw. intros H1 H2 msg.
  destruct (m st) as [a st1|e|] eqn:E.
  - apply (H2 a st1 eq_refl).
  - exfalso. apply (H1 e). reflexivity.
  - discriminate.
Qed.

Ltac decomp :=
  repeat match goal with
  | H : bindM _ _ _ = ROk _ _ |- _ =>
      apply bindM_ok in H; destruct H as (? & ? & ? & ?)
  | H : ROk _ _ = ROk _ _ |- _ => injection H as ?; subst
  | x : unit |- _ => destruct x
  | H : RThrow _ = ROk _ _ |- _ => discriminate H
  | H : RFuel = ROk _ _ |- _ => discriminate H
  end.

(** Splits propositional goals and closes the constructor clashes. *)
Ltac crush_props :=
  repeat match goal with
  | |- _ /\ _ => split
  | |- _ <-> _ => split
  | |- _ -> _ => intro
  | |- ~ _ => intro
  | H : exists _, _ |- _ => destruct H
  | H : _ /\ _ |- _ => destruct H
  end;
  try solve [eexists; reflexivity | discriminate | congruence | lia | auto].

Lemma get_binding_ok bid st b st1 :
  get_binding bid st = ROk b st1 -> st1 = st /\ st_bindings st !! bid = Some b.
Proof. unfold get_binding. destruct (_ !! bid); intros H; inversion H; auto. Qed.

Lemma get_observer_ok oid st o st1 :
  get_observer oid st = ROk o st1 -> st1 = st /\ st_observers st !! oid = Some o.
Proof. unfold get_observer. destruct (_ !! oid); intros H; inversion H; auto. Qed.

Lemma get_element_ok e st el st1 :
  get_element e st = ROk el st1 -> st1 = st /\ st_elements st !! e = Some el.
Proof. unfold get_element. destruct (_ !! e); intros H; inversion H; auto. Qed.

Lemma strict_eqb_refl v : v <> VNaN -> strict_eqb v v = true.
Proof.
  intros Hv. destruct v; simpl; auto using Nat.eqb_refl, String.eqb_refl, Bool.eqb_reflx.
Qed.

Lemma strict_eqb_eq v w : strict_eqb v w = true -> v = w.
Proof.
  destruct v, w; simpl; intros H; try discriminate; try reflexivity.
  - apply Bool.eqb_prop in H. now subst.
  - apply Nat.eqb_eq in H. now subst.
  - apply String.eqb_eq in H. now subst.
  - apply Nat.eqb_eq in H. now subst.
Qed.

Lemma sub_eqb_true x y : sub_eqb x y = true <-> x = y.
Proof.
  destruct x as [c1 n1], y as [c2 n2]. unfold sub_eqb; simpl.
  rewrite Bool.andb_true_iff, String.eqb_eq, Nat.eqb_eq.
  split; [intros [-> ->]; reflexivity | intros H; injection H; auto].
Qed.

(** ** InlineStyleObserver: setValue, syncValue *)

Lemma setValue_eqn callf oid o el v st :
  st_observers st !! oid = Some o ->
  st_elements st !! o_element o = Some el ->
  (strict_eqb v (o_value o) = true -> setValue callf oid v st = ROk tt st) /\
  (strict_eqb v (o_value o) = false ->
     setValue callf oid v st =
     callSubscribers callf (o_subs o) v (o_value o) (written_state oid o el v st)).
Proof.
  intros Ho He. unfold setValue, bindM, get_observer. rewrite Ho.
  split; intros Hv; rewrite Hv; [reflexivity|].
  cbn [negb]. unfold put_observer, modify, style_setProperty, bindM, get_element. cbn.
  rewrite He. unfold notify, bindM, get_observer, emit, modify, put_element, modify. cbn.
  rewrite lookup_insert_eq. reflexivity.
Qed.

Lemma syncValue_eqn callf oid o el st :
  st_observers st !! oid = Some o ->
  st_elements st !! o_element o = Some el ->
  (strict_eqb (live_value o el) (o_value o) = true -> syncValue callf oid st = ROk tt st) /\
  (strict_eqb (live_value o el) (o_value o) = false ->
     syncValue callf oid st =
     callSubscribers callf (o_subs o) (live_value o el) (o_value o)
       (synced_state oid o (live_value o el) st)).
Proof.
  intros Ho He.
  assert (Hgo : get_observer oid st = ROk o st) by (unfold get_observer; rewrite Ho; reflexivity).
  assert (Hg : getValue oid st = ROk (live_value o el) st).
  { unfold getValue. rewrite (bindM_of_ok _ _ _ _ _ Hgo).
    unfold bindM, get_element. rewrite He. reflexivity. }
  unfold syncValue. rewrite (bindM_of_ok _ _ _ _ _ Hgo). cbv beta.
  rewrite (bindM_of_ok _ _ _ _ _ Hg).
  split; intros Hv; rewrite Hv; [reflexivity|].
  cbn [negb]. rewrite (bindM_of_ok _ _ _ _ _ Hgo).
  unfold put_observer, modify, notify, bindM, get_observer. cbn.
  rewrite lookup_insert_eq. reflexivity.
Qed.

(** Claim C1: [setValue(v)] with [v === value] returns the state unchanged
    (no write, no subscriber called); with [v !== value] it shifts the cached
    value into [prevValue], stores [v], writes [v] to the inline style and
    then calls every subscriber with [(v, old value)]. *)
Theorem setValue_dedup_and_notify callf oid o el v st :
  st_observers st !! oid = Some o ->
  st_elements st !! o_element o = Some el ->
  (strict_eqb v (o_value o) = true -> setValue callf oid v st = ROk tt st) /\
  (strict_eqb v (o_value o) = false ->
     setValue callf oid v st =
     callSubscribers callf (o_subs o) v (o_value o) (written_state oid o el v st)).
Proof. apply setValue_eqn. Qed.

(** Claim C6 (as amended): [syncValue()] reads the live value; when it
    differs from the cached value it shifts the cached value into
    [prevValue], stores the live value and calls every subscriber with
    (live value, old value), without writing to the inline style; when it is
    equal nothing happens. *)
Theorem syncValue_shifts_and_notifies_without_write callf oid o el st :
  st_observers st !! oid = Some o ->
  st_elements st !! o_element o = Some el ->
  (strict_eqb (live_value o el) (o_value o) = true -> syncValue callf oid st = ROk tt st) /\
  (strict_eqb (live_value o el) (o_value o) = false ->
     syncValue callf oid st =
     callSubscribers callf (o_subs o) (live_value o el) (o_value o)
       (synced_state oid o (live_value o el) st)).
Proof. apply syncValue_eqn. Qed.

(** Claim C6, the claim as stated fails: on [sync_example_state] the
    observer's [syncValue()] picks up ["blue"] and writes nothing to the
    inline style, while [setValue("blue")] on the same state writes it. *)
Lemma syncValue_performs_no_write_counterexample :
  result_trace (syncValue (call 1) 0 sync_example_state) = Some [] /\
  result_trace (setValue (call 1) 0 (VStr "blue") sync_example_state)
    = Some [ESetProperty 0 "color" (VStr "blue")].
Proof. split; vm_compute; reflexivity. Qed.

(** ** The mutation watch follows the subscribers *)

Lemma remove_first_length p l r :
  remove_first p l = Some r -> length l = S (length r).
Proof.
  revert r. induction l as [|q l IH]; simpl; intros r H; [discriminate|].
  destruct (sub_eqb q p).
  - injection H as <-. reflexivity.
  - destruct (remove_first p l) as [r'|] eqn:E; [|discriminate].
    injection H as <-. simpl. rewrite (IH r' eq_refl). reflexivity.
Qed.

Lemma remove_first_not_in p l : ~ In p l -> remove_first p l = None.
Proof.
  induction l as [|q l IH]; simpl; intros Hn; [reflexivity|].
  destruct (sub_eqb q p) eqn:E.
  - apply sub_eqb_true in E. subst. exfalso. auto.
  - rewrite IH; auto.
Qed.

(** Claim C4: if the watch handle is present exactly when there is a
    subscriber, [subscribe] and [unsubscribe] keep it so; [subscribe]
    creates the watch exactly on the subscriber count going 0 -> 1, and
    [unsubscribe] disconnects it (and clears the handle) exactly on 1 -> 0;
    otherwise the handle is left as it is. *)
Theorem watch_handle_follows_subscribers o ctx c :
  watch_inv o ->
  (let o' := (subscribe o ctx c).1 in
   watch_inv o' /\
   ((o_mo o = None /\ is_Some (o_mo o')) <->
    (length (o_subs o) = 0 /\ length (o_subs o') = 1)) /\
   (is_Some (o_mo o) -> o_mo o' = o_mo o)) /\
  (let o' := (unsubscribe o ctx c).1 in
   watch_inv o' /\
   ((is_Some (o_mo o) /\ o_mo o' = None) <->
    (length (o_subs o) = 1 /\ length (o_subs o') = 0)) /\
   (is_Some (o_mo o') -> o_mo o' = o_mo o)).
Proof.
  destruct o as [e rule h v pv mo subs]. unfold watch_inv; simpl. intros Hinv.
  split.
  - unfold subscribe, hasSubscribers, addSubscriber; simpl.
    destruct subs as [|s subs].
    + assert (mo = None) as -> by (destruct mo; [exfalso; apply (proj1 Hinv); eauto|reflexivity]).
      simpl. unfold is_Some. crush_props.
    + assert (is_Some mo) as [m ->] by (apply Hinv; discriminate).
      destruct (existsb _ _); simpl; unfold is_Some; crush_props.
  - unfold unsubscribe, removeSubscriber, hasSubscribers; simpl.
    destruct (remove_first (ctx, c) subs) as [r|] eqn:E; simpl.
    + pose proof (remove_first_length _ _ _ E) as Hl.
      assert (is_Some mo) as [m ->].
      { apply Hinv. destruct subs; simpl in Hl; discriminate. }
      destruct r as [|x r]; simpl in *; unfold is_Some; crush_props.
    + split; [exact Hinv|]. unfold is_Some in *. crush_props.
Qed.

(** Claim C9: unsubscribing a pair that is not subscribed changes neither
    the subscribers nor the watch handle, and emits nothing. *)
Theorem unsubscribe_absent_pair_is_noop o ctx c :
  ~ In (ctx, c) (o_subs o) -> unsubscribe o ctx c = (o, []).
Proof.
  intros Hn. unfold unsubscribe, removeSubscriber.
  rewrite (remove_first_not_in _ _ Hn). reflexivity.
Qed.

(** ** The frame of a notification cascade *)

Lemma frame_refl st : frame st st.
Proof. repeat split; auto. exists []. by rewrite app_nil_r. Qed.

Lemma frame_trans st1 st2 st3 : frame st1 st2 -> frame st2 st3 -> frame st1 st3.
Proof.
  intros (A1 & B1 & C1 & D1 & E1 & d1 & F1) (A2 & B2 & C2 & D2 & E2 & d2 & F2).
  repeat split; try congruence. exists (d1 ++ d2)%list. by rewrite F2, F1, app_assoc.
Qed.

Lemma fmap_insert_same {K V W} `{Countable K} (f : V -> W) (m : gmap K V) k x y :
  m !! k = Some x -> f y = f x -> f <$> <[k := y]> m = f <$> m.
Proof.
  intros Hk Hf. rewrite fmap_insert. apply insert_id.
  rewrite lookup_fmap, Hk. simpl. by rewrite Hf.
Qed.

Lemma frame_add_event st e : frame st (add_event e st).
Proof. repeat split; auto. by exists [e]. Qed.

Lemma frame_set_heap st h : frame st (set_heap h st).
Proof. repeat split; auto. exists []. by rewrite app_nil_r. Qed.

Lemma frame_observer_value st oid o prev v :
  st_observers st !! oid = Some o ->
  frame st (set_observers (<[oid := with_value o prev v]> (st_observers st)) (st_next_observer st) st).
Proof.
  intros Ho. repeat split; auto; [| exists []; by rewrite app_nil_r].
  simpl. by apply (fmap_insert_same _ _ _ o).
Qed.

Lemma frame_element_style st e el has style :
  st_elements st !! e = Some el ->
  frame st (set_elements (<[e := mkElement has style (el_styleObservers el)]> (st_elements st)) st).
Proof.
  intros He. repeat split; auto; [| exists []; by rewrite app_nil_r].
  simpl. by apply (fmap_insert_same _ _ _ el).
Qed.

Lemma frame_binding_version st bid b n :
  st_bindings st !! bid = Some b ->
  frame st (set_bindings (<[bid := with_version b n]> (st_bindings st)) st).
Proof.
  intros Hb. repeat split; auto; [| exists []; by rewrite app_nil_r].
  simpl. by apply (fmap_insert_same _ _ _ b).
Qed.

(** Inverting a successful run: unfold the primitives and split the binds. *)
Ltac prim_unfold H :=
  unfold ret, modify, gets, throw, out_of_fuel, emit, put_binding, put_observer,
    put_element, type_error in H.

Ltac run_inv :=
  repeat (match goal with
  | H : bindM _ _ _ = ROk _ _ |- _ =>
      apply bindM_ok in H; destruct H as (? & ? & ? & ?)
  | H : get_binding _ _ = ROk _ _ |- _ =>
      apply get_binding_ok in H; destruct H as [? ?]; subst
  | H : get_observer _ _ = ROk _ _ |- _ =>
      apply get_observer_ok in H; destruct H as [? ?]; subst
  | H : get_element _ _ = ROk _ _ |- _ =>
      apply get_element_ok in H; destruct H as [? ?]; subst
  | H : (if ?c then _ else _) _ = ROk _ _ |- _ => destruct c eqn:?
  | H : (match ?c with Some _ => _ | None => _ end) _ = ROk _ _ |- _ => destruct c eqn:?
  | H : ROk _ _ = ROk _ _ |- _ => injection H as ?; subst
  | x : unit |- _ => destruct x
  | H : RThrow _ = ROk _ _ |- _ => discriminate H
  | H : RFuel = ROk _ _ |- _ => discriminate H
  | H : ret _ _ = ROk _ _ |- _ => prim_unfold H
  | H : modify _ _ = ROk _ _ |- _ => prim_unfold H
  | H : gets _ _ = ROk _ _ |- _ => prim_unfold H
  | H : emit _ _ = ROk _ _ |- _ => prim_unfold H
  | H : throw _ _ = ROk _ _ |- _ => prim_unfold H
  | H : type_error _ = ROk _ _ |- _ => prim_unfold H
  | H : out_of_fuel _ = ROk _ _ |- _ => prim_unfold H
  | H : put_binding _ _ _ = ROk _ _ |- _ => prim_unfold H
  | H : put_observer _ _ _ = ROk _ _ |- _ => prim_unfold H
  | H : put_element _ _ _ = ROk _ _ |- _ => prim_unfold H
  end; cbn [st_elements st_observers st_bindings st_heap st_next_observer
            st_hyphenateCache st_trace set_elements set_observers set_bindings
            set_heap set_cache add_event] in *).

Section Cascade.
Variable callf : nat -> string -> Val -> Val -> M unit.
Hypothesis callf_frame : forall b c nv ov st st', callf b c nv ov st = ROk tt st' -> frame st st'.

Lemma callSubscribers_frame subs nv ov st st' :
  callSubscribers callf subs nv ov st = ROk tt st' -> frame st st'.
Proof.
  revert st. induction subs as [|[c b] r IH]; simpl; intros st H.
  - run_inv. apply frame_refl.
  - run_inv. eapply frame_trans; [eapply callf_frame; eassumption|]. eauto.
Qed.

Lemma setValue_frame oid v st st' : setValue callf oid v st = ROk tt st' -> frame st st'.
Proof.
  unfold setValue, style_setProperty, notify. intros H. run_inv.
  - eapply frame_trans; [eapply frame_observer_value; eassumption|].
    eapply frame_trans; [eapply frame_element_style; eassumption|].
    eapply frame_trans; [apply frame_add_event|].
    eapply callSubscribers_frame; eassumption.
  - apply frame_refl.
Qed.

Lemma syncValue_frame oid st st' : syncValue callf oid st = ROk tt st' -> frame st st'.
Proof.
  unfold syncValue, getValue, notify. intros H. run_inv.
  - idtac.
    eapply frame_trans; [eapply frame_observer_value; eassumption|].
    eapply callSubscribers_frame; eassumption.
  - apply frame_refl.
Qed.

End Cascade.

Lemma frame_binding_version' st bs bid b n :
  bs = st_bindings st -> bs !! bid = Some b ->
  frame st (set_bindings (<[bid := with_version b n]> bs) st).
Proof. intros -> Hb. by apply frame_binding_version. Qed.

Lemma frame_observer_value' st os oid o prev v :
  os = st_observers st -> os !! oid = Some o ->
  frame st (set_observers (<[oid := with_value o prev v]> os) (st_next_observer st) st).
Proof. intros -> Ho. by apply frame_observer_value. Qed.

Ltac frame_solve :=
  match goal with
  | |- frame ?A ?A => apply frame_refl
  | |- frame ?A (add_event ?e ?B) =>
      apply (frame_trans A B); [frame_solve | apply frame_add_event]
  | |- frame ?A (set_heap ?h ?B) =>
      apply (frame_trans A B); [frame_solve | apply frame_set_heap]
  | |- frame ?A (set_bindings (<[?k := with_version ?b ?n]> ?bs) ?B) =>
      apply (frame_trans A B); [frame_solve | apply frame_binding_version'; [reflexivity|assumption]]
  | |- frame ?A (set_observers (<[?k := with_value ?o ?p ?v]> ?os) _ ?B) =>
      apply (frame_trans A B); [frame_solve | apply frame_observer_value'; [reflexivity|assumption]]
  | H : ?m ?B = ROk _ ?C |- frame ?A ?C =>
      apply (frame_trans A B); [frame_solve | frame_leaf H]
  end
with frame_leaf H := idtac.

Lemma call_frame fuel :
  forall bid ctx nv ov st st', call fuel bid ctx nv ov st = ROk tt st' -> frame st st'.
Proof.
  induction fuel as [|f IH]; intros bid ctx nv ov st st' H; simpl in H.
  - run_inv.
  - unfold getValue, evaluate, updateTarget, updateSource, bump_version, observer_of,
      source_of in H.
    run_inv; frame_solve.
    all: eapply (setValue_frame (call f) IH); eassumption.
Qed.

(** ** No exception from the two known contexts *)

Lemma fmap_lookup_back {K V W} `{Countable K} (f : V -> W) (m m' : gmap K V) k x' :
  f <$> m' = f <$> m -> m' !! k = Some x' -> exists x, m !! k = Some x /\ f x' = f x.
Proof.
  intros E Hk. apply (f_equal (lookup k)) in E. rewrite !lookup_fmap, Hk in E.
  destruct (m !! k) as [x|]; simpl in E; inversion E; eauto.
Qed.

Lemma fmap_lookup_fwd {K V W} `{Countable K} (f : V -> W) (m m' : gmap K V) k x :
  f <$> m' = f <$> m -> m !! k = Some x -> exists x', m' !! k = Some x' /\ f x' = f x.
Proof.
  intros E Hk. apply (f_equal (lookup k)) in E. rewrite !lookup_fmap, Hk in E.
  destruct (m' !! k) as [x'|]; simpl in E; inversion E; eauto.
Qed.

Lemma frame_calls_safe st st' : frame st st' -> calls_safe st -> calls_safe st'.
Proof.
  intros (FE & FO & _ & FB & _) [SB SO]. split.
  - intros bid b' Hb' Hbd.
    destruct (fmap_lookup_back _ _ _ _ _ FB Hb') as (b & Hb & Eb).
    assert (b_isBound b = true) as Hbd0
      by (apply (f_equal b_isBound) in Eb; simpl in Eb; congruence).
    destruct (SB _ _ Hb Hbd0) as (Hsrc & oid & o & Hso & Ho & el & He).
    apply (f_equal (fun b => (b_source b, b_styleObserver b))) in Eb. simpl in Eb.
    injection Eb as Es Eo.
    destruct (fmap_lookup_fwd _ _ _ _ _ FO Ho) as (o' & Ho' & Eo').
    destruct (fmap_lookup_fwd _ _ _ _ _ FE He) as (el' & He' & _).
    split; [by rewrite Es|].
    exists oid, o'. split; [congruence|]. split; [done|].
    apply (f_equal o_element) in Eo'. simpl in Eo'. rewrite Eo'. eauto.
  - intros oid o' Ho'.
    destruct (fmap_lookup_back _ _ _ _ _ FO Ho') as (o & Ho & Eo).
    destruct (SO _ _ Ho) as [[el He] Hsubs].
    assert (o_element o' = o_element o /\ o_subs o' = o_subs o) as [Ee Esub]
      by (split; [apply (f_equal o_element) in Eo | apply (f_equal o_subs) in Eo]; exact Eo).
    destruct (fmap_lookup_fwd _ _ _ _ _ FE He) as (el' & He' & _).
    split; [rewrite Ee; eauto|].
    intros ctx c Hin. rewrite Esub in Hin. destruct (Hsubs _ _ Hin) as [Hc [b Hb]].
    destruct (fmap_lookup_fwd _ _ _ _ _ FB Hb) as (b' & Hb' & _). eauto.
Qed.

Lemma frame_binding_exists st st' bid :
  frame st st' -> is_Some (st_bindings st !! bid) -> is_Some (st_bindings st' !! bid).
Proof.
  intros (_ & _ & _ & FB & _) [b Hb].
  destruct (fmap_lookup_fwd _ _ _ _ _ FB Hb) as (b' & Hb' & _). eauto.
Qed.

Lemma written_state_frame oid o el v st :
  st_observers st !! oid = Some o -> st_elements st !! o_element o = Some el ->
  frame st (written_state oid o el v st).
Proof.
  intros Ho He. unfold written_state.
  eapply frame_trans; [eapply frame_observer_value; eassumption|].
  eapply frame_trans; [eapply frame_element_style; exact He|].
  apply frame_add_event.
Qed.

Section NoThrow.
Variable callf : nat -> string -> Val -> Val -> M unit.
Hypothesis callf_frame : forall b c nv ov st st', callf b c nv ov st = ROk tt st' -> frame st st'.
Hypothesis callf_no_throw : forall c nv ov st,
  calls_safe st -> is_Some (st_bindings st !! c) ->
  no_throw (callf c styleObserverContext nv ov st).

Lemma callSubscribers_no_throw subs nv ov st :
  calls_safe st ->
  (forall ctx c, In (ctx, c) subs -> ctx = styleObserverContext /\ is_Some (st_bindings st !! c)) ->
  no_throw (callSubscribers callf subs nv ov st).
Proof.
  revert st. induction subs as [|[ctx c] r IH]; intros st Hs Hsubs; simpl.
  - intros msg; discriminate.
  - destruct (Hsubs ctx c (or_introl eq_refl)) as [-> Hc].
    apply bindM_no_throw; [auto|].
    intros [] st1 H1. pose proof (callf_frame _ _ _ _ _ _ H1) as F.
    apply IH; [eapply frame_calls_safe; eauto|].
    intros ctx' c' Hin. destruct (Hsubs ctx' c' (or_intror Hin)) as [? ?].
    split; [done|]. eapply frame_binding_exists; eauto.
Qed.

Lemma setValue_no_throw oid v st :
  calls_safe st -> is_Some (st_observers st !! oid) -> no_throw (setValue callf oid v st).
Proof.
  intros Hs [o Ho]. destruct (proj2 Hs _ _ Ho) as [[el He] Hsubs].
  destruct (strict_eqb v (o_value o)) eqn:E.
  - rewrite (proj1 (setValue_eqn callf oid o el v st Ho He) E). intros msg; discriminate.
  - rewrite (proj2 (setValue_eqn callf oid o el v st Ho He) E).
    pose proof (written_state_frame oid o el v st Ho He) as F.
    apply callSubscribers_no_throw; [eapply frame_calls_safe; eauto|].
    intros ctx c Hin. destruct (Hsubs _ _ Hin). split; [done|].
    eapply frame_binding_exists; eauto.
Qed.

End NoThrow.

Lemma bind_get_binding {A} bid b (k : Binding -> M A) st :
  st_bindings st !! bid = Some b -> bindM (get_binding bid) k st = k b st.
Proof. intros H. unfold bindM, get_binding. by rewrite H. Qed.

Lemma bind_get_observer {A} oid o (k : Observer -> M A) st :
  st_observers st !! oid = Some o -> bindM (get_observer oid) k st = k o st.
Proof. intros H. unfold bindM, get_observer. by rewrite H. Qed.

Lemma bind_get_element {A} e el (k : Element -> M A) st :
  st_elements st !! e = Some el -> bindM (get_element e) k st = k el st.
Proof. intros H. unfold bindM, get_element. by rewrite H. Qed.

Lemma bind_emit {A} e (k : unit -> M A) st : bindM (emit e) k st = k tt (add_event e st).
Proof. reflexivity. Qed.

Lemma bind_ret {A B} (a : A) (k : A -> M B) st : bindM (ret a) k st = k a st.
Proof. reflexivity. Qed.

Lemma bind_modify {A} f (k : unit -> M A) st : bindM (modify f) k st = k tt (f st).
Proof. reflexivity. Qed.

Lemma bind_gets {A B} (f : State -> A) (k : A -> M B) st : bindM (gets f) k st = k (f st) st.
Proof. reflexivity. Qed.

Lemma bind_assoc {A B C} (m : M A) (k : A -> M B) (k' : B -> M C) st :
  bindM (bindM m k) k' st = bindM m (fun a => bindM (k a) k') st.
Proof. unfold bindM. by destruct (m st). Qed.

Lemma context_eqbs :
  String.eqb styleObserverContext sourceContext = false /\
  String.eqb styleObserverContext styleObserverContext = true /\
  String.eqb sourceContext sourceContext = true.
Proof. repeat split; reflexivity. Qed.

(** One symbolic execution step. *)
Ltac sym_step :=
  first
  [ rewrite bind_assoc
  | rewrite bind_emit
  | rewrite bind_ret
  | rewrite bind_modify
  | rewrite bind_gets
  | erewrite bind_get_binding by eassumption
  | erewrite bind_get_observer by eassumption
  | erewrite bind_get_element by eassumption
  | rewrite (proj1 context_eqbs)
  | rewrite (proj1 (proj2 context_eqbs))
  | rewrite (proj2 (proj2 context_eqbs)) ];
  cbv beta;
  cbn [st_elements st_observers st_bindings st_heap st_next_observer
       st_hyphenateCache st_trace set_elements set_observers set_bindings
       set_heap set_cache add_event].

Lemma call_observer_no_throw fuel c nv ov st :
  calls_safe st -> is_Some (st_bindings st !! c) ->
  no_throw (call fuel c styleObserverContext nv ov st).
Proof.
  intros Hs [b Hb]. destruct fuel as [|f]; [intros msg; discriminate|].
  cbn [call]. repeat sym_step.
  destruct (b_isBound b) eqn:Hbd; cbn [negb]; [|intros msg; discriminate].
  destruct (negb (strict_eqb nv ov)); [|intros msg; discriminate].
  unfold updateSource. repeat sym_step.
  destruct (proj1 Hs _ _ Hb Hbd) as [[src Hsrc] _]. unfold source_of. rewrite Hsrc.
  repeat sym_step. intros msg; discriminate.
Qed.

Lemma calls_safe_add_event st e : calls_safe st -> calls_safe (add_event e st).
Proof. apply frame_calls_safe, frame_add_event. Qed.

Lemma call_source_no_throw fuel bid nv ov st :
  calls_safe st -> is_Some (st_bindings st !! bid) ->
  no_throw (call fuel bid sourceContext nv ov st).
Proof.
  intros Hs [b Hb]. destruct fuel as [|f]; [intros msg; discriminate|].
  cbn [call]. repeat sym_step.
  destruct (b_isBound b) eqn:Hbd; cbn [negb]; [|intros msg; discriminate].
  destruct (proj1 Hs _ _ Hb Hbd) as [[src Hsrc] (oid & o & Hso & Ho & el & He)].
  unfold observer_of, getValue, source_of, evaluate. rewrite Hso, Hsrc.
  repeat sym_step.
  set (st2 := add_event (EEvaluate bid src) (add_event (ECall bid sourceContext nv ov) st)).
  assert (Hs2 : calls_safe st2) by (apply calls_safe_add_event, calls_safe_add_event, Hs).
  assert (Hb2 : st_bindings st2 !! bid = Some b) by exact Hb.
  apply bindM_no_throw.
  - destruct (negb _); [|intros msg; discriminate].
    unfold updateTarget, observer_of. rewrite (bind_get_binding _ _ _ _ Hb2), Hso.
    rewrite bind_ret.
    apply (setValue_no_throw (call f) (call_frame f) (call_observer_no_throw f)); [exact Hs2|].
    exists o. exact Ho.
  - intros [] st3 H3.
    assert (F : frame st2 st3).
    { destruct (negb _); [|run_inv; apply frame_refl].
      unfold updateTarget, observer_of in H3. run_inv.
      eapply (setValue_frame (call f) (call_frame f)); eassumption. }
    destruct (frame_binding_exists _ _ bid F (ex_intro _ b Hb2)) as [b3 Hb3].
    destruct (negb (mode_eqb (b_mode b) OneTime)); [|intros msg; discriminate].
    unfold bump_version, put_binding. repeat sym_step. intros msg; discriminate.
Qed.

Lemma call_unbound fuel bid ctx nv ov st b :
  st_bindings st !! bid = Some b -> b_isBound b = false ->
  call (S fuel) bid ctx nv ov st = ROk tt (add_event (ECall bid ctx nv ov) st).
Proof.
  intros Hb Hbd. cbn [call]. repeat sym_step. rewrite Hbd. reflexivity.
Qed.

Lemma call_unknown_context fuel bid ctx nv ov st b :
  st_bindings st !! bid = Some b -> b_isBound b = true ->
  ctx <> sourceContext -> ctx <> styleObserverContext ->
  call (S fuel) bid ctx nv ov st = RThrow (unexpected_context_message ctx).
Proof.
  intros Hb Hbd H1 H2. cbn [call]. repeat sym_step. rewrite Hbd. cbn [negb].
  apply String.eqb_neq in H1, H2. rewrite H1, H2. reflexivity.
Qed.

(** ** StyleBinding.call *)

(** Claim C8: on a state where every bound binding has its source and
    observer and every subscriber subscribed with the observer context,
    [call(context, ...)] raises exactly when the binding is bound and the
    context is neither [sourceContext] nor [styleObserverContext]; the
    message contains the context; an unbound binding returns at once, the
    state unchanged (the [ECall] entry only records the invocation). *)
Theorem call_throws_iff_unknown_context fuel bid ctx nv ov st b :
  calls_safe st -> st_bindings st !! bid = Some b ->
  ((exists msg, call (S fuel) bid ctx nv ov st = RThrow msg) <->
     b_isBound b = true /\ ctx <> sourceContext /\ ctx <> styleObserverContext) /\
  (forall msg, call (S fuel) bid ctx nv ov st = RThrow msg ->
     exists pre post, msg = pre ++ ctx ++ post) /\
  (b_isBound b = false ->
     call (S fuel) bid ctx nv ov st = ROk tt (add_event (ECall bid ctx nv ov) st)).
Proof.
  intros Hs Hb.
  assert (Hiff : (exists msg, call (S fuel) bid ctx nv ov st = RThrow msg) <->
     b_isBound b = true /\ ctx <> sourceContext /\ ctx <> styleObserverContext).
  { split.
    - intros [msg Hmsg].
      destruct (b_isBound b) eqn:Hbd.
      + split; [reflexivity|]. split; intros ->.
        * exact (call_source_no_throw (S fuel) bid nv ov st Hs (ex_intro _ b Hb) msg Hmsg).
        * exact (call_observer_no_throw (S fuel) bid nv ov st Hs (ex_intro _ b Hb) msg Hmsg).
      + rewrite (call_unbound fuel bid ctx nv ov st b Hb Hbd) in Hmsg. discriminate.
    - intros (Hbd & H1 & H2). eexists. exact (call_unknown_context fuel bid ctx nv ov st b Hb Hbd H1 H2). }
  split; [exact Hiff|]. split.
  - intros msg Hmsg. destruct (proj1 Hiff (ex_intro _ msg Hmsg)) as (Hbd & H1 & H2).
    rewrite (call_unknown_context fuel bid ctx nv ov st b Hb Hbd H1 H2) in Hmsg.
    injection Hmsg as <-.
    exists ("Unexpected context for style binding: " ++ dquote), dquote. reflexivity.
  - apply call_unbound; exact Hb.
Qed.

(** ** Preservation along a run *)

Section Preserves.
Context (R : State -> State -> Prop) `{!PreOrder R}.

Lemma pres_apply {A} (m : M A) st a st' : m st = ROk a st' -> preserves R m -> R st st'.
Proof. intros H P. exact (P _ _ _ H). Qed.

Lemma pres_bind {A B} (m : M A) (k : A -> M B) :
  preserves R m -> (forall a, preserves R (k a)) -> preserves R (bindM m k).
Proof.
  intros Pm Pk st b st' H. decomp. etransitivity; [eapply Pm|eapply Pk]; eassumption.
Qed.

Lemma pres_ret {A} (a : A) : preserves R (ret a).
Proof. intros st b st' H. injection H as _ <-. reflexivity. Qed.

Lemma pres_throw {A} msg : preserves R (@throw A msg).
Proof. intros st b st' H. discriminate. Qed.

Lemma pres_type_error {A} : preserves R (@type_error A).
Proof. apply pres_throw. Qed.

Lemma pres_out_of_fuel {A} : preserves R (@out_of_fuel A).
Proof. intros st b st' H. discriminate. Qed.

Lemma pres_gets {A} (f : State -> A) : preserves R (gets f).
Proof. intros st b st' H. injection H as _ <-. reflexivity. Qed.

Lemma pres_get_binding bid : preserves R (get_binding bid).
Proof. intros st b st' H. apply get_binding_ok in H as [-> _]. reflexivity. Qed.

Lemma pres_get_observer oid : preserves R (get_observer oid).
Proof. intros st b st' H. apply get_observer_ok in H as [-> _]. reflexivity. Qed.

Lemma pres_get_element e : preserves R (get_element e).
Proof. intros st b st' H. apply get_element_ok in H as [-> _]. reflexivity. Qed.

Lemma pres_modify f : (forall st, R st (f st)) -> preserves R (modify f).
Proof. intros Hf st b st' H. injection H as _ <-. apply Hf. Qed.

Lemma pres_emit_all evs : (forall st e, R st (add_event e st)) -> preserves R (emit_all evs).
Proof.
  intros He. induction evs as [|e r IH]; simpl.
  - apply pres_ret.
  - apply pres_bind; [apply pres_modify; intros st; apply He|intros _; exact IH].
Qed.

End Preserves.

#[global] Instance flags_kept_preorder : PreOrder flags_kept.
Proof.
  split.
  - intros st bid b Hb. eauto.
  - intros s1 s2 s3 H12 H23 bid b Hb.
    destruct (H12 _ _ Hb) as (b2 & Hb2 & E1 & E2 & E3).
    destruct (H23 _ _ Hb2) as (b3 & Hb3 & F1 & F2 & F3).
    exists b3. split; [done|]. split; [congruence|]. split; congruence.
Qed.

#[global] Instance same_bindings_preorder : PreOrder same_bindings.
Proof. split; [intros st; reflexivity|intros s1 s2 s3 H1 H2; unfold same_bindings in *; congruence]. Qed.

Lemma frame_flags_kept st st' : frame st st' -> flags_kept st st'.
Proof.
  intros (_ & _ & _ & FB & _) bid b Hb.
  destruct (fmap_lookup_fwd _ _ _ _ _ FB Hb) as (b' & Hb' & E).
  exists b'. split; [done|].
  split; [apply (f_equal b_isBound) in E; exact E|].
  split; [apply (f_equal b_source) in E; exact E|].
  apply (f_equal binding_statics) in E; exact E.
Qed.

Lemma flags_kept_same_bindings st st' :
  st_bindings st' = st_bindings st -> flags_kept st st'.
Proof. intros E bid b Hb. exists b. rewrite E. auto. Qed.

Lemma pres_flags_set_binding_observer bid so : preserves flags_kept (set_binding_observer bid so).
Proof.
  intros st a st' H. unfold set_binding_observer, put_binding in H.
  unfold bindM, get_binding, modify in H.
  destruct (st_bindings st !! bid) as [b0|] eqn:Hb0; [|discriminate].
  injection H as _ <-.
  intros bid' b' Hb'. simpl.
  destruct (decide (bid' = bid)) as [->|Hne].
  - rewrite lookup_insert_eq. exists (with_styleObserver b0 so).
    rewrite Hb' in Hb0. injection Hb0 as ->. auto.
  - rewrite lookup_insert_ne by congruence. eauto.
Qed.

Lemma pres_flags_setValue f oid v : preserves flags_kept (setValue (call f) oid v).
Proof.
  intros st a st' H. destruct a.
  apply frame_flags_kept. eapply (setValue_frame (call f) (call_frame f)). exact H.
Qed.

Lemma pres_flags_hyphenateM name : preserves flags_kept (hyphenateM name).
Proof.
  intros st a st' H. unfold hyphenateM in H. destruct (hyphenate _ _).
  injection H as _ <-. apply flags_kept_same_bindings. reflexivity.
Qed.

(** Drives a [preserves] goal through the code, down to the leaves. *)
Ltac pres_go leaf special :=
  repeat first [ special | match goal with
  | |- PreOrder _ => typeclasses eauto
  | |- preserves _ (bindM _ _) => apply pres_bind; [..|intros ?]
  | |- preserves _ (ret _) => apply pres_ret
  | |- preserves _ (throw _) => apply pres_throw
  | |- preserves _ type_error => apply pres_type_error
  | |- preserves _ out_of_fuel => apply pres_out_of_fuel
  | |- preserves _ (gets _) => apply pres_gets
  | |- preserves _ (get_binding _) => apply pres_get_binding
  | |- preserves _ (get_observer _) => apply pres_get_observer
  | |- preserves _ (get_element _) => apply pres_get_element
  | |- preserves _ (emit_all _) => apply pres_emit_all; [..|leaf]
  | |- preserves _ (modify _) => apply pres_modify; [..|leaf]
  | |- preserves _ (emit _) => apply pres_modify; [..|leaf]
  | |- preserves _ (put_element _ _) => apply pres_modify; [..|leaf]
  | |- preserves _ (put_observer _ _) => apply pres_modify; [..|leaf]
  | |- preserves _ (if ?c then _ else _) => destruct c
  | |- preserves _ (match ?c with _ => _ end) => destruct c
  | |- preserves _ (observer_of ?b) => unfold observer_of
  | |- preserves _ (source_of ?b) => unfold source_of
  | |- preserves _ (styleObserversLookup _) => unfold styleObserversLookup
  | |- preserves _ (register_observer _ _ _) => unfold register_observer
  | |- preserves _ (new_observer _ _) => unfold new_observer
  | |- preserves _ (subscribeM _ _ _) => unfold subscribeM
  | |- preserves _ (unsubscribeM _ _ _) => unfold unsubscribeM
  | |- preserves _ (evaluate _ _) => unfold evaluate
  | |- preserves _ (updateSource _ _) => unfold updateSource
  | |- preserves _ (updateTarget _ _ _) => unfold updateTarget
  | |- preserves _ (resolve_observer _ _ _ _ _) => unfold resolve_observer
  | |- preserves _ (initial_sync _ _ _ _ _) => unfold initial_sync
  | |- preserves _ (observe_by_mode _ _ _) => unfold observe_by_mode
  | |- preserves _ (put_binding _ _) => apply pres_modify; [..|leaf]
  end ].

Ltac flags_leaf :=
  first [ intros ?; apply flags_kept_same_bindings; reflexivity
        | intros ? ?; apply flags_kept_same_bindings; reflexivity ].

Lemma pres_same_bindings_unsubscribeM oid c b : preserves same_bindings (unsubscribeM oid c b).
Proof. pres_go ltac:(intros ?; reflexivity) fail. Qed.

#[global] Instance same_elements_preorder : PreOrder same_elements.
Proof. split; [intros st; reflexivity|intros s1 s2 s3 H1 H2; unfold same_elements in *; congruence]. Qed.

Lemma pres_same_elements_unbind bid : preserves same_elements (unbind bid).
Proof.
  unfold unbind. pres_go ltac:(intros ?; reflexivity)
    ltac:(progress unfold set_binding_observer).
Qed.

Lemma bound_to_bind_noop fuel bid src st :
  bound_to bid src st -> bind fuel bid src st = ROk tt st.
Proof.
  intros (b & Hb & Hbd & Hsrc). unfold bind.
  rewrite (bind_get_binding _ _ _ _ Hb), Hbd, Hsrc, Nat.eqb_refl. reflexivity.
Qed.

Lemma bind_body_bound_to fuel bid src st st' :
  bind_body fuel bid src st = ROk tt st' -> bound_to bid src st'.
Proof.
  unfold bind_body. intros H.
  apply bindM_ok in H as (b & st0 & H & H1). apply get_binding_ok in H as [-> Hb].
  unfold put_binding at 1, modify at 1, bindM at 1 in H1.
  eapply (pres_apply flags_kept) in H1.
  - destruct (H1 bid (with_bound b true (Some src))) as (b' & Hb' & E1 & E2 & _).
    + simpl. apply lookup_insert_eq.
    + exists b'. auto.
  - pres_go flags_leaf
      ltac:(first [ apply pres_flags_set_binding_observer
                  | apply pres_flags_hyphenateM
                  | apply pres_flags_setValue ]).
Qed.

(** ** Steps that touch no data *)

#[global] Instance quiet_preorder : PreOrder quiet.
Proof.
  split.
  - intros st. repeat split; auto.
    + intros oid o _ Ho. eauto.
    + exists []. by rewrite app_nil_r.
  - intros s1 s2 s3 (A1 & B1 & C1 & D1 & E1 & d1 & F1 & G1) (A2 & B2 & C2 & D2 & E2 & d2 & F2 & G2).
    split; [congruence|]. split; [congruence|]. split; [lia|]. split.
    + intros oid o Hlt Ho. destruct (D1 _ _ Hlt Ho) as (o2 & Ho2 & V1 & P1).
      destruct (D2 oid o2 ltac:(lia) Ho2) as (o3 & Ho3 & V2 & P2).
      exists o3. split; [done|]. split; congruence.
    + split; [auto|]. exists (d1 ++ d2)%list. split.
      * by rewrite F2, F1, app_assoc.
      * by rewrite List.filter_app, G1, G2.
Qed.

Lemma quiet_same st st' :
  st_heap st' = st_heap st -> st_elements st' = st_elements st ->
  st_observers st' = st_observers st -> st_next_observer st' = st_next_observer st ->
  st_hyphenateCache st' = st_hyphenateCache st -> st_trace st' = st_trace st ->
  quiet st st'.
Proof.
  intros A B C D E F. split; [done|]. split; [by rewrite B|]. split; [lia|]. split.
  - intros oid o _ Ho. rewrite C. eauto.
  - split; [unfold cache_ok; by rewrite E|]. exists []. by rewrite F, app_nil_r.
Qed.

Lemma quiet_set_bindings st bs : quiet st (set_bindings bs st).
Proof. by apply quiet_same. Qed.

Lemma quiet_add_event st e : touches e = false -> quiet st (add_event e st).
Proof.
  intros He. split; [done|]. split; [done|]. split; [simpl; lia|]. split.
  - intros oid o _ Ho. eauto.
  - split; [done|]. exists [e]. simpl. by rewrite He.
Qed.

Lemma quiet_set_element_same_style st e el has style so :
  st_elements st !! e = Some el -> has = el_hasStyleAttr el -> style = el_style el ->
  quiet st (set_elements (<[e := mkElement has style so]> (st_elements st)) st).
Proof.
  intros He -> ->. split; [done|]. split.
  - simpl. by apply (fmap_insert_same _ _ _ el).
  - split; [simpl; lia|]. split; [intros oid o _ Ho; eauto|].
    split; [done|]. exists []. by rewrite app_nil_r.
Qed.

Lemma quiet_put_observer_same_values st oid o o' :
  st_observers st !! oid = Some o -> o_value o' = o_value o -> o_prevValue o' = o_prevValue o ->
  quiet st (set_observers (<[oid := o']> (st_observers st)) (st_next_observer st) st).
Proof.
  intros Ho V P. split; [done|]. split; [done|]. split; [simpl; lia|]. split.
  - intros oid' o1 _ Ho1. simpl. destruct (decide (oid' = oid)) as [->|Hne].
    + rewrite lookup_insert_eq. rewrite Ho in Ho1. injection Ho1 as <-. eauto.
    + rewrite lookup_insert_ne by congruence. eauto.
  - split; [done|]. exists []. by rewrite app_nil_r.
Qed.

Lemma quiet_new_observer_slot st o :
  quiet st (set_observers (<[st_next_observer st := o]> (st_observers st)) (S (st_next_observer st)) st).
Proof.
  split; [done|]. split; [done|]. split; [simpl; lia|]. split.
  - intros oid o1 Hlt Ho1. simpl. rewrite lookup_insert_ne by lia. eauto.
  - split; [done|]. exists []. by rewrite app_nil_r.
Qed.

Lemma hyphenateM_spec name st h st' :
  hyphenateM name st = ROk h st' ->
  quiet st st' /\ st_bindings st' = st_bindings st /\ st_elements st' = st_elements st /\
  st_observers st' = st_observers st /\ (cache_ok st -> h = hyphenate_uncached name).
Proof.
  unfold hyphenateM, hyphenate. intros H.
  destruct (st_hyphenateCache st !! name) as [h0|] eqn:Hc; injection H as <- <-.
  - split; [by apply quiet_same|]. repeat split; auto; intros Hok; exact (Hok _ _ Hc).
  - split.
    + split; [done|]. split; [done|]. split; [simpl; lia|]. split; [intros oid o _ Ho; eauto|].
      split; [|exists []; by rewrite app_nil_r].
      intros Hok n h' Hn. simpl in Hn. destruct (decide (n = name)) as [->|Hne].
      * rewrite lookup_insert_eq in Hn. by injection Hn as <-.
      * rewrite lookup_insert_ne in Hn by congruence. exact (Hok _ _ Hn).
    + repeat split; auto.
Qed.

Lemma pres_quiet_hyphenateM name : preserves quiet (hyphenateM name).
Proof. intros st a st' H. exact (proj1 (hyphenateM_spec _ _ _ _ H)). Qed.

Lemma pres_quiet_styleObserversLookup e : preserves quiet (styleObserversLookup e).
Proof.
  intros st a st' H. unfold styleObserversLookup in H. run_inv.
  - reflexivity.
  - eapply quiet_set_element_same_style; eauto.
Qed.

Lemma pres_quiet_register_observer e key oid : preserves quiet (register_observer e key oid).
Proof.
  intros st a st' H. unfold register_observer in H. run_inv.
  eapply quiet_set_element_same_style; eauto.
Qed.

Lemma pres_quiet_new_observer e r : preserves quiet (new_observer e r).
Proof.
  intros st a st' H. unfold new_observer in H.
  apply bindM_ok in H as (h & st1 & H1 & H). pose proof (pres_quiet_hyphenateM _ _ _ _ H1).
  run_inv. etransitivity; [eassumption|]. apply quiet_new_observer_slot.
Qed.

Lemma pres_quiet_set_binding_observer bid so : preserves quiet (set_binding_observer bid so).
Proof.
  intros st a st' H. unfold set_binding_observer in H. run_inv. apply quiet_set_bindings.
Qed.

Lemma subscribe_keeps o c b :
  o_value (subscribe o c b).1 = o_value o /\ o_prevValue (subscribe o c b).1 = o_prevValue o /\
  o_element (subscribe o c b).1 = o_element o /\
  o_hyphenatedCssRule (subscribe o c b).1 = o_hyphenatedCssRule o /\
  Forall (fun e => touches e = false) (subscribe o c b).2.
Proof.
  unfold subscribe, observeMutation, addSubscriber.
  destruct (hasSubscribers o); [|destruct (o_mo o)]; simpl;
    (destruct existsb; simpl; repeat split; auto).
Qed.

Lemma unsubscribe_keeps o c b :
  o_value (unsubscribe o c b).1 = o_value o /\ o_prevValue (unsubscribe o c b).1 = o_prevValue o /\
  o_element (unsubscribe o c b).1 = o_element o /\
  o_hyphenatedCssRule (unsubscribe o c b).1 = o_hyphenatedCssRule o /\
  Forall (fun e => touches e = false) (unsubscribe o c b).2.
Proof.
  unfold unsubscribe, removeSubscriber, unobserveMutation.
  destruct (remove_first _ _); simpl; [|repeat split; auto].
  destruct (negb _); simpl; [|repeat split; auto].
  destruct (o_mo o); simpl; repeat split; auto.
Qed.

Lemma pres_quiet_emit_all evs :
  Forall (fun e => touches e = false) evs -> preserves quiet (emit_all evs).
Proof.
  induction 1 as [|e r He Hr IH]; simpl.
  - apply (pres_ret quiet).
  - apply (pres_bind quiet); [|intros _; exact IH].
    apply (pres_modify quiet). intros st. by apply quiet_add_event.
Qed.

Lemma pres_quiet_subscribeM oid c b : preserves quiet (subscribeM oid c b).
Proof.
  intros st a st' H. unfold subscribeM in H.
  apply bindM_ok in H as (o & st1 & H1 & H). apply get_observer_ok in H1 as [-> Ho].
  pose proof (subscribe_keeps o c b) as (V & P & _ & _ & F).
  destruct (subscribe o c b) as [o' evs]. simpl in V, P, F.
  apply bindM_ok in H as ([] & st2 & H2 & H). unfold put_observer, modify in H2.
  injection H2 as <-. etransitivity; [eapply quiet_put_observer_same_values; eauto|].
  eapply pres_quiet_emit_all; eauto.
Qed.

Lemma pres_quiet_unsubscribeM oid c b : preserves quiet (unsubscribeM oid c b).
Proof.
  intros st a st' H. unfold unsubscribeM in H.
  apply bindM_ok in H as (o & st1 & H1 & H). apply get_observer_ok in H1 as [-> Ho].
  pose proof (unsubscribe_keeps o c b) as (V & P & _ & _ & F).
  destruct (unsubscribe o c b) as [o' evs]. simpl in V, P, F.
  apply bindM_ok in H as ([] & st2 & H2 & H). unfold put_observer, modify in H2.
  injection H2 as <-. etransitivity; [eapply quiet_put_observer_same_values; eauto|].
  eapply pres_quiet_emit_all; eauto.
Qed.

Ltac quiet_leaf :=
  first [ intros ?; apply quiet_set_bindings
        | intros ?; apply quiet_add_event; reflexivity ].

Ltac quiet_go :=
  pres_go quiet_leaf
    ltac:(first [ apply pres_quiet_hyphenateM
                | apply pres_quiet_styleObserversLookup
                | apply pres_quiet_register_observer
                | apply pres_quiet_new_observer
                | apply pres_quiet_set_binding_observer
                | apply pres_quiet_subscribeM
                | apply pres_quiet_unsubscribeM ]).

Lemma pres_quiet_unbind bid : preserves quiet (unbind bid).
Proof. unfold unbind. quiet_go. Qed.

Lemma pres_quiet_observe_by_mode bid b oid : preserves quiet (observe_by_mode bid b oid).
Proof. quiet_go. Qed.

Lemma pres_quiet_resolve_observer bid e p lookup key :
  preserves quiet (resolve_observer bid e p lookup key).
Proof. quiet_go. Qed.

Lemma unbind_statics bid st st1 b :
  st_bindings st !! bid = Some b -> unbind bid st = ROk tt st1 ->
  exists b1, st_bindings st1 !! bid = Some b1 /\ binding_statics b1 = binding_statics b.
Proof.
  intros Hb H. unfold unbind in H.
  apply bindM_ok in H as (b' & s & Hg & H). apply get_binding_ok in Hg as [-> Hb'].
  rewrite Hb in Hb'. injection Hb' as <-.
  destruct (negb (b_isBound b)).
  - injection H as <-. eauto.
  - apply bindM_ok in H as ([] & s1 & H1 & H). unfold put_binding, modify in H1. injection H1 as <-.
    apply bindM_ok in H as ([] & s2 & H2 & H).
    assert (E2 : same_bindings (set_bindings (<[bid:=with_bound b false (b_source b)]> (st_bindings st)) st) s2)
      by (eapply (pres_apply same_bindings); [exact H2|pres_go ltac:(intros ?; reflexivity) fail]).
    apply bindM_ok in H as ([] & s3 & H3 & H).
    unfold put_binding, modify, bindM, get_binding in H3. rewrite E2 in H3. simpl in H3.
    rewrite lookup_insert_eq in H3. injection H3 as <-.
    apply bindM_ok in H as (oid & s4 & H4 & H). unfold observer_of in H4.
    destruct (b_styleObserver b); [|discriminate]. injection H4 as <- <-.
    apply bindM_ok in H as ([] & s5 & H5 & H).
    apply (pres_apply same_bindings) in H5; [|apply pres_same_bindings_unsubscribeM].
    apply bindM_ok in H as ([] & s6 & H6 & H). unfold set_binding_observer, put_binding, modify, bindM, get_binding in H6.
    rewrite H5 in H6. simpl in H6. rewrite lookup_insert_eq in H6. injection H6 as <-.
    unfold emit, modify in H. injection H as <-. simpl.
    rewrite H5. simpl. rewrite lookup_insert_eq. eexists. split; [reflexivity|]. reflexivity.
Qed.

Lemma quiet_around st s5 st' e h :
  quiet st s5 -> quiet (set_heap h (add_event e s5)) st' ->
  st_heap st' = h /\ style_view <$> st_elements st' = style_view <$> st_elements st /\
  (forall oid o, oid < st_next_observer st -> st_observers st !! oid = Some o ->
     exists o', st_observers st' !! oid = Some o' /\ o_value o' = o_value o /\
                o_prevValue o' = o_prevValue o) /\
  exists d, st_trace st' = (st_trace st ++ d)%list /\ List.filter touches d = List.filter touches [e].
Proof.
  intros (A1 & B1 & C1 & D1 & E1 & d1 & F1 & G1) (A2 & B2 & C2 & D2 & E2 & d2 & F2 & G2).
  simpl in *. split; [done|]. split; [congruence|]. split.
  - intros oid o Hlt Ho. destruct (D1 _ _ Hlt Ho) as (o5 & Ho5 & V1 & P1).
    destruct (D2 oid o5 ltac:(lia) Ho5) as (o' & Ho' & V2 & P2).
    exists o'. split; [done|]. split; congruence.
  - exists (d1 ++ [e] ++ d2)%list. split.
    + rewrite F2, F1. by rewrite <- !app_assoc.
    + rewrite !List.filter_app, G1, G2. simpl. destruct (touches e); reflexivity.
Qed.

Lemma observers_fresh_lt st oid o :
  observers_fresh st -> st_observers st !! oid = Some o -> oid < st_next_observer st.
Proof.
  intros Hf Ho. destruct (Nat.lt_ge_cases oid (st_next_observer st)) as [|Hge]; [done|].
  rewrite (Hf _ Hge) in Ho. discriminate.
Qed.

Lemma resolve_observer_spec bid e p lookup key st oid st' b :
  st_bindings st !! bid = Some b ->
  resolve_observer bid e p lookup key st = ROk oid st' ->
  match lookup !! key with
  | Some oid0 =>
      oid = oid0 /\ st' = set_bindings (<[bid := with_styleObserver b (Some oid)]> (st_bindings st)) st
  | None =>
      oid = st_next_observer st /\
      exists c h el,
        (cache_ok st -> h = hyphenate_uncached p) /\ (cache_ok st -> cache_ok (set_cache c st)) /\
        st_elements st !! e = Some el /\
        st' = set_bindings (<[bid := with_styleObserver b (Some oid)]> (st_bindings st))
                (set_elements
                   (<[e := mkElement (el_hasStyleAttr el) (el_style el)
                            (Some (<[key := oid]> (match el_styleObservers el with
                                                   | Some m => m | None => ∅ end)))]>
                      (st_elements st))
                   (set_observers (<[oid := mkObserver e p h VUndef VUndef None []]> (st_observers st))
                      (S oid) (set_cache c st)))
  end.
Proof.
  intros Hb H. unfold resolve_observer in H.
  destruct (lookup !! key) as [oid0|].
  - unfold set_binding_observer, put_binding, modify in H. run_inv.
    split; [reflexivity|]. do 4 f_equal. congruence.
  - apply bindM_ok in H as (oid1 & s1 & H1 & H). unfold new_observer in H1.
    apply bindM_ok in H1 as (h & s0 & H0 & H1).
    destruct (hyphenateM_spec _ _ _ _ H0) as (Q & Eb & Ee & Eo & Hh).
    assert (Hs0 : s0 = set_cache (st_hyphenateCache s0) st).
    { unfold hyphenateM in H0. destruct (hyphenate _ _) as [h' c]. injection H0 as _ <-. reflexivity. }
    destruct Q as (_ & _ & _ & _ & Qc & _).
    unfold register_observer, set_binding_observer, put_element, put_binding in H.
    run_inv.
    match goal with
    | Hx : st_bindings _ !! bid = Some ?x, Hy : st_elements _ !! e = Some ?y |- _ =>
        assert (x = b) as -> by congruence;
        assert (Hey : st_elements st !! e = Some y) by (rewrite <- Ee; exact Hy)
    end.
    match type of Hs0 with
    | ?s = _ => remember (st_hyphenateCache s) as c eqn:Hc; rewrite Hs0 in Qc |- *
    end.
    cbn [st_next_observer st_elements st_observers st_bindings set_cache].
    split; [reflexivity|]. eexists c, h, _. repeat split; eauto.
Qed.

Lemma styleObserversLookup_spec e el st lookup st' :
  st_elements st !! e = Some el -> styleObserversLookup e st = ROk lookup st' ->
  lookup = match el_styleObservers el with Some m => m | None => ∅ end /\
  st_bindings st' = st_bindings st.
Proof.
  intros He H. unfold styleObserversLookup, put_element, modify in H. run_inv.
  all: rewrite He in *; match goal with H : Some _ = Some _ |- _ => injection H as <- end.
  all: match goal with H : el_styleObservers _ = _ |- _ => rewrite H end; auto.
Qed.

Lemma filter_writes_touches d :
  List.filter writes_style d = List.filter writes_style (List.filter touches d).
Proof. induction d as [|e r IH]; [reflexivity|]. destruct e; simpl; congruence. Qed.

Lemma setValue_same_undefined callf oid o st :
  st_observers st !! oid = Some o -> o_value o = VUndef -> setValue callf oid VUndef st = ROk tt st.
Proof.
  intros Ho Hv. unfold setValue. rewrite (bind_get_observer _ _ _ _ Ho), Hv. reflexivity.
Qed.

(** ** Idempotence of bind *)

(** Claim C7: once [bind(x)] has succeeded, a second [bind(x)] with the
    same source returns at once with the state left exactly as it is: no
    subscription, no observer, no expression bind/evaluate/assign and no
    other effect. *)
Theorem bind_twice_same_source_is_noop f g bid src st st1 :
  bind f bid src st = ROk tt st1 -> bind g bid src st1 = ROk tt st1.
Proof.
  intros H. apply bound_to_bind_noop. unfold bind in H. decomp.
  apply get_binding_ok in H as [-> Hb].
  destruct (b_isBound x && _)%bool eqn:E.
  - injection H0 as <-. apply andb_true_iff in E as [Hbd Hs].
    destruct (b_source x) as [s|] eqn:Hsrc; [|discriminate].
    apply Nat.eqb_eq in Hs. subst s. exists x. auto.
  - decomp. eapply bind_body_bound_to. eassumption.
Qed.

(** ** The initial read of a from-view binding *)

(** Claim C3 (amended): for a from-view binding that is not already bound
    to [src], a successful [bind(src)] (with a consistent [hyphenate] memo
    table and unused observer ids past [st_next_observer]) assigns to the
    source exactly once, the value [findRuleValue] reads for the hyphenated
    rule, when the element has a [style] attribute and the rule is among
    its declarations; otherwise the heap is untouched.  It never evaluates
    the source expression, never writes an inline style and leaves the
    values of the existing observers as they were. *)
Theorem from_view_bind_initial_read f bid src st st' b el :
  st_bindings st !! bid = Some b -> b_mode b = FromView -> ~ bound_to bid src st ->
  cache_ok st -> observers_fresh st -> st_elements st !! b_target b = Some el ->
  bind f bid src st = ROk tt st' ->
  (exists d, st_trace st' = (st_trace st ++ d)%list /\
     match (if el_hasStyleAttr el
            then findRuleValue (el_style el) (hyphenate_uncached (b_targetProperty b)) else None) with
     | Some v => st_heap st' = ex_assign (b_sourceExpression b) src (VStr v) (st_heap st) /\
                 List.filter touches d = [EAssign bid src (VStr v)]
     | None => st_heap st' = st_heap st /\ List.filter touches d = []
     end) /\
  style_view <$> st_elements st' = style_view <$> st_elements st /\
  (forall oid o, st_observers st !! oid = Some o ->
     exists o', st_observers st' !! oid = Some o' /\ o_value o' = o_value o /\
                o_prevValue o' = o_prevValue o).
Proof.
  intros Hb Hm Hnb Hc Hf He H.
  unfold bind in H. apply bindM_ok in H as (b' & s & Hg & H). apply get_binding_ok in Hg as [-> Hb'].
  rewrite Hb in Hb'. injection Hb' as <-.
  destruct (b_isBound b && _)%bool eqn:Ec.
  { exfalso. apply Hnb. apply andb_true_iff in Ec as [Hbd Hs].
    destruct (b_source b) as [s|] eqn:Hsrc; [|discriminate]. apply Nat.eqb_eq in Hs. subst s.
    exists b. auto. }
  apply bindM_ok in H as ([] & s0 & H0 & H).
  assert (Q0 : quiet st s0 /\ exists b0, st_bindings s0 !! bid = Some b0 /\
                                         binding_statics b0 = binding_statics b).
  { destruct (b_isBound b).
    - split; [eapply (pres_apply quiet); [exact H0|apply pres_quiet_unbind]|].
      eapply unbind_statics; eassumption.
    - injection H0 as <-. split; [reflexivity|]. eauto. }
  destruct Q0 as (Q0 & b0 & Hb0 & Sb0).
  unfold bind_body in H.
  apply bindM_ok in H as (b1 & s0' & Hg & H). apply get_binding_ok in Hg as [-> Hb1].
  rewrite Hb0 in Hb1. injection Hb1 as <-.
  apply bindM_ok in H as ([] & s1 & H1 & H). unfold put_binding, modify in H1. injection H1 as <-.
  apply bindM_ok in H as ([] & s2 & H2 & H).
  apply bindM_ok in H as (lookup & s3 & H3 & H).
  apply bindM_ok in H as (key & s4 & H4 & H).
  apply bindM_ok in H as (oid & s5 & H5 & H).
  apply bindM_ok in H as ([] & s6 & H6 & H7).
  unfold binding_statics in Sb0. injection Sb0 as Et Ep Em Ee.
  assert (Q2 : quiet (set_bindings (<[bid:=with_bound b0 true (Some src)]> (st_bindings s0)) s0) s2)
    by (eapply (pres_apply quiet); [exact H2|quiet_go]).
  assert (Q3 : quiet s2 s3)
    by (eapply (pres_apply quiet); [exact H3|apply pres_quiet_styleObserversLookup]).
  destruct (hyphenateM_spec _ _ _ _ H4) as (Q4 & _ & _ & _ & Hkey).
  assert (Q5 : quiet s4 s5)
    by (eapply (pres_apply quiet); [exact H5|apply pres_quiet_resolve_observer]).
  assert (Q7 : quiet s6 st')
    by (eapply (pres_apply quiet); [exact H7|apply pres_quiet_observe_by_mode]).
  assert (Q03 : quiet st s3).
  { etransitivity; [exact Q0|]. etransitivity; [apply quiet_set_bindings|].
    etransitivity; [exact Q2|exact Q3]. }
  assert (Q05 : quiet st s5) by (etransitivity; [exact Q03|etransitivity; [exact Q4|exact Q5]]).
  assert (Hk : key = hyphenate_uncached (b_targetProperty b)).
  { rewrite <- Ep. apply Hkey. exact (proj1 (proj2 (proj2 (proj2 (proj2 Q03)))) Hc). }
  assert (F : flags_kept (set_bindings (<[bid:=with_bound b0 true (Some src)]> (st_bindings s0)) s0) s5).
  { etransitivity; [eapply (pres_apply flags_kept); [exact H2|]|].
    { pres_go flags_leaf fail. }
    etransitivity; [eapply (pres_apply flags_kept); [exact H3|]|].
    { pres_go flags_leaf fail. }
    etransitivity; [eapply (pres_apply flags_kept); [exact H4|apply pres_flags_hyphenateM]|].
    eapply (pres_apply flags_kept); [exact H5|].
    pres_go flags_leaf ltac:(first [ apply pres_flags_set_binding_observer
                                   | apply pres_flags_hyphenateM ]). }
  destruct (F bid (with_bound b0 true (Some src))) as (b5 & Hb5 & Bd5 & Src5 & St5).
  { simpl. apply lookup_insert_eq. }
  simpl in Bd5, Src5, St5. unfold binding_statics in St5. injection St5 as _ _ _ Ee5.
  destruct Q05 as (Hh5 & SV5 & _).
  destruct (fmap_lookup_fwd _ _ _ _ _ SV5 He) as (el5 & Hel5 & Eel).
  unfold style_view in Eel. injection Eel as Ehas Estyle.
  unfold initial_sync in H6. rewrite Em, Hm in H6. cbn [mode_eqb] in H6.
  rewrite Et in H6. rewrite (bind_get_element _ _ _ _ Hel5) in H6. rewrite Ehas, Estyle, Hk in H6.
  assert (Hobs : forall st'', quiet st st'' -> forall oid o, st_observers st !! oid = Some o ->
     exists o', st_observers st'' !! oid = Some o' /\ o_value o' = o_value o /\
                o_prevValue o' = o_prevValue o).
  { intros st'' Q oid0 o Ho. apply (proj1 (proj2 (proj2 (proj2 Q)))); [|exact Ho].
    eapply observers_fresh_lt; eassumption. }
  assert (Q05' : quiet st s5) by (etransitivity; [exact Q03|etransitivity; [exact Q4|exact Q5]]).
  destruct (el_hasStyleAttr el);
    [destruct (findRuleValue (el_style el) (hyphenate_uncached (b_targetProperty b))) as [v|]|].
  - unfold updateSource in H6. rewrite (bind_get_binding _ _ _ _ Hb5) in H6.
    unfold source_of in H6. rewrite Src5, bind_ret, bind_emit in H6.
    unfold modify in H6. injection H6 as <-.
    destruct (quiet_around _ _ _ _ _ Q05' Q7) as (Hh & Hsv & Hov & d & Hd & Hfd).
    split; [|split; [exact Hsv|]].
    + exists d. split; [exact Hd|]. split; [|exact Hfd].
      rewrite Hh. simpl. rewrite Hh5, Ee5, Ee. reflexivity.
    + intros oid0 o Ho. apply Hov; [eapply observers_fresh_lt; eassumption|exact Ho].
  - injection H6 as <-.
    assert (Q : quiet st st') by (etransitivity; [exact Q05'|exact Q7]).
    destruct Q as (Hh & Hsv & _ & _ & _ & d & Hd & Hfd).
    split; [exists d; auto|]. split; [exact Hsv|]. apply Hobs.
    etransitivity; [exact Q05'|exact Q7].
  - injection H6 as <-.
    assert (Q : quiet st st') by (etransitivity; [exact Q05'|exact Q7]).
    destruct Q as (Hh & Hsv & _ & _ & _ & d & Hd & Hfd).
    split; [exists d; auto|]. split; [exact Hsv|]. apply Hobs.
    etransitivity; [exact Q05'|exact Q7].
Qed.

(** ** Binding to an undefined value *)

Lemma bind_undefined_no_write f bid src st st' b el :
  st_bindings st !! bid = Some b -> b_mode b <> FromView -> ~ bound_to bid src st ->
  cache_ok st -> st_elements st !! b_target b = Some el ->
  (forall m, el_styleObservers el = Some m -> m !! hyphenate_uncached (b_targetProperty b) = None) ->
  ex_evaluate (b_sourceExpression b) src (st_heap st) = VUndef ->
  bind f bid src st = ROk tt st' ->
  style_view <$> st_elements st' = style_view <$> st_elements st /\
  exists d, st_trace st' = (st_trace st ++ d)%list /\ List.filter writes_style d = [].
Proof.
  intros Hb Hm Hnb Hc He Hnone Hev H.
  unfold bind in H. apply bindM_ok in H as (b' & s & Hg & H). apply get_binding_ok in Hg as [-> Hb'].
  rewrite Hb in Hb'. injection Hb' as <-.
  destruct (b_isBound b && _)%bool eqn:Ec.
  { exfalso. apply Hnb. apply andb_true_iff in Ec as [Hbd Hs].
    destruct (b_source b) as [s|] eqn:Hsrc; [|discriminate]. apply Nat.eqb_eq in Hs. subst s.
    exists b. auto. }
  apply bindM_ok in H as ([] & s0 & H0 & H).
  assert (Q0 : quiet st s0 /\ same_elements st s0 /\
               exists b0, st_bindings s0 !! bid = Some b0 /\ binding_statics b0 = binding_statics b).
  { destruct (b_isBound b).
    - split; [eapply (pres_apply quiet); [exact H0|apply pres_quiet_unbind]|].
      split; [eapply (pres_apply same_elements); [exact H0|apply pres_same_elements_unbind]|].
      eapply unbind_statics; eassumption.
    - injection H0 as <-. split; [reflexivity|]. split; [reflexivity|]. eauto. }
  destruct Q0 as (Q0 & E0 & b0 & Hb0 & Sb0).
  unfold binding_statics in Sb0. injection Sb0 as Et Ep Em Ee.
  unfold bind_body in H.
  apply bindM_ok in H as (b1 & s0' & Hg & H). apply get_binding_ok in Hg as [-> Hb1].
  rewrite Hb0 in Hb1. injection Hb1 as <-.
  apply bindM_ok in H as ([] & s1 & H1 & H). unfold put_binding, modify in H1. injection H1 as <-.
  apply bindM_ok in H as ([] & s2 & H2 & H).
  apply bindM_ok in H as (lookup & s3 & H3 & H).
  apply bindM_ok in H as (key & s4 & H4 & H).
  apply bindM_ok in H as (oid & s5 & H5 & H).
  apply bindM_ok in H as ([] & s6 & H6 & H7).
  set (s1 := set_bindings (<[bid:=with_bound b0 true (Some src)]> (st_bindings s0)) s0) in *.
  assert (Q2 : quiet s1 s2) by (eapply (pres_apply quiet); [exact H2|quiet_go]).
  assert (E2 : same_elements s1 s2 /\ same_bindings s1 s2).
  { split; eapply pres_apply; try exact H2; pres_go ltac:(intros ?; reflexivity) fail. }
  destruct E2 as [E2 B2].
  assert (Q3 : quiet s2 s3)
    by (eapply (pres_apply quiet); [exact H3|apply pres_quiet_styleObserversLookup]).
  assert (He2 : st_elements s2 !! b_target b0 = Some el).
  { unfold same_elements in E2, E0. rewrite E2. simpl. rewrite E0, Et. exact He. }
  destruct (styleObserversLookup_spec _ _ _ _ _ He2 H3) as [Hlk B3].
  destruct (hyphenateM_spec _ _ _ _ H4) as (Q4 & B4 & _ & _ & Hkey).
  assert (Q03 : quiet st s3).
  { etransitivity; [exact Q0|]. etransitivity; [apply quiet_set_bindings|].
    etransitivity; [exact Q2|exact Q3]. }
  assert (Hk : key = hyphenate_uncached (b_targetProperty b)).
  { rewrite <- Ep. apply Hkey. exact (proj1 (proj2 (proj2 (proj2 (proj2 Q03)))) Hc). }
  assert (Hnone' : lookup !! key = None).
  { rewrite Hlk, Hk. destruct (el_styleObservers el) as [m|]; [by apply Hnone|apply lookup_empty]. }
  assert (Hb4 : st_bindings s4 !! bid = Some (with_bound b0 true (Some src))).
  { rewrite B4, B3. unfold same_bindings in B2. rewrite B2. simpl. apply lookup_insert_eq. }
  assert (Q5 : quiet s4 s5)
    by (eapply (pres_apply quiet); [exact H5|apply pres_quiet_resolve_observer]).
  assert (Q7 : quiet s6 st')
    by (eapply (pres_apply quiet); [exact H7|apply pres_quiet_observe_by_mode]).
  assert (Q05 : quiet st s5) by (etransitivity; [exact Q03|etransitivity; [exact Q4|exact Q5]]).
  pose proof (resolve_observer_spec _ _ _ _ _ _ _ _ _ Hb4 H5) as R5. rewrite Hnone' in R5.
  destruct R5 as (-> & c & h & el4 & _ & _ & Hel4 & Hs5).
  assert (Hb5 : st_bindings s5 !! bid =
                Some (with_styleObserver (with_bound b0 true (Some src)) (Some (st_next_observer s4)))).
  { rewrite Hs5. simpl. apply lookup_insert_eq. }
  assert (Ho5 : st_observers s5 !! st_next_observer s4 =
                Some (mkObserver (b_target b0) (b_targetProperty b0) h VUndef VUndef None [])).
  { rewrite Hs5. simpl. apply lookup_insert_eq. }
  assert (Hmf : mode_eqb (b_mode b0) FromView = false)
    by (rewrite Em; destruct (b_mode b); simpl; congruence).
  unfold initial_sync in H6. rewrite Hmf in H6.
  unfold evaluate, updateTarget in H6.
  rewrite bind_assoc, (bind_get_binding _ _ _ _ Hb5) in H6. cbv beta in H6.
  rewrite bind_assoc, bind_emit, bind_gets in H6.
  erewrite bind_get_binding in H6 by exact Hb5. unfold observer_of in H6.
  cbn [b_styleObserver b_sourceExpression with_styleObserver with_bound st_heap add_event] in H6.
  rewrite bind_ret in H6.
  rewrite Ee, (proj1 Q05), Hev in H6.
  rewrite (setValue_same_undefined (call f) _ _ (add_event (EEvaluate bid src) s5) Ho5 eq_refl) in H6.
  injection H6 as <-.
  destruct (quiet_around st s5 st' (EEvaluate bid src) (st_heap s5) Q05 Q7)
    as (_ & Hsv & _ & [d [Hd Hfd]]).
  split; [exact Hsv|]. exists d. split; [exact Hd|].
  rewrite filter_writes_touches, Hfd. reflexivity.
Qed.

(** Claim C10: a freshly constructed observer caches [undefined] as value
    and previous value and has no subscriber, so [setValue(undefined)] on it
    leaves the state exactly as it is (nothing written, nobody notified);
    while the cached value is still [undefined], a [setValue(v)] with
    [v !== undefined] writes [v] and calls every subscriber with
    [(v, undefined)]; and a to-view, two-way or one-time [bind] that creates
    the observer of its property and whose source expression evaluates to
    [undefined] leaves every inline style as it was and records no
    [setProperty] call. *)
Theorem fresh_observer_undefined_is_noop :
  (forall e rule st oid st1,
     new_observer e rule st = ROk oid st1 ->
     exists o, st_observers st1 !! oid = Some o /\ o_value o = VUndef /\
               o_prevValue o = VUndef /\ o_subs o = [] /\
               forall callf, setValue callf oid VUndef st1 = ROk tt st1) /\
  (forall callf oid o el v st,
     st_observers st !! oid = Some o -> o_value o = VUndef ->
     st_elements st !! o_element o = Some el -> strict_eqb v VUndef = false ->
     setValue callf oid v st =
     callSubscribers callf (o_subs o) v VUndef (written_state oid o el v st)) /\
  (forall f bid src st st' b el,
     st_bindings st !! bid = Some b -> b_mode b <> FromView -> ~ bound_to bid src st ->
     cache_ok st -> st_elements st !! b_target b = Some el ->
     (forall m, el_styleObservers el = Some m -> m !! hyphenate_uncached (b_targetProperty b) = None) ->
     ex_evaluate (b_sourceExpression b) src (st_heap st) = VUndef ->
     bind f bid src st = ROk tt st' ->
     style_view <$> st_elements st' = style_view <$> st_elements st /\
     exists d, st_trace st' = (st_trace st ++ d)%list /\ List.filter writes_style d = []).
Proof.
  split; [|split].
  - intros e rule st oid st1 H. unfold new_observer in H.
    apply bindM_ok in H as (h & s1 & _ & H).
    unfold gets, modify, bindM, ret in H. injection H as <- <-.
    eexists. split; [simpl; apply lookup_insert_eq|].
    do 3 (split; [reflexivity|]).
    intros callf. apply setValue_same_undefined with (o := mkObserver e rule h VUndef VUndef None []);
      [simpl; apply lookup_insert_eq|reflexivity].
  - intros callf oid o el v st Ho Hv He Hne.
    rewrite <- Hv. apply (proj2 (setValue_eqn callf oid o el v st Ho He)).
    rewrite Hv. exact Hne.
  - exact bind_undefined_no_write.
Qed.

(** ** The registry of shared observers *)

#[global] Instance registry_kept_preorder keep : PreOrder (registry_kept keep).
Proof.
  split.
  - intros st. split; [eauto 10|]. split; [eauto|]. split; auto.
  - intros s1 s2 s3 (A1 & B1 & C1 & D1) (A2 & B2 & C2 & D2). split; [|split; [|split]].
    + intros e el m k oid He Hm Hk. destruct (A1 _ _ _ _ _ He Hm Hk) as (el2 & m2 & He2 & Hm2 & Hk2).
      eauto.
    + intros x b Hx Hb. destruct (B1 _ _ Hx Hb) as (b2 & Hb2 & S2 & T2).
      destruct (B2 _ _ Hx Hb2) as (b3 & Hb3 & S3 & T3). exists b3. split; [done|]. split; congruence.
    + auto.
    + auto.
Qed.

Lemma registry_kept_weaken (keep keep' : nat -> Prop) st st' :
  (forall x, keep' x -> keep x) -> registry_kept keep st st' -> registry_kept keep' st st'.
Proof. intros Hk (A & B & C & D). split; [done|]. split; [|done]. eauto. Qed.

Lemma registry_kept_of keep st st' :
  strip_element <$> st_elements st' = strip_element <$> st_elements st ->
  (forall x, keep x -> (fun b => (b_styleObserver b, binding_statics b)) <$> (st_bindings st' !! x) =
                      (fun b => (b_styleObserver b, binding_statics b)) <$> (st_bindings st !! x)) ->
  (forall oid, is_Some (st_observers st !! oid) -> is_Some (st_observers st' !! oid)) ->
  st_hyphenateCache st' = st_hyphenateCache st ->
  registry_kept keep st st'.
Proof.
  intros FE FB FO FC. split; [|split; [|split]].
  - intros e el m k oid He Hm Hk. destruct (fmap_lookup_fwd _ _ _ _ _ FE He) as (el' & He' & E).
    exists el', m. unfold strip_element in E. rewrite E. auto.
  - intros x b Hx Hb. specialize (FB x Hx). rewrite Hb in FB.
    destruct (st_bindings st' !! x) as [b'|]; simpl in FB; [|discriminate].
    injection FB as E1 E2 E3 E4 E5. exists b'. unfold binding_statics.
    rewrite E2, E3, E4, E5. auto.
  - exact FO.
  - unfold cache_ok. rewrite FC. auto.
Qed.

Lemma frame_registry_kept keep st st' : frame st st' -> registry_kept keep st st'.
Proof.
  intros (FE & FO & _ & FB & FC & _). apply registry_kept_of; [exact FE| | |done].
  - intros x _. apply (f_equal (lookup x)) in FB. rewrite !lookup_fmap in FB.
    destruct (st_bindings st' !! x) as [b1|], (st_bindings st !! x) as [b0|];
      simpl in FB |- *; try discriminate; [|reflexivity].
    apply (f_equal (fun ob => match ob with
                              | Some b => Some (b_styleObserver b, binding_statics b)
                              | None => None end)) in FB.
    exact FB.
  - intros oid [o Ho]. destruct (fmap_lookup_fwd _ _ _ _ _ FO Ho) as (o' & Ho' & _). eauto.
Qed.

Lemma pres_registry_setValue keep f oid v : preserves (registry_kept keep) (setValue (call f) oid v).
Proof.
  intros st [] st' H. apply frame_registry_kept.
  eapply (setValue_frame (call f) (call_frame f)). exact H.
Qed.

Lemma pres_registry_hyphenateM keep name : preserves (registry_kept keep) (hyphenateM name).
Proof.
  intros st h st' H. destruct (hyphenateM_spec _ _ _ _ H) as ((_ & _ & _ & _ & Qc & _) & Eb & Ee & Eo & _).
  split; [|split; [|split]].
  - intros e el m k oid He. rewrite Ee. eauto.
  - intros x b _ Hb. rewrite Eb. eauto.
  - rewrite Eo. auto.
  - exact Qc.
Qed.

Lemma pres_registry_styleObserversLookup keep e : preserves (registry_kept keep) (styleObserversLookup e).
Proof.
  intros st lookup st' H. unfold styleObserversLookup, put_element, modify in H. run_inv.
  - reflexivity.
  - split; [|split; [|split]]; [|simpl; eauto|simpl; auto|simpl; auto].
    intros e' el m k oid He' Hm Hk. simpl. destruct (decide (e' = e)) as [->|Hne].
    + congruence.
    + rewrite lookup_insert_ne by congruence. eauto.
Qed.

Ltac registry_leaf :=
  intros ?; try intros ?; apply registry_kept_of; simpl;
  [ reflexivity
  | intros ? ?; first [ reflexivity | rewrite lookup_insert_ne by congruence; reflexivity ]
  | intros ? ?; first [ assumption | apply lookup_insert_is_Some'; right; assumption ]
  | reflexivity ].

Ltac registry_go :=
  pres_go registry_leaf
    ltac:(first [ apply pres_registry_setValue
                | apply pres_registry_hyphenateM
                | apply pres_registry_styleObserversLookup
                | progress unfold set_binding_observer ]).

Lemma pres_registry_unbind bid : preserves (registry_kept (fun x => x <> bid)) (unbind bid).
Proof. unfold unbind. registry_go. Qed.

Lemma pres_registry_initial_sync keep f bid src b key :
  preserves (registry_kept keep) (initial_sync f bid src b key).
Proof. registry_go. Qed.

Lemma pres_registry_observe_by_mode keep bid b oid :
  preserves (registry_kept keep) (observe_by_mode bid b oid).
Proof. registry_go. Qed.

Lemma styleObserversLookup_after e st lookup st' :
  styleObserversLookup e st = ROk lookup st' ->
  (exists el', st_elements st' !! e = Some el' /\ el_styleObservers el' = Some lookup) /\
  (forall el m, st_elements st !! e = Some el -> el_styleObservers el = Some m -> lookup = m).
Proof.
  intros H. unfold styleObserversLookup, put_element, modify in H. run_inv.
  - split; [eauto|]. intros el m He Hm. congruence.
  - split.
    + eexists. split; [simpl; apply lookup_insert_eq|reflexivity].
    + intros el m He Hm. congruence.
Qed.

Lemma resolve_observer_registers bid e p lookup key st oid st' b el :
  st_bindings st !! bid = Some b -> st_elements st !! e = Some el ->
  el_styleObservers el = Some lookup ->
  resolve_observer bid e p lookup key st = ROk oid st' ->
  registry_kept (fun x => x <> bid) st st' /\
  (forall oid0, lookup !! key = Some oid0 -> oid = oid0) /\
  st_bindings st' !! bid = Some (with_styleObserver b (Some oid)) /\
  exists el' m', st_elements st' !! e = Some el' /\ el_styleObservers el' = Some m' /\
                 m' !! key = Some oid.
Proof.
  intros Hb He Hl H. pose proof (resolve_observer_spec _ _ _ _ _ _ _ _ _ Hb H) as R.
  destruct (lookup !! key) as [oid0|] eqn:Hk.
  - destruct R as [-> ->]. split; [|split; [|split]].
    + apply registry_kept_of; simpl; [reflexivity| |auto|reflexivity].
      intros x Hx. rewrite lookup_insert_ne by congruence. reflexivity.
    + intros oid1 E. congruence.
    + simpl. apply lookup_insert_eq.
    + exists el, lookup. simpl. auto.
  - destruct R as (-> & c & h & el0 & _ & Hc & Hel0 & ->).
    rewrite He in Hel0. injection Hel0 as <-. rewrite Hl. split; [|split; [|split]].
    + split; [|split; [|split]].
      * intros e' el' m k oid He' Hm Hk'. simpl. destruct (decide (e' = e)) as [->|Hne].
        -- rewrite lookup_insert_eq. do 2 eexists. split; [reflexivity|]. split; [reflexivity|].
           rewrite He in He'. injection He' as <-. rewrite Hl in Hm. injection Hm as <-.
           rewrite lookup_insert_ne by congruence. exact Hk'.
        -- rewrite lookup_insert_ne by congruence. eauto.
      * intros x b' Hx Hb'. simpl. rewrite lookup_insert_ne by congruence. eauto.
      * intros oid' Ho. simpl. apply lookup_insert_is_Some'. right. exact Ho.
      * exact Hc.
    + intros oid1 E. discriminate.
    + simpl. apply lookup_insert_eq.
    + do 2 eexists. simpl. rewrite lookup_insert_eq. split; [reflexivity|].
      split; [reflexivity|]. apply lookup_insert_eq.
Qed.

Lemma tail_fetches_observer f bid src b key oid s5 s6 st' b5 :
  st_bindings s5 !! bid = Some b5 -> b_styleObserver b5 = Some oid ->
  initial_sync f bid src b key s5 = ROk tt s6 -> observe_by_mode bid b oid s6 = ROk tt st' ->
  is_Some (st_observers st' !! oid).
Proof.
  intros Hb5 Ho H6 H7.
  pose proof (pres_apply (registry_kept (fun _ => True)) _ _ _ _ H7
                (pres_registry_observe_by_mode _ _ _ _)) as (_ & _ & R7 & _).
  unfold initial_sync in H6. destruct (mode_eqb (b_mode b) FromView) eqn:Hm.
  - destruct (b_mode b) eqn:E; try discriminate Hm.
    unfold observe_by_mode in H7. rewrite E in H7. unfold subscribeM in H7.
    apply bindM_ok in H7 as (o & s7 & H8 & _). apply get_observer_ok in H8 as [-> Ho7].
    apply R7. eauto.
  - unfold evaluate, updateTarget in H6.
    rewrite bind_assoc, (bind_get_binding _ _ _ _ Hb5) in H6. cbv beta in H6.
    rewrite bind_assoc, bind_emit, bind_gets in H6.
    erewrite bind_get_binding in H6 by exact Hb5. unfold observer_of in H6. rewrite Ho in H6.
    rewrite bind_ret in H6.
    pose proof (pres_apply (registry_kept (fun _ => True)) _ _ _ _ H6
                  (pres_registry_setValue _ _ _ _)) as (_ & _ & R6 & _).
    unfold setValue in H6. apply bindM_ok in H6 as (o & s7 & H8 & _).
    apply get_observer_ok in H8 as [-> Ho7]. apply R7, R6. eauto.
Qed.

Lemma bind_registers f bid src st st' b :
  st_bindings st !! bid = Some b -> ~ bound_to bid src st -> cache_ok st ->
  bind f bid src st = ROk tt st' ->
  registry_kept (fun x => x <> bid) st st' /\
  exists oid el m,
    (forall el0 m0 oid0, st_elements st !! b_target b = Some el0 -> el_styleObservers el0 = Some m0 ->
       m0 !! hyphenate_uncached (b_targetProperty b) = Some oid0 -> oid = oid0) /\
    (exists b', st_bindings st' !! bid = Some b' /\ b_styleObserver b' = Some oid) /\
    st_elements st' !! b_target b = Some el /\ el_styleObservers el = Some m /\
    m !! hyphenate_uncached (b_targetProperty b) = Some oid /\
    is_Some (st_observers st' !! oid).
Proof.
  intros Hb Hnb Hc H.
  unfold bind in H. apply bindM_ok in H as (b' & s & Hg & H). apply get_binding_ok in Hg as [-> Hb'].
  rewrite Hb in Hb'. injection Hb' as <-.
  destruct (b_isBound b && _)%bool eqn:Ec.
  { exfalso. apply Hnb. apply andb_true_iff in Ec as [Hbd Hs].
    destruct (b_source b) as [s|] eqn:Hsrc; [|discriminate]. apply Nat.eqb_eq in Hs. subst s.
    exists b. auto. }
  apply bindM_ok in H as ([] & s0 & H0 & H).
  assert (R0 : registry_kept (fun x => x <> bid) st s0 /\
               exists b0, st_bindings s0 !! bid = Some b0 /\ binding_statics b0 = binding_statics b).
  { destruct (b_isBound b).
    - split; [eapply (pres_apply _ _ _ _ _ H0); apply pres_registry_unbind|].
      eapply unbind_statics; eassumption.
    - injection H0 as <-. split; [reflexivity|eauto]. }
  destruct R0 as (R0 & b0 & Hb0 & Sb0).
  unfold binding_statics in Sb0. injection Sb0 as Et Ep Em Ee.
  unfold bind_body in H.
  apply bindM_ok in H as (b1 & s0' & Hg & H). apply get_binding_ok in Hg as [-> Hb1].
  rewrite Hb0 in Hb1. injection Hb1 as <-.
  apply bindM_ok in H as ([] & s1 & H1 & H). unfold put_binding, modify in H1. injection H1 as <-.
  apply bindM_ok in H as ([] & s2 & H2 & H).
  apply bindM_ok in H as (lookup & s3 & H3 & H).
  apply bindM_ok in H as (key & s4 & H4 & H).
  apply bindM_ok in H as (oid & s5 & H5 & H).
  apply bindM_ok in H as ([] & s6 & H6 & H7).
  set (s1 := set_bindings (<[bid:=with_bound b0 true (Some src)]> (st_bindings s0)) s0) in *.
  assert (R1 : registry_kept (fun x => x <> bid) s0 s1).
  { apply registry_kept_of; simpl; [reflexivity| |auto|reflexivity].
    intros x Hx. rewrite lookup_insert_ne by congruence. reflexivity. }
  assert (R2 : registry_kept (fun x => x <> bid) s1 s2)
    by (eapply (pres_apply _ _ _ _ _ H2); registry_go).
  assert (B2 : st_bindings s2 = st_bindings s1)
    by (destruct (ex_has_bind _) in H2; injection H2 as <-; reflexivity).
  assert (R3 : registry_kept (fun x => x <> bid) s2 s3)
    by (eapply (pres_apply _ _ _ _ _ H3); apply pres_registry_styleObserversLookup).
  assert (B3 : st_bindings s3 = st_bindings s2)
    by (eapply (pres_apply same_bindings _ _ _ _ H3); pres_go ltac:(intros ?; reflexivity) fail).
  destruct (styleObserversLookup_after _ _ _ _ H3) as [(el3 & He3 & Hm3) Hlk].
  assert (R4 : registry_kept (fun x => x <> bid) s3 s4)
    by (eapply (pres_apply _ _ _ _ _ H4); apply pres_registry_hyphenateM).
  destruct (hyphenateM_spec _ _ _ _ H4) as (_ & B4 & E4 & _ & Hkey).
  assert (R03 : registry_kept (fun x => x <> bid) st s3)
    by (etransitivity; [exact R0|etransitivity; [exact R1|etransitivity; [exact R2|exact R3]]]).
  assert (Hk : key = hyphenate_uncached (b_targetProperty b))
    by (rewrite <- Ep; apply Hkey; apply (proj2 (proj2 (proj2 R03))); exact Hc).
  assert (Hb4 : st_bindings s4 !! bid = Some (with_bound b0 true (Some src)))
    by (rewrite B4, B3, B2; simpl; apply lookup_insert_eq).
  assert (He4 : st_elements s4 !! b_target b0 = Some el3) by (rewrite E4; exact He3).
  destruct (resolve_observer_registers _ _ _ _ _ _ _ _ _ _ Hb4 He4 Hm3 H5)
    as (R5 & Hshare & Hb5 & el5 & m5 & He5 & Hm5 & Hk5).
  assert (R7 : registry_kept (fun _ => True) s5 st').
  { etransitivity.
    - eapply (pres_apply _ _ _ _ _ H6); apply pres_registry_initial_sync.
    - eapply (pres_apply _ _ _ _ _ H7); apply pres_registry_observe_by_mode. }
  pose proof (tail_fetches_observer _ _ _ _ _ _ _ _ _ _ Hb5 eq_refl H6 H7) as Hobs.
  destruct R7 as (RE7 & RB7 & RO7 & RC7) eqn:ER7.
  split.
  - etransitivity; [exact R03|]. etransitivity; [exact R4|]. etransitivity; [exact R5|].
    eapply registry_kept_weaken; [|exact R7]. intros; exact I.
  - rewrite Et in He5. rewrite Hk in Hk5.
    destruct (RE7 _ _ _ _ _ He5 Hm5 Hk5) as (el' & m' & He' & Hm' & Hk').
    destruct (RB7 _ _ I Hb5) as (b' & Hb' & So' & _).
    exists oid, el', m'. split; [|split; [|split; [|split; [|split]]]]; auto.
    + intros el0 m0 oid0 He0 Hm0 Hk0. rewrite <- Et in He0. rewrite <- Hk in Hk0.
      assert (R02 : registry_kept (fun x => x <> bid) st s2)
        by (etransitivity; [exact R0|etransitivity; [exact R1|exact R2]]).
      destruct (proj1 R02 _ _ _ _ _ He0 Hm0 Hk0) as (el2 & m2 & He2 & Hm2 & Hk2).
      apply Hshare. rewrite (Hlk _ _ He2 Hm2). exact Hk2.
    + exists b'. split; [exact Hb'|]. rewrite So'. reflexivity.
Qed.

Lemma remove_first_keeps p q l r :
  remove_first p l = Some r -> In q l -> q <> p -> In q r.
Proof.
  revert r. induction l as [|x l IH]; simpl; intros r H Hq Hne; [discriminate|].
  destruct (sub_eqb x p) eqn:E.
  - apply sub_eqb_true in E. subst x. injection H as <-. destruct Hq; [congruence|done].
  - destruct (remove_first p l) as [r'|] eqn:E'; [|discriminate]. injection H as <-.
    destruct Hq as [->|Hq]; [left; reflexivity|right; eauto].
Qed.

Lemma unsubscribe_other o c b y :
  In (styleObserverContext, y) (o_subs o) -> y <> b ->
  In (styleObserverContext, y) (o_subs (unsubscribe o c b).1) /\ o_mo (unsubscribe o c b).1 = o_mo o.
Proof.
  intros Hin Hne. unfold unsubscribe, removeSubscriber.
  destruct (remove_first (c, b) (o_subs o)) as [r|] eqn:E; simpl; [|auto].
  assert (Hr : In (styleObserverContext, y) r)
    by (eapply remove_first_keeps; [exact E|exact Hin|congruence]).
  unfold hasSubscribers. simpl. destruct r as [|q r']; [destruct Hr|]. simpl. auto.
Qed.

Lemma emit_all_data evs st u st' :
  emit_all evs st = ROk u st' ->
  st_bindings st' = st_bindings st /\ st_elements st' = st_elements st /\
  st_observers st' = st_observers st.
Proof.
  revert st. induction evs as [|e r IH]; simpl; intros st H.
  - injection H as _ <-. auto.
  - rewrite bind_emit in H. apply IH in H. exact H.
Qed.

Lemma unbind_keeps_other bid st st' x bx oid o :
  unbind bid st = ROk tt st' -> x <> bid ->
  st_bindings st !! x = Some bx -> st_observers st !! oid = Some o ->
  st_bindings st' !! x = Some bx /\ st_elements st' = st_elements st /\
  exists o', st_observers st' !! oid = Some o' /\ o_element o' = o_element o /\
             o_hyphenatedCssRule o' = o_hyphenatedCssRule o /\
             o_value o' = o_value o /\ o_prevValue o' = o_prevValue o /\
             (In (styleObserverContext, x) (o_subs o) ->
                In (styleObserverContext, x) (o_subs o') /\ o_mo o' = o_mo o).
Proof.
  intros H Hx Hbx Ho. unfold unbind, set_binding_observer, unsubscribeM, observer_of in H.
  run_inv.
  { split; [done|]. split; [done|]. exists o. auto 10. }
  all: match goal with
       | H : (let '(_, _) := unsubscribe ?o ?c ?b in _) _ = _ |- _ =>
           pose proof (unsubscribe_keeps o c b) as (K1 & K2 & K3 & K4 & _);
           pose proof (unsubscribe_other o c b) as UO;
           destruct (unsubscribe o c b) as [o' evs]; simpl in K1, K2, K3, K4, UO;
           apply bindM_ok in H as ([] & s9 & Hp & He); unfold put_observer, modify in Hp;
           injection Hp as <-; apply emit_all_data in He as (EB & EE & EO)
       end.
  all: rewrite EB, EE, EO; simpl in *.
  all: split; [rewrite !lookup_insert_ne by congruence; exact Hbx|].
  all: split; [reflexivity|].
  all: destruct (decide (x7 = oid)) as [<-|Hne];
    [ rewrite lookup_insert_eq; rewrite Ho in H4; injection H4 as <-;
      exists o'; split; [reflexivity|]; do 4 (split; [congruence|]);
      intros Hin; apply UO; [exact Hin|exact Hx]
    | rewrite lookup_insert_ne by congruence; exists o; auto 10 ].
Qed.

(** ** Sharing of observers *)

(** Claim C5, as the code behaves: two bindings on the same element whose
    target properties hyphenate to the same key resolve to one observer,
    the one cached under that key on the element; unbinding the first
    leaves the cache entry, the second binding's link to the observer and
    the observer itself (value, and the subscription of the second binding
    with its mutation watch) as they were. *)
Theorem observer_shared_per_hyphenated_key f g bid1 bid2 src1 src2 st st1 st2 st3 b1 b2 :
  bid1 <> bid2 ->
  st_bindings st !! bid1 = Some b1 -> st_bindings st !! bid2 = Some b2 ->
  b_target b1 = b_target b2 ->
  hyphenate_uncached (b_targetProperty b1) = hyphenate_uncached (b_targetProperty b2) ->
  cache_ok st -> ~ bound_to bid1 src1 st -> ~ bound_to bid2 src2 st1 ->
  bind f bid1 src1 st = ROk tt st1 -> bind g bid2 src2 st1 = ROk tt st2 ->
  unbind bid1 st2 = ROk tt st3 ->
  exists oid,
    (exists b1', st_bindings st2 !! bid1 = Some b1' /\ b_styleObserver b1' = Some oid) /\
    (exists b2', st_bindings st2 !! bid2 = Some b2' /\ b_styleObserver b2' = Some oid /\
                 st_bindings st3 !! bid2 = Some b2') /\
    (exists el m, st_elements st3 !! b_target b1 = Some el /\ el_styleObservers el = Some m /\
                  m !! hyphenate_uncached (b_targetProperty b1) = Some oid) /\
    exists o o', st_observers st2 !! oid = Some o /\ st_observers st3 !! oid = Some o' /\
      o_element o' = o_element o /\ o_hyphenatedCssRule o' = o_hyphenatedCssRule o /\
      o_value o' = o_value o /\ o_prevValue o' = o_prevValue o /\
      (In (styleObserverContext, bid2) (o_subs o) ->
         In (styleObserverContext, bid2) (o_subs o') /\ o_mo o' = o_mo o).
Proof.
  intros Hne Hb1 Hb2 Et Ek Hc Hnb1 Hnb2 H1 H2 H3.
  destruct (bind_registers _ _ _ _ _ _ Hb1 Hnb1 Hc H1)
    as ((_ & RB1 & _ & RC1) & oid1 & el1 & m1 & _ & (b1' & Hb1' & So1) & He1 & Hm1 & Hk1 & _).
  destruct (RB1 bid2 b2 ltac:(congruence) Hb2) as (b2s & Hb2s & _ & Sb2).
  unfold binding_statics in Sb2. injection Sb2 as Et2 Ep2 _ _.
  destruct (bind_registers _ _ _ _ _ _ Hb2s Hnb2 (RC1 Hc) H2)
    as ((_ & RB2 & _ & _) & oid2 & el2 & m2 & Hshare & (b2' & Hb2' & So2) & He2 & Hm2 & Hk2 & Hobs2).
  assert (oid2 = oid1) as ->.
  { apply (Hshare el1 m1); [rewrite Et2, <- Et; exact He1|exact Hm1|].
    rewrite Ep2, <- Ek. exact Hk1. }
  destruct (RB2 bid1 b1' Hne Hb1') as (b1'' & Hb1'' & So1' & _).
  destruct Hobs2 as [o Ho].
  destruct (unbind_keeps_other _ _ _ _ _ _ _ H3 (not_eq_sym Hne) Hb2' Ho)
    as (Hb3 & E3 & o' & Ho' & K).
  exists oid1. split; [|split; [|split]].
  - exists b1''. split; [exact Hb1''|congruence].
  - exists b2'. auto.
  - exists el2, m2. rewrite E3, Et, <- Et2. split; [exact He2|]. split; [exact Hm2|].
    rewrite Ek, <- Ep2. exact Hk2.
  - exists o, o'. auto.
Qed.

Lemma two_way_round_trip_settles f g bid b oid o el src v ov nv' ov' st st1 st2 :
  st_bindings st !! bid = Some b -> b_isBound b = true -> b_mode b = TwoWay ->
  b_styleObserver b = Some oid -> b_source b = Some src ->
  st_observers st !! oid = Some o -> st_elements st !! o_element o = Some el ->
  o_value o = v -> v <> VNaN -> strict_eqb v ov = false ->
  ex_evaluate (b_sourceExpression b) src (ex_assign (b_sourceExpression b) src v (st_heap st)) = v ->
  call f bid styleObserverContext v ov st = ROk tt st1 ->
  call g bid sourceContext nv' ov' st1 = ROk tt st2 ->
  st_heap st1 = ex_assign (b_sourceExpression b) src v (st_heap st) /\
  st_heap st2 = st_heap st1 /\
  st_elements st2 = st_elements st /\ st_observers st2 = st_observers st /\
  st_trace st2 = (st_trace st ++ [ECall bid styleObserverContext v ov; EAssign bid src v;
                                  ECall bid sourceContext nv' ov'; EEvaluate bid src;
                                  EConnect bid; EUnobserve bid false])%list.
Proof.
  intros Hb Hib Hm Hso Hsrc Ho He Hv Hnan Hne Hrt H1 H2.
  destruct f as [|f]; [discriminate|]. destruct g as [|g]; [discriminate|].
  cbn [call] in H1, H2.
  unfold updateSource, source_of, bindM, emit, modify, get_binding, ret in H1. cbn in H1.
  rewrite Hb, Hib in H1. cbn in H1.
  rewrite Hne in H1. cbn in H1. rewrite Hb in H1. cbn in H1. rewrite Hsrc in H1.
  injection H1 as <-.
  unfold bump_version, observer_of, getValue, source_of, evaluate, updateTarget,
    bindM, emit, modify, get_binding, get_observer, get_element, put_binding, gets, ret in H2.
  repeat (cbn in H2; first [ rewrite Hb in H2 | rewrite Hib in H2 | rewrite Hso in H2
                           | rewrite Ho in H2 | rewrite He in H2 | rewrite Hsrc in H2
                           | rewrite Hrt in H2 | rewrite Hm in H2 ]).
  destruct (negb (strict_eqb v _)); cbn in H2.
  - rewrite Hb in H2. cbn in H2. unfold observer_of in H2. rewrite Hso in H2. cbn in H2.
    match type of H2 with
    | context [setValue (call g) oid v ?s] =>
        rewrite (proj1 (setValue_eqn (call g) oid o el v s Ho He)) in H2
          by (rewrite Hv; apply strict_eqb_refl, Hnan)
    end.
    cbn in H2. rewrite Hb in H2. cbn in H2. injection H2 as <-.
    cbn. rewrite <- !app_assoc. auto.
  - rewrite Hb in H2. cbn in H2. injection H2 as <-.
    cbn. rewrite <- !app_assoc. auto.
Qed.

Lemma restyle_reading_back_cache_is_silent f oid o w st st1 st2 :
  st_observers st !! oid = Some o ->
  external_set_style (o_element o) (o_hyphenatedCssRule o) w st = ROk tt st1 ->
  getValue oid st1 = ROk (o_value o) st1 ->
  mutation_callback f oid st1 = ROk tt st2 -> st2 = st1.
Proof.
  intros Ho H1 Hg H2.
  assert (Ho1 : st_observers st1 !! oid = Some o).
  { unfold external_set_style, bindM, get_element, put_element, modify in H1.
    destruct (st_elements st !! o_element o); [|discriminate]. injection H1 as <-. exact Ho. }
  unfold getValue in Hg. rewrite (bind_get_observer _ _ _ _ Ho1) in Hg.
  unfold bindM, get_element, ret in Hg.
  destruct (st_elements st1 !! o_element o) as [el|] eqn:He; [|discriminate].
  injection Hg as Hv.
  unfold mutation_callback in H2. rewrite (bind_get_observer _ _ _ _ Ho1) in H2.
  destruct (o_mo o); [|injection H2 as <-; reflexivity].
  rewrite (proj1 (syncValue_eqn (call f) oid o el st1 Ho1 He)) in H2.
  - injection H2 as <-. reflexivity.
  - unfold live_value. rewrite Hv. apply strict_eqb_refl. rewrite <- Hv. discriminate.
Qed.

(** ** Round trips of a two-way binding *)

(** Claim C2, as the code behaves: (1) when the observer of a bound
    two-way binding, caching a value [v] other than NaN (so [v === v]),
    calls it with [(v, ov)], [v !== ov], the binding assigns [v] to the
    source; a following source-context [call] whose expression reads [v]
    back writes nothing to any inline style, changes no observer and
    notifies nobody ([setValue] sees its cached [v], whether or not the
    live style string is [v]); (2) a change of the inline style of an
    observed property after which [getValue] reads back exactly the
    observer's cached value changes nothing when the mutation callback is
    delivered: no notification in either direction.  Whether a written
    string reads back unchanged is the CSSOM's business; (2) assumes only
    the read-back. *)
Theorem two_way_round_trip_and_no_echo :
  (forall f g bid b oid o el src v ov nv' ov' st st1 st2,
     st_bindings st !! bid = Some b -> b_isBound b = true -> b_mode b = TwoWay ->
     b_styleObserver b = Some oid -> b_source b = Some src ->
     st_observers st !! oid = Some o -> st_elements st !! o_element o = Some el ->
     o_value o = v -> v <> VNaN -> strict_eqb v ov = false ->
     ex_evaluate (b_sourceExpression b) src (ex_assign (b_sourceExpression b) src v (st_heap st)) = v ->
     call f bid styleObserverContext v ov st = ROk tt st1 ->
     call g bid sourceContext nv' ov' st1 = ROk tt st2 ->
     st_heap st1 = ex_assign (b_sourceExpression b) src v (st_heap st) /\
     st_heap st2 = st_heap st1 /\
     st_elements st2 = st_elements st /\ st_observers st2 = st_observers st /\
     st_trace st2 = (st_trace st ++ [ECall bid styleObserverContext v ov; EAssign bid src v;
                                     ECall bid sourceContext nv' ov'; EEvaluate bid src;
                                     EConnect bid; EUnobserve bid false])%list) /\
  (forall f oid o w st st1 st2,
     st_observers st !! oid = Some o ->
     external_set_style (o_element o) (o_hyphenatedCssRule o) w st = ROk tt st1 ->
     getValue oid st1 = ROk (o_value o) st1 ->
     mutation_callback f oid st1 = ROk tt st2 -> st2 = st1).
Proof.
  split; [exact two_way_round_trip_settles|exact restyle_reading_back_cache_is_silent].
Qed.

(** ** Further properties of the code *)

Lemma is_upper_to_lower c : is_upper (to_lower c) = false.
Proof. destruct c as [[] [] [] [] [] [] [] []]; reflexivity. Qed.

Lemma to_lower_id c : is_upper c = false -> to_lower c = c.
Proof. unfold to_lower. intros ->. reflexivity. Qed.

Lemma no_capitals_cons c s : no_capitals (String c s) = (negb (is_upper c) && no_capitals s)%bool.
Proof. reflexivity. Qed.

Lemma no_capitals_app s t : no_capitals (s ++ t) = (no_capitals s && no_capitals t)%bool.
Proof.
  induction s as [|c s IH]; [reflexivity|].
  change (String c s ++ t) with (String c (s ++ t)).
  rewrite !no_capitals_cons, IH. apply andb_assoc.
Qed.

Lemma replace_capitals_no_capitals s : no_capitals (replace_capitals s) = true.
Proof.
  induction s as [|c s IH]; [reflexivity|]. cbn [replace_capitals].
  destruct (is_upper c) eqn:E.
  - rewrite no_capitals_app, !no_capitals_cons, is_upper_to_lower, IH. reflexivity.
  - rewrite no_capitals_cons, IH, E. reflexivity.
Qed.

Lemma replace_capitals_fix s : no_capitals s = true -> replace_capitals s = s.
Proof.
  induction s as [|c s IH]; [reflexivity|]. rewrite no_capitals_cons.
  intros [Hc Hs]%andb_true_iff. apply negb_true_iff in Hc.
  cbn [replace_capitals]. rewrite Hc, IH by exact Hs. reflexivity.
Qed.

Lemma hyphenate_uncached_fix s : no_capitals s = true -> hyphenate_uncached s = s.
Proof.
  destruct s as [|c r]; [reflexivity|]. intros H. unfold hyphenate_uncached.
  pose proof H as H'. rewrite no_capitals_cons in H'. apply andb_true_iff in H' as [Hc _].
  apply negb_true_iff in Hc. rewrite to_lower_id by exact Hc. apply replace_capitals_fix, H.
Qed.

Lemma hyphenate_uncached_no_capitals s : no_capitals (hyphenate_uncached s) = true.
Proof. destruct s; apply replace_capitals_no_capitals. Qed.

(** X1 ([hyphenate], lines 11-16): the name [hyphenate] computes has no
    capital letter, and hyphenating it again gives it back unchanged. *)
Theorem hyphenate_output_has_no_capitals name :
  no_capitals (hyphenate_uncached name) = true /\
  hyphenate_uncached (hyphenate_uncached name) = hyphenate_uncached name.
Proof.
  split; [apply hyphenate_uncached_no_capitals|].
  apply hyphenate_uncached_fix, hyphenate_uncached_no_capitals.
Qed.

(** X2 ([hyphenate], lines 11-16): with a memo table holding only
    values [hyphenate] computed, an ASCII name without capital letters
    (such as [background-color]) hyphenates to itself. *)
Theorem hyphenate_fixes_names_without_capitals cache name :
  (forall n h, cache !! n = Some h -> h = hyphenate_uncached n) ->
  ascii_only name = true -> no_capitals name = true -> (hyphenate cache name).1 = name.
Proof.
  intros Hc _ Hn. unfold hyphenate. destruct (cache !! name) as [h|] eqn:E; simpl.
  - rewrite (Hc _ _ E). apply hyphenate_uncached_fix, Hn.
  - apply hyphenate_uncached_fix, Hn.
Qed.

(** X3 ([hyphenate], lines 11-16): with a valid memo table, [hyphenate]
    returns the uncached value, records it for the name, keeps every older
    entry, leaves a valid table, and a second call returns the same value
    without changing the table. *)
Theorem hyphenate_memo_is_transparent cache name :
  (forall n h, cache !! n = Some h -> h = hyphenate_uncached n) ->
  let '(h, cache') := hyphenate cache name in
  h = hyphenate_uncached name /\ cache' !! name = Some h /\
  (forall n h', cache !! n = Some h' -> cache' !! n = Some h') /\
  (forall n h', cache' !! n = Some h' -> h' = hyphenate_uncached n) /\
  hyphenate cache' name = (h, cache').
Proof.
  intros Hc. unfold hyphenate. destruct (cache !! name) as [h|] eqn:E.
  - rewrite E. split; [exact (Hc _ _ E)|]. auto.
  - rewrite lookup_insert_eq. split; [reflexivity|]. split; [reflexivity|]. split; [|split].
    + intros n h' Hn. rewrite lookup_insert_ne by congruence. exact Hn.
    + intros n h' Hn. destruct (decide (n = name)) as [->|Hne].
      * rewrite lookup_insert_eq in Hn. congruence.
      * rewrite lookup_insert_ne in Hn by congruence. exact (Hc _ _ Hn).
    + reflexivity.
Qed.

Lemma existsb_sub_eqb p l : existsb (sub_eqb p) l = true <-> In p l.
Proof.
  rewrite existsb_exists. split.
  - intros (q & Hq & E). apply sub_eqb_true in E. subst. exact Hq.
  - intros H. exists p. split; [exact H|]. apply sub_eqb_true. reflexivity.
Qed.

Lemma subscribe_subs o ctx c :
  o_subs (subscribe o ctx c).1 =
  if existsb (sub_eqb (ctx, c)) (o_subs o) then o_subs o else (o_subs o ++ [(ctx, c)])%list.
Proof.
  unfold subscribe, observeMutation, addSubscriber.
  destruct (hasSubscribers o); [|destruct (o_mo o)]; simpl; destruct existsb; reflexivity.
Qed.

Lemma unsubscribe_subs o ctx c :
  o_subs (unsubscribe o ctx c).1 =
  match remove_first (ctx, c) (o_subs o) with Some r => r | None => o_subs o end.
Proof.
  unfold unsubscribe, removeSubscriber, unobserveMutation.
  destruct (remove_first _ _); simpl; [|reflexivity].
  destruct (negb _); simpl; [|reflexivity]. destruct (o_mo o); reflexivity.
Qed.

Lemma remove_first_none p l : remove_first p l = None -> ~ In p l.
Proof.
  induction l as [|q l IH]; simpl; [auto|].
  destruct (sub_eqb q p) eqn:E; [discriminate|].
  destruct (remove_first p l); [discriminate|]. intros _ [->|Hin].
  - rewrite (proj2 (sub_eqb_true p p) eq_refl) in E. discriminate.
  - exact (IH eq_refl Hin).
Qed.

Lemma remove_first_nodup p l r :
  NoDup l -> remove_first p l = Some r -> NoDup r /\ ~ In p r.
Proof.
  revert r. induction l as [|q l IH]; simpl; intros r Hnd H; [discriminate|].
  apply NoDup_cons in Hnd as [Hq Hnd]. rewrite list_elem_of_In in Hq.
  destruct (sub_eqb q p) eqn:E.
  - apply sub_eqb_true in E. subst q. injection H as <-. split; assumption.
  - destruct (remove_first p l) as [r'|] eqn:E'; [|discriminate]. injection H as <-.
    destruct (IH r' Hnd eq_refl) as [Hnd' Hn']. split.
    + apply NoDup_cons. split; [|exact Hnd']. rewrite list_elem_of_In. intros Hin. apply Hq.
      clear -E' Hin. revert r' E' Hin. induction l as [|x l IH]; simpl; intros r' E' Hin;
        [discriminate|].
      destruct (sub_eqb x p); [injection E' as <-; auto|].
      destruct (remove_first p l) as [r2|]; [|discriminate]. injection E' as <-.
      destruct Hin as [->|Hin]; [auto|right; eauto].
    + intros [->|Hin]; [|auto]. rewrite (proj2 (sub_eqb_true p p) eq_refl) in E. discriminate.
Qed.

Lemma remove_first_last p l : ~ In p l -> remove_first p (l ++ [p])%list = Some l.
Proof.
  induction l as [|q l IH]; simpl; intros Hn.
  - rewrite (proj2 (sub_eqb_true p p) eq_refl). reflexivity.
  - destruct (sub_eqb q p) eqn:E.
    + apply sub_eqb_true in E. subst. exfalso. auto.
    + rewrite IH by auto. reflexivity.
Qed.

(** X5 ([subscribe], [unsubscribe], lines 64-74): on a duplicate-free
    subscriber list, [subscribe] keeps the list duplicate-free and the pair
    in it, and [unsubscribe] keeps it duplicate-free and the pair out of it. *)
Theorem subscribers_stay_duplicate_free o ctx c :
  NoDup (o_subs o) ->
  (NoDup (o_subs (subscribe o ctx c).1) /\ In (ctx, c) (o_subs (subscribe o ctx c).1)) /\
  (NoDup (o_subs (unsubscribe o ctx c).1) /\ ~ In (ctx, c) (o_subs (unsubscribe o ctx c).1)).
Proof.
  intros Hnd. split.
  - rewrite subscribe_subs. destruct (existsb _ _) eqn:E.
    + apply existsb_sub_eqb in E. auto.
    + assert (Hn : ~ In (ctx, c) (o_subs o)) by (intros Hin; apply existsb_sub_eqb in Hin; congruence).
      split.
      * apply NoDup_app. split; [exact Hnd|]. split; [|apply NoDup_singleton].
        intros x Hx Hx'. apply list_elem_of_singleton in Hx'. subst x.
        apply list_elem_of_In in Hx. contradiction.
      * apply in_or_app. right. left. reflexivity.
  - rewrite unsubscribe_subs. destruct (remove_first _ _) as [r|] eqn:E.
    + exact (remove_first_nodup _ _ _ Hnd E).
    + split; [exact Hnd|]. exact (remove_first_none _ _ E).
Qed.

(** X6 ([subscribe], [unsubscribe], [observeMutation],
    [unobserveMutation], lines 49-74): subscribing a new pair and
    unsubscribing it again gives the observer back as it was (when an
    observer without subscribers has no watch); the watch is created and
    disconnected again exactly when the observer had no subscriber. *)
Theorem subscribe_then_unsubscribe_restores o ctx c :
  ~ In (ctx, c) (o_subs o) -> (o_subs o = [] -> o_mo o = None) ->
  let '(o1, evs1) := subscribe o ctx c in
  let '(o2, evs2) := unsubscribe o1 ctx c in
  o2 = o /\
  (evs1 ++ evs2)%list = (if hasSubscribers o then [] else [EObserve (o_element o); EDisconnect (o_element o)]).
Proof.
  destruct o as [e rule h v pv mo subs]. cbn [o_subs o_mo o_element]. intros Hn Hmo.
  destruct subs as [|s subs].
  - rewrite (Hmo eq_refl). unfold subscribe, unsubscribe, removeSubscriber, addSubscriber. simpl.
    rewrite (proj2 (sub_eqb_true (ctx, c) (ctx, c)) eq_refl). simpl. auto.
  - assert (Hx : existsb (sub_eqb (ctx, c)) (s :: subs) = false).
    { destruct existsb eqn:E; [|reflexivity]. apply existsb_sub_eqb in E. contradiction. }
    unfold subscribe, hasSubscribers, addSubscriber. cbn [o_subs]. rewrite Hx.
    unfold unsubscribe, removeSubscriber. cbn [o_subs with_subs fst].
    rewrite (remove_first_last _ (s :: subs) Hn). simpl. auto.
Qed.

Lemma call_observer_keeps_view f x nv ov st st' :
  call f x styleObserverContext nv ov st = ROk tt st' ->
  st_elements st' = st_elements st /\ st_observers st' = st_observers st.
Proof.
  destruct f as [|f]; cbn [call]; intros H; [discriminate|].
  rewrite (proj1 context_eqbs), (proj1 (proj2 context_eqbs)) in H.
  unfold updateSource, source_of in H. run_inv; auto.
Qed.

Lemma callSubscribers_keep_view f subs nv ov st st' :
  Forall (fun p => p.1 = styleObserverContext) subs ->
  callSubscribers (call f) subs nv ov st = ROk tt st' ->
  st_elements st' = st_elements st /\ st_observers st' = st_observers st.
Proof.
  intros Hf. revert st. induction Hf as [|[c x] r Hc Hr IH]; simpl in *; intros st H.
  - run_inv. auto.
  - subst c. apply bindM_ok in H as ([] & s1 & H1 & H2).
    apply call_observer_keeps_view in H1 as [E1 O1]. apply IH in H2 as [E2 O2].
    split; congruence.
Qed.

Lemma calls_safe_subs st oid o :
  calls_safe st -> st_observers st !! oid = Some o ->
  Forall (fun p => p.1 = styleObserverContext) (o_subs o).
Proof.
  intros [_ Hs] Ho. apply Forall_forall. intros [c x] Hin. apply list_elem_of_In in Hin.
  exact (proj1 (proj2 (Hs _ _ Ho) _ _ Hin)).
Qed.

(** X9 ([unbind], lines 184-195): unbinding a bound binding leaves it
    unbound, with no source and no observer and its static fields kept;
    its observer no longer lists it, and a second [unbind] does nothing. *)
Theorem unbind_releases_binding bid st st' b oid o :
  st_bindings st !! bid = Some b -> b_isBound b = true -> b_styleObserver b = Some oid ->
  st_observers st !! oid = Some o -> NoDup (o_subs o) ->
  unbind bid st = ROk tt st' ->
  (exists b', st_bindings st' !! bid = Some b' /\ b_isBound b' = false /\ b_source b' = None /\
              b_styleObserver b' = None /\ binding_statics b' = binding_statics b) /\
  (exists o', st_observers st' !! oid = Some o' /\ ~ In (styleObserverContext, bid) (o_subs o')) /\
  unbind bid st' = ROk tt st'.
Proof.
  intros Hb Hbd Hso Ho Hnd H. unfold unbind in H.
  rewrite (bind_get_binding _ _ _ _ Hb), Hbd in H. cbn [negb] in H.
  unfold put_binding at 1 in H. rewrite bind_modify in H.
  destruct (ex_has_unbind (b_sourceExpression b));
    [rewrite bind_emit in H|rewrite bind_ret in H].
  all: rewrite bind_assoc in H; erewrite bind_get_binding in H by (cbn; apply lookup_insert_eq).
  all: unfold put_binding in H; rewrite bind_modify in H.
  all: unfold observer_of in H; rewrite Hso, bind_ret in H.
  all: unfold unsubscribeM in H; rewrite bind_assoc in H; erewrite bind_get_observer in H by exact Ho.
  all: pose proof (unsubscribe_subs o styleObserverContext bid) as Es.
  all: destruct (unsubscribe o styleObserverContext bid) as [o' evs]; cbn [fst] in Es; cbv beta iota in H.
  all: rewrite bind_assoc in H; unfold put_observer at 1 in H; rewrite bind_modify in H.
  all: apply bindM_ok in H as ([] & s1 & H1 & H); apply emit_all_data in H1 as (B1 & _ & O1).
  all: unfold set_binding_observer in H; rewrite bind_assoc in H.
  all: erewrite bind_get_binding in H by (rewrite B1; cbn; apply lookup_insert_eq).
  all: unfold put_binding in H; rewrite bind_modify in H; unfold emit, modify in H;
       injection H as <-; cbn.
  all: assert (Hout : ~ In (styleObserverContext, bid) (o_subs o'))
         by (rewrite Es; destruct (remove_first _ _) as [r|] eqn:E;
             [exact (proj2 (remove_first_nodup _ _ _ Hnd E))|exact (remove_first_none _ _ E)]).
  all: repeat match goal with |- _ /\ _ => split end.
  all: try (eexists; split; [rewrite B1; cbn; rewrite lookup_insert_eq; reflexivity|];
            repeat match goal with |- _ /\ _ => split end; reflexivity).
  all: try (exists o'; rewrite O1; cbn; rewrite lookup_insert_eq; auto).
  all: unfold unbind; rewrite bind_get_binding with (b := with_styleObserver
         (with_bound (with_bound b false (b_source b)) false None) None)
         by (cbn; rewrite B1; cbn; apply lookup_insert_eq); reflexivity.
Qed.


(** X8 ([syncValue], lines 40-48): a second [syncValue] right after a
    first one changes nothing and notifies nobody. *)
Theorem syncValue_settles f oid o el st st1 :
  calls_safe st -> st_observers st !! oid = Some o -> st_elements st !! o_element o = Some el ->
  syncValue (call f) oid st = ROk tt st1 ->
  syncValue (call f) oid st1 = ROk tt st1.
Proof.
  intros Hs Ho He H.
  destruct (strict_eqb (live_value o el) (o_value o)) eqn:Ev.
  - rewrite (proj1 (syncValue_eqn (call f) oid o el st Ho He) Ev) in H. injection H as <-.
    apply (proj1 (syncValue_eqn (call f) oid o el st Ho He) Ev).
  - rewrite (proj2 (syncValue_eqn (call f) oid o el st Ho He) Ev) in H.
    apply callSubscribers_keep_view in H as [E1 O1]; [|exact (calls_safe_subs _ _ _ Hs Ho)].
    unfold synced_state in E1, O1. cbn in E1, O1.
    assert (Ho1 : st_observers st1 !! oid = Some (with_value o (o_value o) (live_value o el)))
      by (rewrite O1; apply lookup_insert_eq).
    assert (He1 : st_elements st1 !! o_element (with_value o (o_value o) (live_value o el)) = Some el)
      by (rewrite E1; exact He).
    apply (proj1 (syncValue_eqn (call f) oid _ el st1 Ho1 He1)).
    apply strict_eqb_refl. unfold live_value. discriminate.
Qed.

Lemma unbind_other_binding bid st st' x bx :
  unbind bid st = ROk tt st' -> x <> bid ->
  st_bindings st !! x = Some bx -> st_bindings st' !! x = Some bx.
Proof.
  intros H Hx Hbx. unfold unbind, set_binding_observer, unsubscribeM, observer_of in H.
  run_inv.
  { exact Hbx. }
  all: match goal with
       | H : (let '(_, _) := unsubscribe ?o ?c ?b in _) _ = _ |- _ =>
           destruct (unsubscribe o c b) as [o' evs];
           apply bindM_ok in H as ([] & s9 & Hp & He); unfold put_observer, modify in Hp;
           injection Hp as <-; apply emit_all_data in He as (EB & _ & _)
       end.
  all: rewrite EB; simpl in *.
  all: rewrite !lookup_insert_ne by congruence; exact Hbx.
Qed.

(** X10 ([unbind], lines 184-195): unbinding one binding leaves every
    other binding unchanged, whatever its mode; an other binding
    subscribed to an observer stays subscribed to it, and the observer
    keeps its watch and cached values. *)
Theorem unbind_spares_other_bindings bid x st st' bx :
  unbind bid st = ROk tt st' -> x <> bid -> st_bindings st !! x = Some bx ->
  st_bindings st' !! x = Some bx /\
  (forall oid o, st_observers st !! oid = Some o -> In (styleObserverContext, x) (o_subs o) ->
     exists o', st_observers st' !! oid = Some o' /\ In (styleObserverContext, x) (o_subs o') /\
                o_mo o' = o_mo o /\ o_value o' = o_value o /\ o_prevValue o' = o_prevValue o).
Proof.
  intros H Hx Hbx. split; [exact (unbind_other_binding _ _ _ _ _ H Hx Hbx)|].
  intros oid o Ho Hin.
  destruct (unbind_keeps_other _ _ _ _ _ _ _ H Hx Hbx Ho) as (_ & _ & o' & Ho' & _ & _ & V & P & K).
  destruct (K Hin) as [I M]. exists o'. auto.
Qed.

(** X11 ([unsubscribe], [unobserveMutation], the callback of
    [observeMutation], lines 49-74): removing the last subscriber
    disconnects the watch, after which a mutation callback does nothing. *)
Theorem last_unsubscribe_stops_mutation_callback f oid o ctx c st st1 :
  st_observers st !! oid = Some o -> o_subs o = [(ctx, c)] ->
  unsubscribeM oid ctx c st = ROk tt st1 ->
  (exists o1, st_observers st1 !! oid = Some o1 /\ o_subs o1 = [] /\ o_mo o1 = None) /\
  mutation_callback f oid st1 = ROk tt st1.
Proof.
  intros Ho Hs H. unfold unsubscribeM in H. rewrite (bind_get_observer _ _ _ _ Ho) in H.
  assert (Eu : o_subs (unsubscribe o ctx c).1 = [] /\ o_mo (unsubscribe o ctx c).1 = None).
  { unfold unsubscribe, removeSubscriber, unobserveMutation. rewrite Hs. cbn.
    rewrite (proj2 (sub_eqb_true (ctx, c) (ctx, c)) eq_refl). cbn.
    destruct (o_mo o) eqn:Emo; cbn; rewrite ?Emo; split; reflexivity. }
  destruct (unsubscribe o ctx c) as [o' evs]. cbn in Eu. destruct Eu as [Es Em].
  apply bindM_ok in H as ([] & s1 & H1 & H). unfold put_observer, modify in H1. injection H1 as <-.
  apply emit_all_data in H as (_ & _ & O).
  assert (Ho1 : st_observers st1 !! oid = Some o') by (rewrite O; apply lookup_insert_eq).
  split; [eexists; split; [exact Ho1|]; auto|].
  unfold mutation_callback. rewrite (bind_get_observer _ _ _ _ Ho1), Em. reflexivity.
Qed.

(** X12 ([createBinding], the [StyleBinding] constructor, [unbind],
    [connect], [call], lines 86-98 and 106-206): a binding fresh from
    [createBinding] is not bound, so [unbind] and [connect] do nothing and
    [call] returns without effect for any context. *)
Theorem created_binding_is_inert se target f bid st :
  st_bindings st !! bid = Some (createBinding se target) ->
  unbind bid st = ROk tt st /\
  (forall ev, connect f bid ev st = ROk tt st) /\
  (forall ctx nv ov, call (S f) bid ctx nv ov st = ROk tt (add_event (ECall bid ctx nv ov) st)).
Proof.
  intros Hb. split; [|split].
  - unfold unbind. rewrite (bind_get_binding _ _ _ _ Hb). reflexivity.
  - intros ev. unfold connect. rewrite (bind_get_binding _ _ _ _ Hb). reflexivity.
  - intros ctx nv ov. exact (call_unbound f bid ctx nv ov st _ Hb eq_refl).
Qed.

(** X13 ([bind], lines 131-183): when [bind(source)] returns, the
    binding is bound to [source]. *)
Theorem bind_leaves_binding_bound f bid src st st' :
  bind f bid src st = ROk tt st' -> bound_to bid src st'.
Proof.
  intros H. unfold bind in H. apply bindM_ok in H as (b & s & Hg & H).
  apply get_binding_ok in Hg as [-> Hb].
  destruct (b_isBound b && _)%bool eqn:Ec.
  - injection H as <-. apply andb_true_iff in Ec as [Hbd Hs].
    destruct (b_source b) as [s|] eqn:Hsrc; [|discriminate]. apply Nat.eqb_eq in Hs. subst s.
    exists b. auto.
  - apply bindM_ok in H as ([] & s1 & _ & H). exact (bind_body_bound_to _ _ _ _ _ H).
Qed.



#[global] Instance unsubscribed_kept_preorder bid : PreOrder (unsubscribed_kept bid).
Proof. split; [intros st H; exact H|intros s1 s2 s3 H1 H2 H; auto]. Qed.

Lemma unsub_same_observers bid st st' :
  st_observers st' = st_observers st -> unsubscribed_kept bid st st'.
Proof. intros E H oid o Ho. rewrite E in Ho. exact (H _ _ Ho). Qed.

Lemma unsub_new_observer bid st os next oid e p h :
  os = st_observers st ->
  unsubscribed_kept bid st (set_observers (<[oid := mkObserver e p h VUndef VUndef None []]> os) next st).
Proof.
  intros -> H oid' o Ho. simpl in Ho. destruct (decide (oid' = oid)) as [->|Hne].
  - rewrite lookup_insert_eq in Ho. injection Ho as <-. simpl. auto.
  - rewrite lookup_insert_ne in Ho by congruence. exact (H _ _ Ho).
Qed.

Lemma frame_unsubscribed_kept bid st st' : frame st st' -> unsubscribed_kept bid st st'.
Proof.
  intros (_ & FO & _) H oid o' Ho'. destruct (fmap_lookup_back _ _ _ _ _ FO Ho') as (o & Ho & E).
  apply (f_equal o_subs) in E. simpl in E. rewrite E. exact (H _ _ Ho).
Qed.

Lemma pres_unsub_setValue bid f oid v : preserves (unsubscribed_kept bid) (setValue (call f) oid v).
Proof.
  intros st [] st' H. apply frame_unsubscribed_kept.
  eapply (setValue_frame (call f) (call_frame f)). exact H.
Qed.

Lemma pres_unsub_hyphenateM bid name : preserves (unsubscribed_kept bid) (hyphenateM name).
Proof.
  intros st h st' H. unfold hyphenateM in H. destruct (hyphenate _ _).
  injection H as _ <-. apply unsub_same_observers. reflexivity.
Qed.

Lemma pres_same_bindings_hyphenateM name : preserves same_bindings (hyphenateM name).
Proof.
  intros st h st' H. unfold hyphenateM in H. destruct (hyphenate _ _).
  injection H as _ <-. reflexivity.
Qed.

Ltac unsub_leaf :=
  match goal with
  | |- forall (_ : State) (_ : Event), _ => intros ? ?
  | |- forall _ : State, _ => intros ?
  end;
  first [ apply unsub_same_observers; reflexivity | apply unsub_new_observer; reflexivity ].

Ltac unsub_go :=
  pres_go unsub_leaf
    ltac:(first [ apply pres_unsub_setValue
                | apply pres_unsub_hyphenateM
                | progress unfold set_binding_observer ]).

Lemma pres_unsub_styleObserversLookup bid e :
  preserves (unsubscribed_kept bid) (styleObserversLookup e).
Proof. unsub_go. Qed.

Lemma pres_unsub_resolve_observer bid x e p lookup key :
  preserves (unsubscribed_kept bid) (resolve_observer x e p lookup key).
Proof. unsub_go. Qed.

Lemma pres_unsub_initial_sync bid f x src b key :
  preserves (unsubscribed_kept bid) (initial_sync f x src b key).
Proof. unsub_go. Qed.

Lemma command_mode_subscribes c m :
  command_mode c = Some m ->
  ((m = TwoWay \/ m = FromView) <-> (c = "style-two-way" \/ c = "style-from-view")).
Proof.
  intros H.
  destruct (String.eqb_spec c "style-two-way") as [->|N1].
  { vm_compute in H. injection H as <-. tauto. }
  destruct (String.eqb_spec c "style-from-view") as [->|N2].
  { vm_compute in H. injection H as <-. tauto. }
  assert (m <> TwoWay /\ m <> FromView) as [M1 M2].
  { unfold command_mode in H. apply String.eqb_neq in N1, N2. rewrite N1, N2 in H.
    destruct (_ || _)%bool; [injection H as <-; split; discriminate|].
    destruct (String.eqb c "style-one-time"); [injection H as <-; split; discriminate|discriminate]. }
  tauto.
Qed.

Lemma subscribe_adds o ctx c : In (ctx, c) (o_subs (subscribe o ctx c).1).
Proof.
  rewrite subscribe_subs. destruct existsb eqn:E.
  - apply existsb_sub_eqb, E.
  - apply in_or_app. right. left. reflexivity.
Qed.

(** X14 (the commands of [SyntaxInterpreter], [StyleExpression],
    [bind], lines 78-89, 131-183, 222-234): binding what a style command
    created subscribes the binding to its observer exactly for
    [style-two-way] and [style-from-view]. *)
Theorem style_commands_subscribe_only_two_way_and_from_view c parse name value se target f bid src
  st st' :
  interpret_command c parse name value = Some se ->
  st_bindings st !! bid = Some (createBinding se target) ->
  not_subscribed bid st ->
  bind f bid src st = ROk tt st' ->
  exists b' oid o', st_bindings st' !! bid = Some b' /\ b_styleObserver b' = Some oid /\
    st_observers st' !! oid = Some o' /\
    (In (styleObserverContext, bid) (o_subs o') <-> c = "style-two-way" \/ c = "style-from-view").
Proof.
  intros Hc Hb Hn H.
  unfold interpret_command in Hc. destruct (command_mode c) as [m|] eqn:Hm; [|discriminate].
  injection Hc as <-. pose proof (command_mode_subscribes _ _ Hm) as Hiff.
  set (b0 := createBinding (mkStyleExpression (parse value) name m) target) in Hb.
  unfold bind in H. rewrite (bind_get_binding _ _ _ _ Hb) in H. cbn [b0 createBinding b_isBound andb] in H.
  rewrite bind_ret in H.
  unfold bind_body in H. rewrite (bind_get_binding _ _ _ _ Hb) in H.
  unfold put_binding at 1 in H. rewrite bind_modify in H.
  set (s1 := set_bindings _ st) in H.
  apply bindM_ok in H as ([] & s2 & H2 & H).
  apply bindM_ok in H as (lookup & s3 & H3 & H).
  apply bindM_ok in H as (key & s4 & H4 & H).
  apply bindM_ok in H as (oid & s5 & H5 & H).
  apply bindM_ok in H as ([] & s6 & H6 & H7).
  assert (N6 : not_subscribed bid s6).
  { assert (N1 : not_subscribed bid s1) by exact Hn.
    apply (pres_apply (unsubscribed_kept bid)) in H2; [|unsub_go].
    apply (pres_apply (unsubscribed_kept bid)) in H3; [|apply pres_unsub_styleObserversLookup].
    apply (pres_apply (unsubscribed_kept bid)) in H4; [|apply pres_unsub_hyphenateM].
    apply (pres_apply (unsubscribed_kept bid)) in H5; [|apply pres_unsub_resolve_observer].
    apply (pres_apply (unsubscribed_kept bid)) in H6; [|apply pres_unsub_initial_sync].
    exact (H6 (H5 (H4 (H3 (H2 N1))))). }
  assert (Hb4 : st_bindings s4 !! bid = Some (with_bound b0 true (Some src))).
  { apply (pres_apply same_bindings) in H2; [|pres_go ltac:(intros ?; reflexivity) fail].
    apply (pres_apply same_bindings) in H3;
      [|pres_go ltac:(intros ?; reflexivity) fail].
    apply (pres_apply same_bindings) in H4; [|apply pres_same_bindings_hyphenateM].
    unfold same_bindings in H2, H3, H4. rewrite H4, H3, H2. cbn. apply lookup_insert_eq. }
  set (b5 := with_styleObserver (with_bound b0 true (Some src)) (Some oid)).
  assert (Hb5 : st_bindings s5 !! bid = Some b5).
  { pose proof (resolve_observer_spec _ _ _ _ _ _ _ _ _ Hb4 H5) as R.
    destruct (lookup !! key).
    - destruct R as [_ ->]. cbn. apply lookup_insert_eq.
    - destruct R as (_ & c0 & h & el & _ & _ & _ & ->). cbn. apply lookup_insert_eq. }
  assert (R7 : registry_kept (fun _ => True) s5 st').
  { etransitivity.
    - eapply pres_apply; [exact H6|apply pres_registry_initial_sync].
    - eapply pres_apply; [exact H7|apply pres_registry_observe_by_mode]. }
  destruct (proj1 (proj2 R7) bid b5 I Hb5) as (b' & Hb' & So & _).
  exists b', oid. cbn [b5 b_styleObserver with_styleObserver] in So.
  pose proof (tail_fetches_observer _ _ _ _ _ _ _ _ _ _ Hb5 eq_refl H6 H7) as [o' Ho'].
  unfold observe_by_mode in H7. cbn [b0 createBinding b_mode] in H7.
  destruct m.
  - injection H7 as <-. exists o'. repeat match goal with |- _ /\ _ => split end; auto.
    split; [intros Hin; exact (False_ind _ (N6 _ _ Ho' Hin))|].
    intros Hc. apply Hiff in Hc as [E|E]; discriminate.
  - unfold emit, modify in H7. injection H7 as <-. exists o'.
    repeat match goal with |- _ /\ _ => split end; auto.
    split; [intros Hin; exact (False_ind _ (N6 _ _ Ho' Hin))|].
    intros Hc. apply Hiff in Hc as [E|E]; discriminate.
  - unfold subscribeM in H7. apply bindM_ok in H7 as (o6 & s7 & G & H7).
    apply get_observer_ok in G as [<- Ho6].
    pose proof (subscribe_adds o6 styleObserverContext bid) as Hin.
    destruct (subscribe o6 styleObserverContext bid) as [o7 evs]. cbn in Hin.
    apply bindM_ok in H7 as ([] & s8 & H8 & H9). unfold put_observer, modify in H8. injection H8 as <-.
    apply emit_all_data in H9 as (_ & _ & O9). exists o7.
    rewrite O9 in Ho' |- *. cbn. rewrite lookup_insert_eq.
    repeat match goal with |- _ /\ _ => split end; auto.
    split; [intros _; apply Hiff; right; reflexivity|auto].
  - apply bindM_ok in H7 as ([] & s6' & Ge & H7). unfold emit, modify in Ge. injection Ge as <-.
    unfold subscribeM in H7. apply bindM_ok in H7 as (o6 & s7 & G & H7).
    apply get_observer_ok in G as [<- Ho6].
    pose proof (subscribe_adds o6 styleObserverContext bid) as Hin.
    destruct (subscribe o6 styleObserverContext bid) as [o7 evs]. cbn in Hin.
    apply bindM_ok in H7 as ([] & s8 & H8 & H9). unfold put_observer, modify in H8. injection H8 as <-.
    apply emit_all_data in H9 as (_ & _ & O9). exists o7.
    rewrite O9 in Ho' |- *. cbn. rewrite lookup_insert_eq.
    repeat match goal with |- _ /\ _ => split end; auto.
    split; [intros _; apply Hiff; left; reflexivity|auto].
Qed.



#[global] Instance versions_kept_preorder : PreOrder versions_kept.
Proof.
  split.
  - intros st. split; [eauto|]. exists []. rewrite app_nil_r. split; [reflexivity|]. intros x [].
  - intros s1 s2 s3 [B1 (d1 & T1 & N1)] [B2 (d2 & T2 & N2)]. split.
    + intros x b Hb. destruct (B1 _ _ Hb) as (b2 & Hb2 & V2). destruct (B2 _ _ Hb2) as (b3 & Hb3 & V3).
      exists b3. split; [done|]. congruence.
    + exists (d1 ++ d2)%list. split; [rewrite T2, T1; symmetry; apply app_assoc|].
      intros x Hin. apply in_app_or in Hin as [Hin|Hin]; [exact (N1 _ Hin)|exact (N2 _ Hin)].
Qed.

Lemma versions_kept_add_event st e :
  (forall x, e <> EConnect x) -> versions_kept st (add_event e st).
Proof.
  intros He. split; [simpl; eauto|]. exists [e]. split; [reflexivity|].
  intros x [E|[]]. exact (He x E).
Qed.

Lemma versions_kept_same st st' :
  st_bindings st' = st_bindings st -> st_trace st' = st_trace st -> versions_kept st st'.
Proof.
  intros EB ET. split; [rewrite EB; eauto|]. exists []. rewrite ET, app_nil_r.
  split; [reflexivity|]. intros x [].
Qed.

Ltac versions_leaf :=
  intros ?; first [ apply versions_kept_add_event; intros ? ?; discriminate
                  | apply versions_kept_same; reflexivity ].

Lemma pres_versions_call_observer f x nv ov :
  preserves versions_kept (call f x styleObserverContext nv ov).
Proof.
  destruct f as [|f]; cbn [call]; [apply (pres_out_of_fuel versions_kept)|].
  rewrite (proj1 context_eqbs), (proj1 (proj2 context_eqbs)).
  pres_go versions_leaf fail.
Qed.

Lemma callSubscribers_versions_kept f subs nv ov :
  Forall (fun p => p.1 = styleObserverContext) subs ->
  preserves versions_kept (callSubscribers (call f) subs nv ov).
Proof.
  induction 1 as [|[c x] r Hc Hr IH]; simpl in *.
  - apply (pres_ret versions_kept).
  - subst c. apply (pres_bind versions_kept); [apply pres_versions_call_observer|intros _; exact IH].
Qed.

Lemma setValue_versions_kept f oid v st st' :
  calls_safe st -> setValue (call f) oid v st = ROk tt st' -> versions_kept st st'.
Proof.
  intros Hs H. pose proof H as H0. unfold setValue in H0. apply bindM_ok in H0 as (o & s & G & _).
  apply get_observer_ok in G as [-> Ho].
  destruct (proj1 (proj2 Hs _ _ Ho)) as [el He].
  destruct (strict_eqb v (o_value o)) eqn:Ev.
  - rewrite (proj1 (setValue_eqn (call f) oid o el v st Ho He) Ev) in H. injection H as <-. reflexivity.
  - rewrite (proj2 (setValue_eqn (call f) oid o el v st Ho He) Ev) in H.
    eapply (pres_apply versions_kept) in H; [|apply callSubscribers_versions_kept, (calls_safe_subs _ _ _ Hs Ho)].
    etransitivity; [|exact H]. unfold written_state.
    etransitivity; [|apply versions_kept_add_event; intros ? ?; discriminate].
    apply versions_kept_same; reflexivity.
Qed.

(** X15 ([call], lines 106-130): a source change delivered to a bound
    one-time binding keeps its [_version] and connects no expression; in
    any other mode the version goes up by one and the expression is
    connected again. *)
Theorem one_time_binding_never_reconnects f bid b nv ov st st' :
  calls_safe st -> st_bindings st !! bid = Some b -> b_isBound b = true ->
  call (S f) bid sourceContext nv ov st = ROk tt st' ->
  exists b' d, st_bindings st' !! bid = Some b' /\ st_trace st' = (st_trace st ++ d)%list /\
    (b_mode b = OneTime -> b_version b' = b_version b /\ forall x, ~ In (EConnect x) d) /\
    (b_mode b <> OneTime -> In (EConnect bid) d).
Proof.
  intros Hs Hb Hbd H.
  destruct (proj1 Hs _ _ Hb Hbd) as [[src Hsrc] (oid & o & Hso & Ho & el & He)].
  cbn [call] in H. rewrite bind_emit in H. erewrite bind_get_binding in H by exact Hb.
  rewrite Hbd in H. cbn [negb] in H. rewrite (proj2 (proj2 context_eqbs)) in H.
  unfold observer_of in H. rewrite Hso, bind_ret in H.
  unfold getValue in H. rewrite !bind_assoc in H. erewrite bind_get_observer in H by exact Ho.
  rewrite bind_assoc in H. erewrite bind_get_element in H by exact He. rewrite bind_ret in H.
  unfold source_of in H. rewrite Hsrc, bind_ret in H.
  unfold evaluate in H. rewrite bind_assoc in H. erewrite bind_get_binding in H by exact Hb.
  rewrite bind_assoc, bind_emit, bind_gets in H.
  set (s2 := add_event (EEvaluate bid src) (add_event (ECall bid sourceContext nv ov) st)) in H.
  assert (V2 : versions_kept st s2).
  { etransitivity; apply versions_kept_add_event; intros ? ?; discriminate. }
  apply bindM_ok in H as ([] & s3 & H3 & H).
  assert (V3 : versions_kept s2 s3).
  { destruct (negb _).
    - unfold updateTarget in H3. erewrite bind_get_binding in H3 by exact Hb.
      unfold observer_of in H3. rewrite Hso, bind_ret in H3.
      eapply setValue_versions_kept; [|exact H3].
      apply calls_safe_add_event, calls_safe_add_event, Hs.
    - injection H3 as <-. reflexivity. }
  assert (V : versions_kept st s3) by (etransitivity; [exact V2|exact V3]).
  destruct V as [B (d3 & T3 & N3)]. destruct (B bid b Hb) as (b3 & Hb3 & Ev3).
  destruct (mode_eqb (b_mode b) OneTime) eqn:Em.
  - injection H as <-. exists b3, d3. split; [exact Hb3|]. split; [exact T3|].
    split; [auto|]. intros Hm. destruct (b_mode b); [|discriminate..]. contradiction.
  - cbn [negb] in H. unfold bump_version, put_binding in H.
    rewrite !bind_assoc in H. erewrite bind_get_binding in H by exact Hb3.
    rewrite bind_modify, bind_emit in H. unfold emit, modify in H. injection H as <-.
    exists (with_version b3 (S (b_version b3))), (d3 ++ [EConnect bid; EUnobserve bid false])%list.
    cbn. split; [apply lookup_insert_eq|]. split.
    + rewrite T3, <- !app_assoc. reflexivity.
    + split.
      * intros Hm. rewrite Hm in Em. discriminate.
      * intros _. apply in_or_app. right. left. reflexivity.
Qed.

Lemma setValue_caches f oid o el v st st1 :
  calls_safe st -> st_observers st !! oid = Some o -> st_elements st !! o_element o = Some el ->
  setValue (call f) oid v st = ROk tt st1 ->
  (exists o1, st_observers st1 !! oid = Some o1 /\ o_value o1 = v) /\
  exists d, st_trace st1 = (st_trace st ++ d)%list /\
    (strict_eqb v (o_value o) = false ->
       exists d', d = ESetProperty (o_element o) (o_hyphenatedCssRule o) v :: d').
Proof.
  intros Hs Ho He H. destruct (strict_eqb v (o_value o)) eqn:Ev.
  - rewrite (proj1 (setValue_eqn (call f) oid o el v st Ho He) Ev) in H. injection H as <-.
    split; [exists o; split; [exact Ho|symmetry; apply strict_eqb_eq, Ev]|].
    exists []. split; [symmetry; apply app_nil_r|discriminate].
  - rewrite (proj2 (setValue_eqn (call f) oid o el v st Ho He) Ev) in H.
    pose proof (callSubscribers_frame (call f) (call_frame f) _ _ _ _ _ H)
      as (_ & _ & _ & _ & _ & d & Td).
    apply callSubscribers_keep_view in H as [_ O1]; [|exact (calls_safe_subs _ _ _ Hs Ho)].
    unfold written_state in O1, Td. cbn in O1, Td.
    split; [exists (with_value o (o_value o) v); split; [rewrite O1; apply lookup_insert_eq|reflexivity]|].
    exists (ESetProperty (o_element o) (o_hyphenatedCssRule o) v :: d). split.
    + rewrite Td, <- app_assoc. reflexivity.
    + intros _. eauto.
Qed.

(** X16 ([connect], lines 197-206): [connect(true)] on a bound binding
    evaluates the source expression first and connects it last; in
    between its observer ends up caching the evaluated value, and when
    that value differs from the one cached before, the first step is the
    [setProperty] of that value on the observed property. *)
Theorem connect_evaluate_updates_target f bid b src oid o st st' :
  calls_safe st -> st_bindings st !! bid = Some b -> b_isBound b = true ->
  b_source b = Some src -> b_styleObserver b = Some oid -> st_observers st !! oid = Some o ->
  connect f bid true st = ROk tt st' ->
  (exists o', st_observers st' !! oid = Some o' /\
              o_value o' = ex_evaluate (b_sourceExpression b) src (st_heap st)) /\
  exists d, st_trace st' = (st_trace st ++ EEvaluate bid src :: d ++ [EConnect bid])%list /\
    (strict_eqb (ex_evaluate (b_sourceExpression b) src (st_heap st)) (o_value o) = false ->
       exists d', d = ESetProperty (o_element o) (o_hyphenatedCssRule o)
                        (ex_evaluate (b_sourceExpression b) src (st_heap st)) :: d').
Proof.
  intros Hs Hb Hbd Hsrc Hso Ho H.
  unfold connect in H. rewrite (bind_get_binding _ _ _ _ Hb), Hbd in H. cbn [negb] in H.
  unfold source_of in H. rewrite Hsrc, bind_ret in H.
  unfold evaluate in H. rewrite !bind_assoc in H. rewrite (bind_get_binding _ _ _ _ Hb) in H.
  rewrite !bind_assoc, bind_emit, bind_gets in H.
  unfold updateTarget in H. rewrite bind_assoc in H. erewrite bind_get_binding in H by exact Hb.
  unfold observer_of in H. rewrite Hso in H. cbv beta iota in H. rewrite bind_assoc, bind_ret in H.
  apply bindM_ok in H as ([] & s3 & H3 & H). unfold emit, modify in H. injection H as <-.
  destruct (proj1 (proj2 Hs _ _ Ho)) as [el He].
  apply (setValue_caches f oid o el) in H3 as ((o1 & Ho1 & V1) & d & Td & Hw);
    [|apply calls_safe_add_event, Hs|exact Ho|exact He].
  split.
  - exists o1. split; [exact Ho1|exact V1].
  - exists d. split; [|exact Hw]. cbn. rewrite Td. cbn. rewrite <- !app_assoc. reflexivity.
Qed.


(** ** Witnesses *)

Lemma example_state_calls_safe : calls_safe example_state.
Proof.
  split.
  - intros bid b Hb Hbd. change (({[0 := example_binding]} : gmap nat Binding) !! bid = Some b) in Hb.
    apply lookup_singleton_Some in Hb as [<- <-].
    split; [eexists; reflexivity|].
    exists 0, example_observer. split; [reflexivity|]. split; [reflexivity|].
    eexists; reflexivity.
  - intros oid o Ho. change (({[0 := example_observer]} : gmap nat Observer) !! oid = Some o) in Ho.
    apply lookup_singleton_Some in Ho as [<- <-].
    split; [eexists; reflexivity|].
    intros ctx c [H|[]]. injection H as <- <-. split; [reflexivity|eexists; reflexivity].
Qed.

Lemma setValue_dedup_and_notify_witness :
  st_observers example_state !! 0 = Some example_observer /\
  st_elements example_state !! 0 = Some example_element /\
  ((strict_eqb (VStr "green") (o_value example_observer) = true ->
    setValue (call 3) 0 (VStr "green") example_state = ROk tt example_state) /\
   (strict_eqb (VStr "green") (o_value example_observer) = false ->
    setValue (call 3) 0 (VStr "green") example_state =
    callSubscribers (call 3) (o_subs example_observer) (VStr "green") (o_value example_observer)
      (written_state 0 example_observer example_element (VStr "green") example_state))).
Proof.
  split; [reflexivity|]. split; [reflexivity|].
  apply (setValue_dedup_and_notify (call 3) 0 example_observer example_element); reflexivity.
Defined.

Lemma syncValue_shifts_and_notifies_without_write_witness :
  st_observers example_state !! 0 = Some example_observer /\
  st_elements example_state !! 0 = Some example_element /\
  ((strict_eqb (live_value example_observer example_element) (o_value example_observer) = true ->
    syncValue (call 3) 0 example_state = ROk tt example_state) /\
   (strict_eqb (live_value example_observer example_element) (o_value example_observer) = false ->
    syncValue (call 3) 0 example_state =
    callSubscribers (call 3) (o_subs example_observer)
      (live_value example_observer example_element) (o_value example_observer)
      (synced_state 0 example_observer (live_value example_observer example_element) example_state))).
Proof.
  split; [reflexivity|]. split; [reflexivity|].
  apply (syncValue_shifts_and_notifies_without_write (call 3) 0 example_observer example_element);
    reflexivity.
Defined.

Lemma watch_handle_follows_subscribers_witness :
  watch_inv example_observer /\
  (let o' := (subscribe example_observer sourceContext 1).1 in
   watch_inv o' /\
   ((o_mo example_observer = None /\ is_Some (o_mo o')) <->
    (length (o_subs example_observer) = 0 /\ length (o_subs o') = 1)) /\
   (is_Some (o_mo example_observer) -> o_mo o' = o_mo example_observer)) /\
  (let o' := (unsubscribe example_observer sourceContext 1).1 in
   watch_inv o' /\
   ((is_Some (o_mo example_observer) /\ o_mo o' = None) <->
    (length (o_subs example_observer) = 1 /\ length (o_subs o') = 0)) /\
   (is_Some (o_mo o') -> o_mo o' = o_mo example_observer)).
Proof.
  assert (H : watch_inv example_observer).
  { split; [intros _; discriminate|intros _; eexists; reflexivity]. }
  split; [exact H|]. apply (watch_handle_follows_subscribers example_observer sourceContext 1 H).
Defined.

Lemma unsubscribe_absent_pair_is_noop_witness :
  ~ In (sourceContext, 0) (o_subs example_observer) /\
  unsubscribe example_observer sourceContext 0 = (example_observer, []).
Proof.
  assert (H : ~ In (sourceContext, 0) (o_subs example_observer)).
  { simpl. intros [H|[]]. discriminate. }
  split; [exact H|]. apply (unsubscribe_absent_pair_is_noop example_observer sourceContext 0 H).
Defined.

Lemma call_throws_iff_unknown_context_witness :
  calls_safe example_state /\ st_bindings example_state !! 0 = Some example_binding /\
  (((exists msg, call 2 0 "bogus" VUndef VUndef example_state = RThrow msg) <->
     b_isBound example_binding = true /\ "bogus" <> sourceContext /\ "bogus" <> styleObserverContext) /\
   (forall msg, call 2 0 "bogus" VUndef VUndef example_state = RThrow msg ->
     exists pre post, msg = pre ++ "bogus" ++ post) /\
   (b_isBound example_binding = false ->
     call 2 0 "bogus" VUndef VUndef example_state =
     ROk tt (add_event (ECall 0 "bogus" VUndef VUndef) example_state))).
Proof.
  split; [exact example_state_calls_safe|]. split; [reflexivity|].
  apply (call_throws_iff_unknown_context 1 0 "bogus" VUndef VUndef example_state example_binding
           example_state_calls_safe); reflexivity.
Defined.

Lemma bind_twice_same_source_is_noop_witness :
  bind 3 0 7 (bind_example_state TwoWay) = ROk tt bind_example_result /\
  bind 5 0 7 bind_example_result = ROk tt bind_example_result.
Proof.
  assert (H : bind 3 0 7 (bind_example_state TwoWay) = ROk tt bind_example_result)
    by (vm_compute; reflexivity).
  split; [exact H|].
  exact (bind_twice_same_source_is_noop 3 5 0 7 (bind_example_state TwoWay) bind_example_result H).
Defined.

(** Claim C3: re-binding a from-view binding to the source it is bound to
    does not read the inline style, although the element has a [style]
    attribute holding the rule: the source keeps ["red"], not ["blue"]. *)
Lemma from_view_rebind_skips_read_counterexample :
  st_elements from_view_bound_state !! 0 = Some example_element /\
  el_hasStyleAttr example_element = true /\
  findRuleValue (el_style example_element) (hyphenate_uncached "color") = Some "blue" /\
  bind 3 0 7 from_view_bound_state = ROk tt from_view_bound_state /\
  st_heap from_view_bound_state !! (7, "color") = Some (VStr "red").
Proof. vm_compute. repeat split; reflexivity. Qed.

Lemma from_view_bind_initial_read_witness :
  st_bindings (bind_example_state FromView) !! 0 = Some (fresh_binding FromView) /\
  b_mode (fresh_binding FromView) = FromView /\
  ~ bound_to 0 7 (bind_example_state FromView) /\
  cache_ok (bind_example_state FromView) /\ observers_fresh (bind_example_state FromView) /\
  st_elements (bind_example_state FromView) !! 0 = Some (mkElement true [("color", "blue")] None) /\
  bind 3 0 7 (bind_example_state FromView) = ROk tt from_view_bind_result /\
  ((exists d, st_trace from_view_bind_result = (st_trace (bind_example_state FromView) ++ d)%list /\
     match (if el_hasStyleAttr (mkElement true [("color", "blue")] None)
            then findRuleValue (el_style (mkElement true [("color", "blue")] None))
                   (hyphenate_uncached (b_targetProperty (fresh_binding FromView))) else None) with
     | Some v => st_heap from_view_bind_result =
                 ex_assign (b_sourceExpression (fresh_binding FromView)) 7 (VStr v)
                   (st_heap (bind_example_state FromView)) /\
                 List.filter touches d = [EAssign 0 7 (VStr v)]
     | None => st_heap from_view_bind_result = st_heap (bind_example_state FromView) /\
               List.filter touches d = []
     end) /\
   style_view <$> st_elements from_view_bind_result =
   style_view <$> st_elements (bind_example_state FromView) /\
   (forall oid o, st_observers (bind_example_state FromView) !! oid = Some o ->
      exists o', st_observers from_view_bind_result !! oid = Some o' /\ o_value o' = o_value o /\
                 o_prevValue o' = o_prevValue o)).
Proof.
  assert (H1 : st_bindings (bind_example_state FromView) !! 0 = Some (fresh_binding FromView))
    by reflexivity.
  assert (H2 : ~ bound_to 0 7 (bind_example_state FromView)).
  { intros (b & Hb & Hbd & _). vm_compute in Hb. injection Hb as <-. discriminate. }
  assert (H3 : cache_ok (bind_example_state FromView)).
  { intros n h Hn. vm_compute in Hn. discriminate. }
  assert (H4 : observers_fresh (bind_example_state FromView)).
  { intros oid _. reflexivity. }
  assert (H5 : st_elements (bind_example_state FromView) !! 0 =
               Some (mkElement true [("color", "blue")] None)) by reflexivity.
  assert (H6 : bind 3 0 7 (bind_example_state FromView) = ROk tt from_view_bind_result)
    by (vm_compute; reflexivity).
  do 7 (split; [assumption || reflexivity|]).
  exact (from_view_bind_initial_read 3 0 7 (bind_example_state FromView) from_view_bind_result
           (fresh_binding FromView) (mkElement true [("color", "blue")] None)
           H1 eq_refl H2 H3 H4 H5 H6).
Defined.

Lemma fresh_observer_undefined_is_noop_witness :
  bind 3 0 8 (bind_example_state ToView) = ROk tt undefined_bind_result /\
  style_view <$> st_elements undefined_bind_result =
    style_view <$> st_elements (bind_example_state ToView) /\
  exists d, st_trace undefined_bind_result = (st_trace (bind_example_state ToView) ++ d)%list /\
            List.filter writes_style d = [].
Proof.
  assert (H : bind 3 0 8 (bind_example_state ToView) = ROk tt undefined_bind_result)
    by (vm_compute; reflexivity).
  split; [exact H|].
  apply (proj2 (proj2 fresh_observer_undefined_is_noop) 3 0 8 (bind_example_state ToView)
           undefined_bind_result (fresh_binding ToView) (mkElement true [("color", "blue")] None)).
  - reflexivity.
  - discriminate.
  - intros (b & Hb & Hi & _). vm_compute in Hb. injection Hb as <-. discriminate Hi.
  - intros n h Hc. vm_compute in Hc. discriminate Hc.
  - reflexivity.
  - intros m Hm. discriminate Hm.
  - reflexivity.
  - exact H.
Defined.

Lemma observer_shared_per_hyphenated_key_witness :
  bind 3 0 7 (spelled_state "backgroundColor" "background-color") =
    ROk tt (spelled_bound1 "backgroundColor" "background-color") /\
  bind 3 1 7 (spelled_bound1 "backgroundColor" "background-color") =
    ROk tt (spelled_bound2 "backgroundColor" "background-color") /\
  unbind 0 (spelled_bound2 "backgroundColor" "background-color") =
    ROk tt (spelled_unbound "backgroundColor" "background-color") /\
  exists oid,
    (exists b1', st_bindings (spelled_bound2 "backgroundColor" "background-color") !! 0 = Some b1' /\
                 b_styleObserver b1' = Some oid) /\
    (exists b2', st_bindings (spelled_bound2 "backgroundColor" "background-color") !! 1 = Some b2' /\
                 b_styleObserver b2' = Some oid /\
                 st_bindings (spelled_unbound "backgroundColor" "background-color") !! 1 = Some b2').
Proof.
  assert (H1 : bind 3 0 7 (spelled_state "backgroundColor" "background-color") =
                 ROk tt (spelled_bound1 "backgroundColor" "background-color"))
    by (vm_compute; reflexivity).
  assert (H2 : bind 3 1 7 (spelled_bound1 "backgroundColor" "background-color") =
                 ROk tt (spelled_bound2 "backgroundColor" "background-color"))
    by (vm_compute; reflexivity).
  assert (H3 : unbind 0 (spelled_bound2 "backgroundColor" "background-color") =
                 ROk tt (spelled_unbound "backgroundColor" "background-color"))
    by (vm_compute; reflexivity).
  split; [exact H1|]. split; [exact H2|]. split; [exact H3|].
  destruct (observer_shared_per_hyphenated_key 3 3 0 1 7 7
              (spelled_state "backgroundColor" "background-color")
              (spelled_bound1 "backgroundColor" "background-color")
              (spelled_bound2 "backgroundColor" "background-color")
              (spelled_unbound "backgroundColor" "background-color")
              (spelled_binding "backgroundColor") (spelled_binding "background-color"))
    as (oid & A & B & _ & _).
  - discriminate.
  - reflexivity.
  - reflexivity.
  - reflexivity.
  - vm_compute. reflexivity.
  - intros n h Hc. vm_compute in Hc. discriminate Hc.
  - intros (b & Hb & Hi & _). vm_compute in Hb. injection Hb as <-. discriminate Hi.
  - intros (b & Hb & Hi & _). vm_compute in Hb. injection Hb as <-. discriminate Hi.
  - exact H1.
  - exact H2.
  - exact H3.
  - exists oid. split; [exact A|exact B].
Defined.

(** Claim C5: the camel-cased attribute of [-webkit-transition] is
    [WebkitTransition], which [hyphenate] turns into [webkit-transition],
    not [-webkit-transition]: two bindings on one element spelling the
    property these two ways get two observers (0 and 1). *)
Lemma vendor_prefixed_spellings_split_observer_counterexample :
  css_property_to_idl_attribute "-webkit-transition" = "WebkitTransition" /\
  hyphenate_uncached "WebkitTransition" = "webkit-transition" /\
  hyphenate_uncached "-webkit-transition" = "-webkit-transition" /\
  bind 3 0 7 (spelled_state "WebkitTransition" "-webkit-transition") =
    ROk tt (spelled_bound1 "WebkitTransition" "-webkit-transition") /\
  bind 3 1 7 (spelled_bound1 "WebkitTransition" "-webkit-transition") =
    ROk tt (spelled_bound2 "WebkitTransition" "-webkit-transition") /\
  b_styleObserver <$> st_bindings (spelled_bound2 "WebkitTransition" "-webkit-transition") !! 0 =
    Some (Some 0) /\
  b_styleObserver <$> st_bindings (spelled_bound2 "WebkitTransition" "-webkit-transition") !! 1 =
    Some (Some 1).
Proof. repeat match goal with |- _ /\ _ => split end; vm_compute; reflexivity. Qed.

Lemma two_way_round_trip_and_no_echo_witness :
  call 3 0 styleObserverContext (VStr "red") (VStr "blue") example_state = ROk tt round_trip_assigned /\
  call 3 0 sourceContext (VStr "red") (VStr "blue") round_trip_assigned = ROk tt round_trip_settled /\
  st_elements round_trip_settled = st_elements example_state /\
  st_observers round_trip_settled = st_observers example_state /\
  external_set_style 0 "color" (VStr "red") example_state = ROk tt restyled_example /\
  getValue 0 restyled_example = ROk (VStr "red") restyled_example /\
  mutation_callback 3 0 restyled_example = ROk tt restyled_synced /\
  restyled_synced = restyled_example.
Proof.
  assert (H1 : call 3 0 styleObserverContext (VStr "red") (VStr "blue") example_state =
                 ROk tt round_trip_assigned) by (vm_compute; reflexivity).
  assert (H2 : call 3 0 sourceContext (VStr "red") (VStr "blue") round_trip_assigned =
                 ROk tt round_trip_settled) by (vm_compute; reflexivity).
  assert (H3 : external_set_style 0 "color" (VStr "red") example_state = ROk tt restyled_example)
    by (vm_compute; reflexivity).
  assert (H4 : mutation_callback 3 0 restyled_example = ROk tt restyled_synced)
    by (vm_compute; reflexivity).
  assert (H5 : getValue 0 restyled_example = ROk (VStr "red") restyled_example)
    by (vm_compute; reflexivity).
  destruct (proj1 two_way_round_trip_and_no_echo 3 3 0 example_binding 0 example_observer
              example_element 7 (VStr "red") (VStr "blue") (VStr "red") (VStr "blue")
              example_state round_trip_assigned round_trip_settled)
    as (_ & _ & E & O & _);
    [reflexivity|reflexivity|reflexivity|reflexivity|reflexivity|reflexivity|reflexivity
    |reflexivity|discriminate|reflexivity|vm_compute; reflexivity|exact H1|exact H2|].
  split; [exact H1|]. split; [exact H2|]. split; [exact E|]. split; [exact O|].
  split; [exact H3|]. split; [exact H5|]. split; [exact H4|].
  exact (proj2 two_way_round_trip_and_no_echo 3 0 example_observer (VStr "red")
           example_state restyled_example restyled_synced eq_refl H3 H5 H4).
Defined.

(** Claim C2: a two-way binding of [opacity] to the number 1 writes the
    string ["1"] to the inline style and caches the number 1 in its
    observer.  Setting the inline style to ["1"], the value the source
    derives, makes the observer read ["1"] !== 1 and notify the binding,
    which assigns the string ["1"] to the source. *)
Lemma numeric_source_echoes_counterexample :
  bind 3 0 7 numeric_state = ROk tt numeric_bound /\
  ex_evaluate (prop_expr "opacity") 7 (st_heap numeric_bound) = VNum 1 /\
  option_map el_style (st_elements numeric_bound !! 0) = Some [("opacity", "1")] /\
  external_set_style 0 "opacity" (VStr "1") numeric_bound = ROk tt numeric_restyled /\
  mutation_callback 3 0 numeric_restyled = ROk tt numeric_synced /\
  st_trace numeric_synced =
    (st_trace numeric_restyled ++ [ECall 0 styleObserverContext (VStr "1") (VNum 1);
                                   EAssign 0 7 (VStr "1")])%list /\
  ex_evaluate (prop_expr "opacity") 7 (st_heap numeric_synced) = VStr "1".
Proof. repeat match goal with |- _ /\ _ => split end; vm_compute; reflexivity. Qed.

Lemma hyphenate_fixes_names_without_capitals_witness :
  (forall n h, ({["backgroundColor" := "background-color"]} : gmap string string) !! n = Some h ->
     h = hyphenate_uncached n) /\
  ascii_only "background-color" = true /\ no_capitals "background-color" = true /\
  (hyphenate {["backgroundColor" := "background-color"]} "background-color").1 = "background-color".
Proof.
  assert (Hc : forall n h, ({["backgroundColor" := "background-color"]} : gmap string string) !! n = Some h ->
                 h = hyphenate_uncached n).
  { intros n h H. apply lookup_singleton_Some in H as [<- <-]. vm_compute. reflexivity. }
  assert (Ha : ascii_only "background-color" = true) by reflexivity.
  assert (Hn : no_capitals "background-color" = true) by reflexivity.
  split; [exact Hc|]. split; [exact Ha|]. split; [exact Hn|].
  exact (hyphenate_fixes_names_without_capitals _ _ Hc Ha Hn).
Defined.

Lemma hyphenate_memo_is_transparent_witness :
  (forall n h, ({["backgroundColor" := "background-color"]} : gmap string string) !! n = Some h ->
     h = hyphenate_uncached n) /\
  let '(h, cache') := hyphenate {["backgroundColor" := "background-color"]} "fontSize" in
  h = hyphenate_uncached "fontSize" /\ cache' !! "fontSize" = Some h /\
  (forall n h', ({["backgroundColor" := "background-color"]} : gmap string string) !! n = Some h' ->
     cache' !! n = Some h') /\
  (forall n h', cache' !! n = Some h' -> h' = hyphenate_uncached n) /\
  hyphenate cache' "fontSize" = (h, cache').
Proof.
  assert (Hc : forall n h, ({["backgroundColor" := "background-color"]} : gmap string string) !! n = Some h ->
                 h = hyphenate_uncached n).
  { intros n h H. apply lookup_singleton_Some in H as [<- <-]. vm_compute. reflexivity. }
  split; [exact Hc|]. exact (hyphenate_memo_is_transparent _ "fontSize" Hc).
Defined.

Lemma subscribers_stay_duplicate_free_witness :
  NoDup (o_subs example_observer) /\
  (NoDup (o_subs (subscribe example_observer styleObserverContext 1).1) /\
   In (styleObserverContext, 1) (o_subs (subscribe example_observer styleObserverContext 1).1)) /\
  (NoDup (o_subs (unsubscribe example_observer styleObserverContext 1).1) /\
   ~ In (styleObserverContext, 1) (o_subs (unsubscribe example_observer styleObserverContext 1).1)).
Proof.
  assert (H : NoDup (o_subs example_observer)) by apply NoDup_singleton.
  split; [exact H|]. exact (subscribers_stay_duplicate_free _ _ _ H).
Defined.

Lemma subscribe_then_unsubscribe_restores_witness :
  ~ In (styleObserverContext, 0) (o_subs unwatched_observer) /\
  (o_subs unwatched_observer = [] -> o_mo unwatched_observer = None) /\
  let '(o1, evs1) := subscribe unwatched_observer styleObserverContext 0 in
  let '(o2, evs2) := unsubscribe o1 styleObserverContext 0 in
  o2 = unwatched_observer /\
  (evs1 ++ evs2)%list = (if hasSubscribers unwatched_observer then []
                         else [EObserve (o_element unwatched_observer);
                               EDisconnect (o_element unwatched_observer)]).
Proof.
  assert (H1 : ~ In (styleObserverContext, 0) (o_subs unwatched_observer)) by (intros []).
  assert (H2 : o_subs unwatched_observer = [] -> o_mo unwatched_observer = None) by (intros _; reflexivity).
  split; [exact H1|]. split; [exact H2|].
  exact (subscribe_then_unsubscribe_restores _ _ _ H1 H2).
Defined.

Lemma syncValue_settles_witness :
  calls_safe example_state /\ st_observers example_state !! 0 = Some example_observer /\
  st_elements example_state !! o_element example_observer = Some example_element /\
  syncValue (call 3) 0 example_state =
    ROk tt (run_state (syncValue (call 3) 0 example_state) example_state) /\
  syncValue (call 3) 0 (run_state (syncValue (call 3) 0 example_state) example_state) =
    ROk tt (run_state (syncValue (call 3) 0 example_state) example_state).
Proof.
  assert (H : syncValue (call 3) 0 example_state =
    ROk tt (run_state (syncValue (call 3) 0 example_state) example_state)) by (vm_compute; reflexivity).
  split; [exact example_state_calls_safe|]. split; [reflexivity|]. split; [reflexivity|].
  split; [exact H|].
  exact (syncValue_settles 3 0 example_observer example_element _ _ example_state_calls_safe
           eq_refl eq_refl H).
Defined.


Lemma unbind_releases_binding_witness :
  st_bindings example_state !! 0 = Some example_binding /\ b_isBound example_binding = true /\
  b_styleObserver example_binding = Some 0 /\ st_observers example_state !! 0 = Some example_observer /\
  NoDup (o_subs example_observer) /\ unbind 0 example_state = ROk tt unbound_example /\
  (exists b', st_bindings unbound_example !! 0 = Some b' /\ b_isBound b' = false /\ b_source b' = None /\
              b_styleObserver b' = None /\ binding_statics b' = binding_statics example_binding) /\
  (exists o', st_observers unbound_example !! 0 = Some o' /\ ~ In (styleObserverContext, 0) (o_subs o')) /\
  unbind 0 unbound_example = ROk tt unbound_example.
Proof.
  assert (H1 : NoDup (o_subs example_observer)) by apply NoDup_singleton.
  assert (H2 : unbind 0 example_state = ROk tt unbound_example) by (vm_compute; reflexivity).
  do 4 (split; [reflexivity|]). split; [exact H1|]. split; [exact H2|].
  exact (unbind_releases_binding 0 example_state unbound_example example_binding 0 example_observer
           eq_refl eq_refl eq_refl eq_refl H1 H2).
Defined.

Lemma unbind_spares_other_bindings_witness :
  unbind 0 shared_state = ROk tt shared_unbound /\ 1 <> 0 /\
  st_bindings shared_state !! 1 = Some shared_binding1 /\
  st_bindings shared_unbound !! 1 = Some shared_binding1 /\
  (forall oid o, st_observers shared_state !! oid = Some o ->
     In (styleObserverContext, 1) (o_subs o) ->
     exists o', st_observers shared_unbound !! oid = Some o' /\
                In (styleObserverContext, 1) (o_subs o') /\
                o_mo o' = o_mo o /\ o_value o' = o_value o /\ o_prevValue o' = o_prevValue o).
Proof.
  assert (H1 : unbind 0 shared_state = ROk tt shared_unbound) by (vm_compute; reflexivity).
  assert (H2 : st_bindings shared_state !! 1 = Some shared_binding1) by (vm_compute; reflexivity).
  split; [exact H1|]. split; [discriminate|]. split; [exact H2|].
  exact (unbind_spares_other_bindings 0 1 shared_state shared_unbound shared_binding1
           H1 ltac:(discriminate) H2).
Defined.

Lemma last_unsubscribe_stops_mutation_callback_witness :
  st_observers example_state !! 0 = Some example_observer /\
  o_subs example_observer = [(styleObserverContext, 0)] /\
  unsubscribeM 0 styleObserverContext 0 example_state = ROk tt unsubscribed_example /\
  (exists o1, st_observers unsubscribed_example !! 0 = Some o1 /\ o_subs o1 = [] /\ o_mo o1 = None) /\
  mutation_callback 3 0 unsubscribed_example = ROk tt unsubscribed_example.
Proof.
  assert (H : unsubscribeM 0 styleObserverContext 0 example_state = ROk tt unsubscribed_example)
    by (vm_compute; reflexivity).
  split; [reflexivity|]. split; [reflexivity|]. split; [exact H|].
  exact (last_unsubscribe_stops_mutation_callback 3 0 example_observer styleObserverContext 0
           example_state unsubscribed_example eq_refl eq_refl H).
Defined.

Lemma created_binding_is_inert_witness :
  st_bindings (bind_example_state ToView) !! 0 = Some (createBinding (color_style_expression ToView) 0) /\
  unbind 0 (bind_example_state ToView) = ROk tt (bind_example_state ToView) /\
  (forall ev, connect 3 0 ev (bind_example_state ToView) = ROk tt (bind_example_state ToView)) /\
  (forall ctx nv ov, call 4 0 ctx nv ov (bind_example_state ToView) =
                     ROk tt (add_event (ECall 0 ctx nv ov) (bind_example_state ToView))).
Proof.
  assert (H : st_bindings (bind_example_state ToView) !! 0 =
              Some (createBinding (color_style_expression ToView) 0)) by reflexivity.
  split; [exact H|].
  exact (created_binding_is_inert (color_style_expression ToView) 0 3 0 _ H).
Defined.

Lemma bind_leaves_binding_bound_witness :
  bind 3 0 7 (bind_example_state TwoWay) = ROk tt bind_example_result /\
  bound_to 0 7 bind_example_result.
Proof.
  assert (H : bind 3 0 7 (bind_example_state TwoWay) = ROk tt bind_example_result)
    by (vm_compute; reflexivity).
  split; [exact H|]. exact (bind_leaves_binding_bound 3 0 7 _ _ H).
Defined.

Lemma style_commands_subscribe_only_two_way_and_from_view_witness :
  interpret_command "style-two-way" color_command_parse "color" "color" =
    Some (color_style_expression TwoWay) /\
  st_bindings (bind_example_state TwoWay) !! 0 = Some (createBinding (color_style_expression TwoWay) 0) /\
  not_subscribed 0 (bind_example_state TwoWay) /\
  bind 3 0 7 (bind_example_state TwoWay) = ROk tt bind_example_result /\
  exists b' oid o', st_bindings bind_example_result !! 0 = Some b' /\ b_styleObserver b' = Some oid /\
    st_observers bind_example_result !! oid = Some o' /\
    (In (styleObserverContext, 0) (o_subs o') <->
       "style-two-way" = "style-two-way" \/ "style-two-way" = "style-from-view").
Proof.
  assert (H1 : interpret_command "style-two-way" color_command_parse "color" "color" =
               Some (color_style_expression TwoWay)) by reflexivity.
  assert (H2 : st_bindings (bind_example_state TwoWay) !! 0 =
               Some (createBinding (color_style_expression TwoWay) 0)) by reflexivity.
  assert (H3 : not_subscribed 0 (bind_example_state TwoWay)).
  { intros oid o Ho. cbn in Ho. rewrite lookup_empty in Ho. discriminate. }
  assert (H4 : bind 3 0 7 (bind_example_state TwoWay) = ROk tt bind_example_result)
    by (vm_compute; reflexivity).
  split; [exact H1|]. split; [exact H2|]. split; [exact H3|]. split; [exact H4|].
  exact (style_commands_subscribe_only_two_way_and_from_view _ _ _ _ _ 0 3 0 7 _ _ H1 H2 H3 H4).
Defined.

Lemma one_time_state_calls_safe : calls_safe one_time_state.
Proof.
  split.
  - intros bid b Hb Hbd. change (({[0 := one_time_binding]} : gmap nat Binding) !! bid = Some b) in Hb.
    apply lookup_singleton_Some in Hb as [<- <-].
    split; [eexists; reflexivity|].
    exists 0, unwatched_observer. split; [reflexivity|]. split; [reflexivity|].
    eexists; reflexivity.
  - intros oid o Ho. change (({[0 := unwatched_observer]} : gmap nat Observer) !! oid = Some o) in Ho.
    apply lookup_singleton_Some in Ho as [<- <-].
    split; [eexists; reflexivity|]. intros ctx c [].
Qed.

Lemma one_time_binding_never_reconnects_witness :
  calls_safe one_time_state /\ st_bindings one_time_state !! 0 = Some one_time_binding /\
  b_isBound one_time_binding = true /\
  call 3 0 sourceContext VUndef VUndef one_time_state = ROk tt one_time_called /\
  exists b' d, st_bindings one_time_called !! 0 = Some b' /\
    st_trace one_time_called = (st_trace one_time_state ++ d)%list /\
    (b_mode one_time_binding = OneTime -> b_version b' = b_version one_time_binding /\
       forall x, ~ In (EConnect x) d) /\
    (b_mode one_time_binding <> OneTime -> In (EConnect 0) d).
Proof.
  assert (H : call 3 0 sourceContext VUndef VUndef one_time_state = ROk tt one_time_called)
    by (vm_compute; reflexivity).
  split; [exact one_time_state_calls_safe|]. split; [reflexivity|]. split; [reflexivity|].
  split; [exact H|].
  exact (one_time_binding_never_reconnects 2 0 one_time_binding VUndef VUndef _ _
           one_time_state_calls_safe eq_refl eq_refl H).
Defined.

Lemma recolored_state_calls_safe : calls_safe recolored_state.
Proof. exact (frame_calls_safe _ _ (frame_set_heap _ _) example_state_calls_safe). Qed.

Lemma connect_evaluate_updates_target_witness :
  calls_safe recolored_state /\ st_bindings recolored_state !! 0 = Some example_binding /\
  b_isBound example_binding = true /\ b_source example_binding = Some 7 /\
  b_styleObserver example_binding = Some 0 /\
  st_observers recolored_state !! 0 = Some example_observer /\
  connect 3 0 true recolored_state = ROk tt recolored_connected /\
  (exists o', st_observers recolored_connected !! 0 = Some o' /\ o_value o' = VStr "green") /\
  exists d, st_trace recolored_connected =
            (st_trace recolored_state ++ EEvaluate 0 7 :: d ++ [EConnect 0])%list /\
    (strict_eqb (VStr "green") (o_value example_observer) = false ->
       exists d', d = ESetProperty 0 "color" (VStr "green") :: d').
Proof.
  assert (H : connect 3 0 true recolored_state = ROk tt recolored_connected)
    by (vm_compute; reflexivity).
  split; [exact recolored_state_calls_safe|]. do 5 (split; [reflexivity|]).
  split; [exact H|].
  exact (connect_evaluate_updates_target 3 0 example_binding 7 0 example_observer _ _
           recolored_state_calls_safe eq_refl eq_refl eq_refl eq_refl eq_refl H).
Defined.
